(** * EC135 annunciator bridge: SimConnect (MobiFlight LVARs) to WinWing MCDU

    A shallow embedding of [Scripts/Winwing/microsoft_aircraft_ec135.py]
    and the properties of its four components: the display grid, label
    compaction and paging, the variable access layer and the reconnecting
    sender.

    Conventions of the embedding.
    - A Python [str] is the list of its code points ([pystr]); [py "..."]
      embeds an ASCII literal.
    - A Python [int] is a [Z]; a Python [float] is an IEEE-754 binary64
      value, a [spec_float] of the Standard Library.
    - A Python list is a [list]; indexing follows Python (negative indices
      count from the end, anything else out of range raises [IndexError]).
    - Code that can raise returns an [option] (one possible exception) or
      a [result] (several); code that mutates state threads it explicitly. *)

From Stdlib Require Import ZArith Ascii String QArith DecimalString.
From Stdlib Require Import Floats.SpecFloat.
From stdpp Require Import base option list gmap strings.

Local Open Scope Z_scope.
Set Warnings "-register-all".

(** ** Python values used by the script *)

Abbreviation pystr := (list N) (only parsing).

(** An ASCII literal as a Python string. *)
Definition py (s : string) : pystr :=
  (λ a, N_of_ascii a) <$> list_ascii_of_string s.

(** Python's [l[i]] index resolution: [None] is [IndexError]. *)
Definition py_index {A} (l : list A) (i : Z) : option nat :=
  if bool_decide (0 ≤ i < Z.of_nat (length l)) then Some (Z.to_nat i)
  else if bool_decide (- Z.of_nat (length l) ≤ i < 0)
       then Some (Z.to_nat (Z.of_nat (length l) + i))
       else None.

Definition py_getitem {A} (l : list A) (i : Z) : option A :=
  n ← py_index l i; l !! n.

Definition py_setitem {A} (l : list A) (i : Z) (x : A) : option (list A) :=
  n ← py_index l i; Some (<[n:=x]> l).

(** Python's [l[start:stop]] for integer bounds: each bound is taken from
    the end when negative, then clamped to the list. *)
Definition py_clamp (len i : Z) : Z :=
  if bool_decide (i < 0) then Z.max (i + len) 0 else Z.min i len.

Definition py_slice {A} (l : list A) (start stop : Z) : list A :=
  let len := Z.of_nat (length l) in
  let a := py_clamp len start in
  let b := py_clamp len stop in
  take (Z.to_nat (b - a)) (drop (Z.to_nat a) l).

(** [range(a, b)] *)
Definition py_range (a b : Z) : list Z := seqZ a (b - a).

(** [s.ljust(w)] *)
Definition ljust (s : pystr) (w : Z) : pystr :=
  s ++ replicate (Z.to_nat (w - Z.of_nat (length s))) 32%N.

(** A [for] loop whose body may raise: the state is threaded through the
    iterations and the first exception ends the loop. *)
Fixpoint for_each {A S} (xs : list A) (body : A → S → option S) (s : S)
  : option S :=
  match xs with
  | [] => Some s
  | x :: rest => s' ← body x s; for_each rest body s'
  end.

(** ** MCDU display primitives *)

Definition CDU_COLUMNS : Z := 24.
Definition CDU_ROWS : Z := 14.
Definition LARGE : Z := 0.
Definition SMALL : Z := 1.

(** A cell is a Python list: empty, or [[glyph, colour, size]]. *)
Inductive atom :=
  | AStr (s : pystr)
  | AInt (n : Z).

Abbreviation Cell := (list atom) (only parsing).
Abbreviation Grid := (list (list (list atom))) (only parsing).

Definition empty_grid : Grid :=
  replicate (Z.to_nat CDU_ROWS) (replicate (Z.to_nat CDU_COLUMNS) []).

Definition REPLACED : gmap N pystr :=
  list_to_map
    [ (0x2190%N, [0x2190%N]); (0x2192%N, [0x2192%N]);
      (0x2191%N, [0x2191%N]); (0x2193%N, [0x2193%N]);
      (95%N, [0x2610%N]);   (* _ *)
      (0xb0%N, [0xb0%N]);   (* degree sign *)
      (38%N, [0x394%N]);    (* & *)
      (0xa0%N, [32%N]);     (* no-break space *)
      (123%N, [0x2190%N]);  (* { *)
      (125%N, [0x2192%N]);  (* } *)
      (124%N, [47%N]) ].    (* | *)

(** [REPLACED.get(ch, ch)] *)
Definition glyph (ch : N) : pystr := default [ch] (REPLACED !! ch).

(** [grid[row][col] = cell] *)
Definition grid_set (grid : Grid) (row col : Z) (cell : Cell) : option Grid :=
  r ← py_getitem grid row;
  r' ← py_setitem r col cell;
  py_setitem grid row r'.

(** The loop of [put_text]; [i] is the index [enumerate] has reached. *)
Fixpoint put_text_from (grid : Grid) (text : pystr) (row col i : Z)
    (colour : pystr) (size : Z) : option Grid :=
  match text with
  | [] => Some grid
  | ch :: rest =>
      let cc := col + i in
      grid' ← (if bool_decide (0 ≤ cc < CDU_COLUMNS)
               then grid_set grid row cc [AStr (glyph ch); AStr colour; AInt size]
               else Some grid);
      put_text_from grid' rest row col (i + 1) colour size
  end.

Definition put_text (grid : Grid) (text : pystr) (row col : Z)
    (colour : pystr) (size : Z) : option Grid :=
  if negb (bool_decide (0 ≤ row < CDU_ROWS)) then Some grid
  else put_text_from grid text row col 0 colour size.

Definition put_text_center (grid : Grid) (text : pystr) (row : Z)
    (colour : pystr) (size : Z) : option Grid :=
  let text := py_slice text 0 CDU_COLUMNS in
  let col := (CDU_COLUMNS - Z.of_nat (length text)) `div` 2 in
  put_text grid text row col colour size.

(** ** The wire document *)

Inductive json :=
  | JStr (s : pystr)
  | JInt (n : Z)
  | JArr (l : list json)
  | JObj (l : list (pystr * json)).

Definition atom_json (a : atom) : json :=
  match a with AStr s => JStr s | AInt n => JInt n end.

Definition cell_json (c : Cell) : json := JArr (atom_json <$> c).

(** [itertools.chain] over the rows of the grid. *)
Definition chain (grid : Grid) : list Cell := mjoin grid.

(** [json.dumps] with its default settings: [", "] and [": "] as
    separators, and every character outside the printable ASCII ones
    escaped ([ensure_ascii]). *)
Definition hex_digit (n : N) : N :=
  if bool_decide (n < 10)%N then (48 + n)%N else (87 + n)%N.

Definition escape_u (c : N) : pystr :=
  [92; 117; hex_digit ((c `div` 4096) `mod` 16); hex_digit ((c `div` 256) `mod` 16);
   hex_digit ((c `div` 16) `mod` 16); hex_digit (c `mod` 16)]%N.

Definition escape_char (c : N) : pystr :=
  if bool_decide (c = 34%N) then [92; 34]%N
  else if bool_decide (c = 92%N) then [92; 92]%N
  else if bool_decide (c = 10%N) then [92; 110]%N
  else if bool_decide (c = 13%N) then [92; 114]%N
  else if bool_decide (c = 9%N) then [92; 116]%N
  else if bool_decide (c = 12%N) then [92; 102]%N
  else if bool_decide (c = 8%N) then [92; 98]%N
  else if bool_decide (32 ≤ c ≤ 126)%N then [c]
  else if bool_decide (c < 0x10000)%N then escape_u c
  else let v := (c - 0x10000)%N in
       escape_u (0xd800 + (v `div` 1024))%N ++ escape_u (0xdc00 + (v `mod` 1024))%N.

Definition dumps_str (s : pystr) : pystr :=
  [34%N] ++ (s ≫= escape_char) ++ [34%N].

Definition dumps_int (n : Z) : pystr :=
  py (NilZero.string_of_int (Z.to_int n)).

Fixpoint json_dumps (j : json) : pystr :=
  match j with
  | JStr s => dumps_str s
  | JInt n => dumps_int n
  | JArr l =>
      py "[" ++
      (fix items (l : list json) : pystr :=
         match l with
         | [] => []
         | [x] => json_dumps x
         | x :: rest => json_dumps x ++ py ", " ++ items rest
         end) l ++
      py "]"
  | JObj l =>
      py "{" ++
      (fix members (l : list (pystr * json)) : pystr :=
         match l with
         | [] => []
         | [(k, x)] => dumps_str k ++ py ": " ++ json_dumps x
         | (k, x) :: rest => dumps_str k ++ py ": " ++ json_dumps x ++ py ", " ++ members rest
         end) l ++
      py "}"
  end.

(** The dictionary that is serialized: [Target] is [Display] and [Data]
    is the list of the cells, row after row. *)
Definition payload_document (grid : Grid) : json :=
  JObj [ (py "Target", JStr (py "Display"));
         (py "Data", JArr (cell_json <$> chain grid)) ].

Definition grid_to_payload (grid : Grid) : pystr :=
  json_dumps (payload_document grid).

(** ** Rolling list layout *)

Definition LEFT_COL_START : Z := 0.
Definition RIGHT_COL_START : Z := 13.
Definition CONTENT_FIRST_ROW : Z := 0.
Definition CONTENT_LAST_ROW : Z := CDU_ROWS - 2.
Definition MAX_ROWS : Z := CONTENT_LAST_ROW - CONTENT_FIRST_ROW + 1.

Definition clear_area_with_spaces (grid : Grid) (r0 r1 c0 c1 : Z)
    (colour : pystr) (size : Z) : option Grid :=
  for_each (py_range r0 (r1 + 1))
    (λ r g, for_each (py_range c0 c1)
              (λ c g, grid_set g r c [AStr (py " "); AStr colour; AInt size]) g)
    grid.

(** [[label for val, label in pairs if val == 1]] *)
Fixpoint compact_labels (pairs : list (Z * pystr)) : list pystr :=
  match pairs with
  | [] => []
  | (val, label) :: rest =>
      if bool_decide (val = 1) then label :: compact_labels rest
      else compact_labels rest
  end.

(** One column loop of [draw_columns]: a label per row, leaving the loop
    once [row] has passed [CONTENT_LAST_ROW]. *)
Fixpoint draw_column (grid : Grid) (labels : list pystr) (row : Z)
    (width col : Z) : option Grid :=
  match labels with
  | [] => Some grid
  | lbl :: rest =>
      grid' ← put_text grid (ljust (py_slice lbl 0 width) width) row col (py "a") LARGE;
      let row := row + 1 in
      if bool_decide (row > CONTENT_LAST_ROW) then Some grid'
      else draw_column grid' rest row width col
  end.

Definition draw_columns (grid : Grid) (left_labels right_labels : list pystr)
  : option Grid :=
  g ← clear_area_with_spaces grid CONTENT_FIRST_ROW CONTENT_LAST_ROW 0 CDU_COLUMNS (py "w") 0;
  g ← draw_column g (py_slice left_labels 0 MAX_ROWS) CONTENT_FIRST_ROW 12 LEFT_COL_START;
  draw_column g (py_slice right_labels 0 MAX_ROWS) CONTENT_FIRST_ROW 11 RIGHT_COL_START.

(** ** One tick of the poll loop: from normalized readings to the grid

    [val name] stands for [as01(vr.get(name))], the normalized reading of
    the LVAR [name] in this tick, as the local variable of the loop body
    holds it.  The definitions of this section embed the statements of
    lines 421 to 519, which build the grid from these variables.  (Line
    408 of the script, the read of [(L:autopilot)], is indented with
    tabs where its neighbours use spaces, so Python refuses the file
    with a [TabError] when it loads it; the reads of lines 360 to 417
    and the loop around them are not embedded.) *)

Definition left_pairs (val : pystr → Z) : list (Z * pystr) :=
  [ (val (py "(L:engine1Fail)"), py "ENG FAIL");
    (val (py "(L:engine1OilPress)"), py "ENG OIL P");
    (val (py "(L:fadecFail1)"), py "FADEC FAIL");
    (val (py "(L:fuelPress1)"), py "FUEL PRESS");
    (val (py "(L:eng1Idle)"), py "ENG IDLE");
    (val (py "(L:train1)"), py "TRAIN");
    (val (py "(L:trainIdle1)"), py "TRAIN IDLE");
    (val (py "(L:eng1Manual)"), py "ENG MANUAL");
    (val (py "(L:twinsgrip1)"), py "TWIST GRIP");
    (val (py "(L:fuelValve1)"), py "FUEL VALVE");
    (val (py "(L:primePump1)"), py "PRIME PUMP");
    (val (py "(L:degraded1)"), py "DEGRADED");
    (val (py "(L:redund1)"), py "REDUND");
    (val (py "(L:hydraulic1)"), py "HYD PRESS");
    (val (py "(L:genDiscon1)"), py "GEN DISCON");
    (val (py "(L:inv1)"), py "INVERTER");
    (val (py "(L:fireTest1Ext)"), py "FIRE EXT");
    (val (py "(L:fireTest1)"), py "FIRE TEST");
    (val (py "(L:bustie1)"), py "BUS TIE");
    (val (py "(L:starter1)"), py "STARTER") ].

Definition right_pairs (val : pystr → Z) : list (Z * pystr) :=
  [ (val (py "(L:engine2Fail)"), py "ENG FAIL");
    (val (py "(L:engine2OilPress)"), py "ENG OIL P");
    (val (py "(L:fadecFail2)"), py "FADEC FAIL");
    (val (py "(L:fuelPress2)"), py "FUEL PRESS");
    (val (py "(L:eng2Idle)"), py "ENG IDLE");
    (val (py "(L:train2)"), py "TRAIN");
    (val (py "(L:trainIdle2)"), py "TRAIN IDLE");
    (val (py "(L:eng2Manual)"), py "ENG MANUAL");
    (val (py "(L:twinsgrip2)"), py "TWIST GRIP");
    (val (py "(L:fuelValve2)"), py "FUEL VALVE");
    (val (py "(L:primePump2)"), py "PRIME PUMP");
    (val (py "(L:degraded2)"), py "DEGRADED");
    (val (py "(L:redund2)"), py "REDUND");
    (val (py "(L:hydraulic2)"), py "HYD PRESS");
    (val (py "(L:genDiscon2)"), py "GEN DISCON");
    (val (py "(L:inve2)"), py "INVERTER");
    (val (py "(L:fireTest2Ext)"), py "FIRE EXT");
    (val (py "(L:fireTest2)"), py "FIRE TEST");
    (val (py "(L:bustie2)"), py "BUS TIE");
    (val (py "(L:starter2)"), py "STARTER") ].

Definition misc_pairs (val : pystr → Z) : list (Z * pystr) :=
  [ (val (py "(L:xmsnOilTemp)"), py "XMSN OIL T");
    (val (py "(L:autopilot)"), py "AUTOPILOT");
    (val (py "(L:rotorBrake)"), py "ROTOR BRAKE");
    (val (py "(L:fuelPumpAft)"), py "F PUMP AFT");
    (val (py "(L:fuelPumpFwd)"), py "F PUMP FWD");
    (val (py "(L:batDisc)"), py "BAT DISCON");
    (val (py "(L:extPower)"), py "EXT POWER");
    (val (py "(L:shedEmer)"), py "SHED EMER") ].

Definition page_size : Z := 6.

(** [labels[start:end]] with [start = cdsPage * page_size] and
    [end = start + page_size]. *)
Definition visible (labels : list pystr) (cdsPage : Z) : list pystr :=
  let start := cdsPage * page_size in
  let end_ := start + page_size in
  py_slice labels start end_.

Definition misc_rows : list Z := [7; 8; 9; 10; 11; 12].

(** The loop over [enumerate(misc_rows)]. *)
Fixpoint draw_misc (grid : Grid) (visible_misc : list pystr) (i : Z)
    (rows : list Z) : option Grid :=
  match rows with
  | [] => Some grid
  | row :: rest =>
      grid' ← (if bool_decide (i < Z.of_nat (length visible_misc))
               then lbl ← py_getitem visible_misc i;
                    put_text_center grid lbl row (py "a") LARGE
               else Some grid);
      draw_misc grid' visible_misc (i + 1) rest
  end.

(** The grid the statements of lines 421 to 519 of the loop body build
    from the readings, before it is sent. *)
Definition render_tick (val : pystr → Z) : option Grid :=
  let cdsPage := val (py "(L:cdsPage)") in
  let left_labels := compact_labels (left_pairs val) in
  let right_labels := compact_labels (right_pairs val) in
  let misc_labels := compact_labels (misc_pairs val) in
  let visible_left := visible left_labels cdsPage in
  let visible_right := visible right_labels cdsPage in
  let visible_misc := visible misc_labels cdsPage in
  let grid := empty_grid in
  g ← draw_columns grid visible_left visible_right;
  g ← put_text_center g (py "MISC") 6 (py "k") LARGE;
  g ← clear_area_with_spaces g 7 12 0 CDU_COLUMNS (py "w") 0;
  g ← draw_misc g visible_misc 0 misc_rows;
  g ← clear_area_with_spaces g 13 13 0 12 (py "w") 0;
  g ← clear_area_with_spaces g 13 13 13 24 (py "w") 0;
  g ← (if bool_decide (val (py "(L:pitotPilot)") = 1)
       then put_text g (py "P/S-HTR-P") 13 0 (py "g") LARGE else Some g);
  (if bool_decide (val (py "(L:pitotCoPilot)") = 1)
   then put_text g (py "P/S-HTR-C") 13 13 (py "g") LARGE else Some g).

(** ** Exceptions and the state monad of the stateful components *)

Inductive exn :=
  | KeyError
  | ValueError
  | OverflowError
  | UnicodeEncodeError
  | AttributeError
  | WebSocketException
  | OSError
  | OtherException.

Inductive result (A : Type) :=
  | Ok (a : A)
  | Raise (e : exn).
Arguments Ok {A} a.
Arguments Raise {A} e.

(** A computation over a state [S]: it returns or raises, and the state
    it has reached is kept either way (Python does not roll back). *)
Definition M (S A : Type) : Type := S → result A * S.

#[global] Instance M_ret {S} : MRet (M S) := λ A a s, (Ok a, s).
#[global] Instance M_bind {S} : MBind (M S) := λ A B k m s,
  match m s with
  | (Ok a, s') => k a s'
  | (Raise e, s') => (Raise e, s')
  end.

Definition raise {S A} (e : exn) : M S A := λ s, (Raise e, s).
Definition modify {S} (f : S → S) : M S unit := λ s, (Ok tt, f s).
Definition gets {S A} (f : S → A) : M S A := λ s, (Ok (f s), s).

(** [try: m except <handled>: h] *)
Definition try_except {S A} (m : M S A) (handled : exn → bool)
    (h : exn → M S A) : M S A := λ s,
  match m s with
  | (Ok a, s') => (Ok a, s')
  | (Raise e, s') => if handled e then h e s' else (Raise e, s')
  end.

(** ** Value normalization *)

Inductive pyval :=
  | PyNone
  | PyBool (b : bool)
  | PyInt (n : Z)
  | PyFloat (f : spec_float)
  | PyStr (s : pystr)
  | PyObj (repr : option pystr).
  (** [PyObj r]: any other object; [r] is what [str(v)] returns, [None]
      when [str(v)] raises. *)

(** [float(n)] for an [int]: the nearest binary64 value, ties to even;
    [OverflowError] when that is beyond the largest finite one. *)
Definition float_of_int (n : Z) : result spec_float :=
  match binary_normalize 53 1024 n 0 false with
  | S754_infinity _ => Raise OverflowError
  | f => Ok f
  end.

(** The literals [0.5] and [1.5]. *)
Definition f0_5 : spec_float := S754_finite false 4503599627370496 (-53).
Definition f1_5 : spec_float := S754_finite false 6755399441055744 (-52).

(** [if f < 0.5: return 0 / elif f < 1.5: return 1 / else: return 2] *)
Definition thresholds (f : spec_float) : Z :=
  if SFltb f f0_5 then 0
  else if SFltb f f1_5 then 1
  else 2.

(** The characters [str.strip()] removes: [str.isspace]. *)
Definition is_space (c : N) : bool :=
  bool_decide (c ∈ [9; 10; 11; 12; 13; 28; 29; 30; 31; 32; 0x85; 0xa0;
                    0x1680; 0x2000; 0x2001; 0x2002; 0x2003; 0x2004; 0x2005;
                    0x2006; 0x2007; 0x2008; 0x2009; 0x200a; 0x2028; 0x2029;
                    0x202f; 0x205f; 0x3000]%N).

Fixpoint lstrip_with (p : N → bool) (s : pystr) : pystr :=
  match s with
  | c :: rest => if p c then lstrip_with p rest else s
  | [] => []
  end.

Definition strip_with (p : N → bool) (s : pystr) : pystr :=
  reverse (lstrip_with p (reverse (lstrip_with p s))).

(** [s.strip()] and [s.strip(chars)] *)
Definition strip (s : pystr) : pystr := strip_with is_space s.
Definition strip_chars (chars : pystr) (s : pystr) : pystr :=
  strip_with (λ c, bool_decide (c ∈ chars)) s.

(** [s.lower()] on the ASCII letters; other code points are kept.  (The
    cased letters of other scripts, which Python lowers too, occur in no
    word of the tables of [as01] and in no number.) *)
Definition lower_char (c : N) : N :=
  if bool_decide (65 ≤ c ≤ 90)%N then (c + 32)%N else c.
Definition lower (s : pystr) : pystr := lower_char <$> s.

(** [s in (w1, w2, ...)] *)
Definition in_words (s : pystr) (ws : list string) : bool :=
  bool_decide (s ∈ py <$> ws).

Section Normalization.

(** [float(s)] for a string is the interpreter's parser: any partial
    function from strings to floats, [None] being [ValueError]. *)
Variable float_of_str : pystr → option spec_float.

(** The text stripped of white space, then of double quotes (34), then
    of single quotes (39), and lowered. *)
Definition clean (s : pystr) : pystr :=
  lower (strip_chars [39%N] (strip_chars [34%N] (strip s))).

(** The string path: the three word tables, then [float(s)]. *)
Definition as01_text (s0 : pystr) : result Z :=
  let s := clean s0 in
  if in_words s ["2"; "two"] then Ok 2
  else if in_words s ["1"; "true"; "on"; "yes"; "y"] then Ok 1
  else if in_words s ["0"; "false"; "off"; "no"; "n"; EmptyString] then Ok 0
  else match float_of_str s with
       | Some f => Ok (thresholds f)
       | None => Raise ValueError
       end.

(** The body of the [try] block.  [bool] is tested before [int], of
    which it is a subclass; [float(v)] of a float is the float. *)
Definition as01_try (v : pyval) : result Z :=
  match v with
  | PyNone => Ok 0
  | PyBool b => Ok (if b then 1 else 0)
  | PyInt n =>
      match float_of_int n with
      | Ok f => Ok (thresholds f)
      | Raise e => Raise e
      end
  | PyFloat f => Ok (thresholds f)
  | PyStr s => as01_text s
  | PyObj (Some s) => as01_text s
  | PyObj None => Raise OtherException
  end.

(** [try: ... except: return 0] *)
Definition as01 (v : pyval) : Z :=
  match as01_try v with
  | Ok n => n
  | Raise _ => 0
  end.

End Normalization.

(** ** The variable access layer (MobiFlightVariableRequests) *)

Record SimVariable := {
  sv_id : Z;
  sv_name : pystr;
  float_value : option spec_float;
  initialized : bool
}.

(** The calls made on the SimConnect library, in the order made. *)
Inductive dll_call :=
  | MapClientDataNameToID (name : pystr) (data_area_id : Z)
  | CreateClientData (data_area_id size flags : Z)
  | AddToClientDataDefinition (definition_id offset size : Z)
  | RequestClientData (data_area_id request_id definition_id : Z)
  | SetClientData (data_area_id definition_id size : Z) (dataBytes : list N).

(** The state of the layer, with the two observations the properties are
    about: the library calls made so far (latest last) and the number of
    [sleep(0.01)] calls made so far. *)
Record vr_state := {
  sim_vars : gmap Z SimVariable;
  sim_var_name_to_id : gmap (list N) Z;
  dll_calls : list dll_call;
  sleeps : nat
}.

Definition CLIENT_DATA_AREA_LVARS : Z := 0.
Definition CLIENT_DATA_AREA_CMD : Z := 1.
Definition CLIENT_DATA_AREA_RESPONSE : Z := 2.
Definition FLAG_DEFAULT : Z := 0.
Definition FLAG_CHANGED : Z := 1.
Definition DATA_STRING_SIZE : Z := 256.
Definition DATA_STRING_OFFSET : Z := 0.
Definition DATA_STRING_DEFINITION_ID : Z := 0.
Definition sizeof_FLOAT : Z := 4.

Definition set_sim_vars (f : gmap Z SimVariable → gmap Z SimVariable)
    (st : vr_state) : vr_state :=
  {| sim_vars := f (sim_vars st);
     sim_var_name_to_id := sim_var_name_to_id st;
     dll_calls := dll_calls st; sleeps := sleeps st |}.

Definition set_name_to_id (f : gmap (list N) Z → gmap (list N) Z)
    (st : vr_state) : vr_state :=
  {| sim_vars := sim_vars st;
     sim_var_name_to_id := f (sim_var_name_to_id st);
     dll_calls := dll_calls st; sleeps := sleeps st |}.

Definition dll (c : dll_call) : M vr_state unit :=
  modify (λ st, {| sim_vars := sim_vars st;
                   sim_var_name_to_id := sim_var_name_to_id st;
                   dll_calls := dll_calls st ++ [c]; sleeps := sleeps st |}).

Definition add_to_client_data_definition (definition_id offset size : Z)
  : M vr_state unit :=
  dll (AddToClientDataDefinition definition_id offset size).

Definition subscribe_to_data_change (data_area_id request_id definition_id : Z)
  : M vr_state unit :=
  dll (RequestClientData data_area_id request_id definition_id).

Definition send_data (data_area_id definition_id size : Z) (dataBytes : list N)
  : M vr_state unit :=
  dll (SetClientData data_area_id definition_id size dataBytes).

(** [bytearray(command, "ascii")] raises on a code point above 127, and
    [bytearray(n)] on a negative [n]. *)
Definition send_command (command : pystr) : M vr_state unit :=
  if negb (forallb (λ c, bool_decide (c < 128)%N) command)
  then raise UnicodeEncodeError
  else
    let pad := DATA_STRING_SIZE - Z.of_nat (length command) in
    if bool_decide (pad < 0) then raise ValueError
    else send_data CLIENT_DATA_AREA_CMD DATA_STRING_DEFINITION_ID
           DATA_STRING_SIZE (command ++ replicate (Z.to_nat pad) 0%N).

Definition initialize_client_data_areas : M vr_state unit :=
  dll (MapClientDataNameToID (py "MobiFlight.LVars") CLIENT_DATA_AREA_LVARS);;
  dll (CreateClientData CLIENT_DATA_AREA_LVARS 4096 FLAG_DEFAULT);;
  dll (MapClientDataNameToID (py "MobiFlight.Command") CLIENT_DATA_AREA_CMD);;
  dll (CreateClientData CLIENT_DATA_AREA_CMD DATA_STRING_SIZE FLAG_DEFAULT);;
  dll (MapClientDataNameToID (py "MobiFlight.Response") CLIENT_DATA_AREA_RESPONSE);;
  dll (CreateClientData CLIENT_DATA_AREA_RESPONSE DATA_STRING_SIZE FLAG_DEFAULT);;
  add_to_client_data_definition DATA_STRING_DEFINITION_ID DATA_STRING_OFFSET
    DATA_STRING_SIZE;;
  subscribe_to_data_change CLIENT_DATA_AREA_RESPONSE DATA_STRING_DEFINITION_ID
    DATA_STRING_DEFINITION_ID.

(** The layer as [__init__] leaves it. *)
Definition fresh_layer : vr_state :=
  snd (initialize_client_data_areas
         {| sim_vars := ∅; sim_var_name_to_id := ∅; dll_calls := []; sleeps := 0 |}).

(** A notification: the definition id and the first data word. *)
Record client_data := {
  dwDefineID : Z;
  dwData0 : Z
}.

(** What [get] returns, as a Python value: [None] or a float. *)
Definition reading (v : option spec_float) : pyval :=
  match v with
  | None => PyNone
  | Some f => PyFloat f
  end.

Section Layer.

(** The first data word unpacked as a little-endian binary32 value and
    rounded to 5 decimal digits. *)
Variable unpack_round5 : Z → spec_float.

(** The notifications the dispatch thread delivers during each
    [sleep(0.01)] of the poll thread, numbered from the first sleep. *)
Variable delivered : nat → list client_data.

Definition client_data_callback_handler (cd : client_data)
    (st : vr_state) : vr_state :=
  match sim_vars st !! dwDefineID cd with
  | Some sim_var =>
      set_sim_vars
        <[dwDefineID cd :=
           {| sv_id := sv_id sim_var; sv_name := sv_name sim_var;
              float_value := Some (unpack_round5 (dwData0 cd));
              initialized := true |}]> st
  | None => st
  end.

(** [sleep(0.01)]: the notifications of this sleep are handled, in
    order, while the poll thread is suspended. *)
Definition sleep : M vr_state unit :=
  modify (λ st,
    let st' := foldl (λ s cd, client_data_callback_handler cd s) st
                 (delivered (sleeps st)) in
    {| sim_vars := sim_vars st';
       sim_var_name_to_id := sim_var_name_to_id st';
       dll_calls := dll_calls st'; sleeps := S (sleeps st') |}).

(** [sim_var.float_value] of the object stored under [variable_id]. *)
Definition current_value (variable_id : Z) (st : vr_state)
  : option spec_float :=
  sim_vars st !! variable_id ≫= float_value.

(** The [while wait_counter < 50] loop; it returns the final
    [wait_counter].  [fuel] bounds the iterations. *)
Fixpoint wait_loop (fuel : nat) (variable_id : Z) (wait_counter : Z)
  : M vr_state Z :=
  match fuel with
  | O => mret wait_counter
  | S fuel' =>
      if bool_decide (wait_counter < 50) then
        v ← gets (current_value variable_id);
        match v with
        | None => sleep;; wait_loop fuel' variable_id (wait_counter + 1)
        | Some _ => mret wait_counter
        end
      else mret wait_counter
  end.

Definition lookup_or_KeyError {K A} `{Countable K} (m : gmap K A) (k : K)
  : M vr_state A :=
  match m !! k with
  | Some a => mret a
  | None => raise KeyError
  end.

(** The block under [# add new variable] of [get]. *)
Definition add_new_variable (variableString : pystr) : M vr_state unit :=
  n ← gets (λ st, size (sim_vars st));
  let id := Z.of_nat n + 1 in
  modify (set_sim_vars
            <[id := {| sv_id := id; sv_name := variableString;
                       float_value := None; initialized := false |}]>);;
  modify (set_name_to_id <[variableString := id]>);;
  let offset := (id - 1) * sizeof_FLOAT in
  add_to_client_data_definition id offset sizeof_FLOAT;;
  subscribe_to_data_change CLIENT_DATA_AREA_LVARS id id;;
  send_command (py "MF.SimVars.Add." ++ variableString).

(** The block under [# determine id and return value] of [get].  The
    object [sim_var] is the one stored under [variable_id]: the
    callback updates it in place, so it is read from the store each
    time. *)
Definition await_value (variableString : pystr)
  : M vr_state (option spec_float) :=
  ids ← gets sim_var_name_to_id;
  variable_id ← lookup_or_KeyError ids variableString;
  vars ← gets sim_vars;
  _ ← lookup_or_KeyError vars variable_id;
  _ ← wait_loop 50 variable_id 0;
  vars ← gets sim_vars;
  sim_var ← lookup_or_KeyError vars variable_id;
  (if bool_decide (float_value sim_var = None) && initialized sim_var then
     modify (set_sim_vars
               <[variable_id :=
                  {| sv_id := sv_id sim_var; sv_name := sv_name sim_var;
                     float_value := Some (S754_zero false);
                     initialized := initialized sim_var |}]>)
   else mret tt);;
  gets (current_value variable_id).

Definition get (variableString : pystr) : M vr_state (option spec_float) :=
  known ← gets (λ st, bool_decide (is_Some (sim_var_name_to_id st !! variableString)));
  (if negb known then add_new_variable variableString else mret tt);;
  await_value variableString.

(** [as01(vr.get(name))], as the poll loop reads each flag. *)
Definition read_flag (float_of_str : pystr → option spec_float)
    (name : pystr) : M vr_state Z :=
  v ← get name;
  mret (as01 float_of_str (reading v)).

Definition set (variableString : pystr) : M vr_state unit :=
  send_command (py "MF.SimVars.Set." ++ variableString).

Definition clear_sim_variables : M vr_state unit :=
  modify (set_sim_vars (λ _, ∅));;
  modify (set_name_to_id (λ _, ∅));;
  send_command (py "MF.SimVars.Clear").

End Layer.

(** ** The reconnecting sender (McduSocket) *)

(** The calls made on the websocket library and the clock, in the order
    made.  A connection is named by the position of the
    [create_connection] call that returned it. *)
Inductive net_call :=
  | CreateConnection (url : pystr) (timeout : Q)
  | SetTimeout (conn : nat) (timeout : Q)
  | Send (conn : nat) (payload : pystr)
  | Ping (conn : nat)
  | Close (conn : nat)
  | Time.

Record McduSocket := {
  url : pystr;
  ws : option nat;
  connect_timeout : Q;
  _last_ping : Q;
  _ping_interval : Q;
  net_calls : list net_call
}.

(** [McduSocket(url)] *)
Definition new_McduSocket (url : pystr) : McduSocket :=
  {| url := url; ws := None; connect_timeout := 2; _last_ping := 0;
     _ping_interval := 20; net_calls := [] |}.

Definition MCDU_URL : pystr := py "ws://127.0.0.1:8320/winwing/cdu-captain".

Definition set_ws (w : option nat) (s : McduSocket) : McduSocket :=
  {| url := url s; ws := w; connect_timeout := connect_timeout s;
     _last_ping := _last_ping s; _ping_interval := _ping_interval s;
     net_calls := net_calls s |}.

Definition set_last_ping (t : Q) (s : McduSocket) : McduSocket :=
  {| url := url s; ws := ws s; connect_timeout := connect_timeout s;
     _last_ping := t; _ping_interval := _ping_interval s;
     net_calls := net_calls s |}.

Definition log_call (c : net_call) (s : McduSocket) : McduSocket :=
  {| url := url s; ws := ws s; connect_timeout := connect_timeout s;
     _last_ping := _last_ping s; _ping_interval := _ping_interval s;
     net_calls := net_calls s ++ [c] |}.

(** The exceptions [send_grid] handles: [except (WebSocketException, OSError)]. *)
Definition is_transport_error (e : exn) : bool :=
  match e with
  | WebSocketException | OSError => true
  | _ => false
  end.

Section Sender.

(** The environment: [faults k] is the exception the [k]-th call on the
    websocket library raises, if any; [clock k] is what [time()]
    returns when it is the [k]-th call. *)
Variable faults : nat → option exn.
Variable clock : nat → Q.

(** A library call: logged, then it returns or raises as the
    environment says. *)
Definition net (c : net_call) : M McduSocket nat := λ s,
  let k := length (net_calls s) in
  match faults k with
  | Some e => (Raise e, log_call c s)
  | None => (Ok k, log_call c s)
  end.

Definition time : M McduSocket Q := λ s,
  (Ok (clock (length (net_calls s))), log_call Time s).

(** [self.ws.<method>(...)]: [AttributeError] when [self.ws] is [None]. *)
Definition with_ws {A} (f : nat → M McduSocket A) : M McduSocket A :=
  w ← gets ws;
  match w with
  | Some c => f c
  | None => raise AttributeError
  end.

Definition _connect : M McduSocket unit :=
  u ← gets url;
  t ← gets connect_timeout;
  c ← net (CreateConnection u t);
  modify (set_ws (Some c));;
  with_ws (λ c, net (SetTimeout c 1));;
  mret tt.

Definition _ensure : M McduSocket unit :=
  w ← gets ws;
  match w with
  | None => _connect
  | Some _ => mret tt
  end.

(** [try: self.ws.close() except Exception: pass], then [self.ws = None];
    [guarded] is the [if self.ws:] of [send_grid]. *)
Definition close_and_discard (guarded : bool) : M McduSocket unit :=
  try_except
    (w ← gets ws;
     match w with
     | Some c => net (Close c);; mret tt
     | None => if guarded then mret tt else raise AttributeError
     end)
    (λ _, true) (λ _, mret tt);;
  modify (set_ws None).

Definition _maybe_ping : M McduSocket unit :=
  now ← time;
  last ← gets _last_ping;
  interval ← gets _ping_interval;
  if Qle_bool interval (now - last) then
    try_except
      (with_ws (λ c, net (Ping c));;
       modify (set_last_ping now))
      (λ _, true)
      (λ _, close_and_discard false)
  else mret tt.

(** The body of the [try] in [send_grid], up to its [return]. *)
Definition send_once (payload : pystr) : M McduSocket unit :=
  _ensure;;
  with_ws (λ c, net (Send c payload));;
  _maybe_ping.

(** [for attempt in (1, 2): try: ...; return / except ...: ...] *)
Fixpoint send_attempts (attempts : list Z) (payload : pystr)
  : M McduSocket unit :=
  match attempts with
  | [] => mret tt
  | attempt :: rest =>
      try_except (send_once payload) is_transport_error
        (λ _, close_and_discard true;; send_attempts rest payload)
  end.

Definition send_grid (grid : Grid) : M McduSocket unit :=
  let payload := grid_to_payload grid in
  send_attempts [1; 2] payload.

End Sender.


(** ** Vocabulary of the properties *)

(** A display grid has [CDU_ROWS] rows of [CDU_COLUMNS] cells. *)
Definition wf_grid (g : Grid) : Prop :=
  length g = Z.to_nat CDU_ROWS ∧ Forall (λ r, length r = Z.to_nat CDU_COLUMNS) g.

(** The cell at row [r], column [c], both counted from 0. *)
Definition cell_at (g : Grid) (r c : Z) : option Cell :=
  if bool_decide (0 ≤ r ∧ 0 ≤ c) then g !! Z.to_nat r ≫= (.!! Z.to_nat c)
  else None.

(** The cell a character is written as. *)
Definition written (ch : N) (colour : pystr) (size : Z) : Cell :=
  [AStr (glyph ch); AStr colour; AInt size].

(** The cell [clear_area_with_spaces] writes. *)
Definition space_cell (colour : pystr) (size : Z) : Cell :=
  [AStr (py " "); AStr colour; AInt size].


(** ** Concrete inputs of the examples *)

(** A list of fourteen labels, to window. *)
Definition fourteen_labels : list (list N) :=
  (λ n, py "L" ++ [N.of_nat n]) <$> seq 65 14.


(** The character a column loop puts at offset [off] of the field of
    [width] characters in the [r]-th row it draws, if any. *)
Definition field_char (labels : list (list N)) (width : Z) (r off : Z) : option N :=
  if bool_decide (0 ≤ r ∧ 0 ≤ off)
  then lbl ← labels !! Z.to_nat r;
       ljust (py_slice lbl 0 width) width !! Z.to_nat off
  else None.

(** [engine1Fail] reads 1 and no other flag of the left column
    does. *)
Definition only_engine1Fail_active (val : list N → Z) : Prop :=
  val (py "(L:engine1Fail)") = 1 ∧
  Forall (λ p : Z * list N, p.1 ≠ 1) (tail (left_pairs val)).

(** Readings in which [engine1Fail] alone reads 1. *)
Definition val_engine1Fail (name : list N) : Z :=
  if decide (name = py "(L:engine1Fail)") then 1 else 0.

(** An instance of the parser parameter of [as01]: [float(s)] as
    CPython computes it.  The string is first brought to ASCII
    ([to_ascii]); then the ASCII white space is stripped at both ends,
    and what is left is an optional sign, then [inf], [infinity] or
    [nan] in any case, or a decimal number (digits with single
    underscores between digits, an optional point, an optional
    exponent) read as the nearest float, ties to even.  Anything else
    raises [ValueError]. *)

(** The zeros of the decimal digits of the other scripts (Unicode 14,
    the tables of CPython 3.11): each is followed by the digits 1 to 9
    of its script. *)
Definition decimal_zeros : list N :=
  [ 0x660; 0x6f0; 0x7c0; 0x966; 0x9e6; 0xa66; 0xae6; 0xb66; 0xbe6; 0xc66;
    0xce6; 0xd66; 0xde6; 0xe50; 0xed0; 0xf20; 0x1040; 0x1090; 0x17e0; 0x1810;
    0x1946; 0x19d0; 0x1a80; 0x1a90; 0x1b50; 0x1bb0; 0x1c40; 0x1c50; 0xa620;
    0xa8d0; 0xa900; 0xa9d0; 0xa9f0; 0xaa50; 0xabf0; 0xff10; 0x104a0; 0x10d30;
    0x11066; 0x110f0; 0x11136; 0x111d0; 0x112f0; 0x11450; 0x114d0; 0x11650;
    0x116c0; 0x11730; 0x118e0; 0x11950; 0x11c50; 0x11d50; 0x11da0; 0x16a60;
    0x16ac0; 0x16b50; 0x1d7ce; 0x1d7d8; 0x1d7e2; 0x1d7ec; 0x1d7f6; 0x1e140;
    0x1e2f0; 0x1e950; 0x1fbf0 ]%N.

(** The value of the decimal digit [c], if it is one. *)
Definition to_decimal (c : N) : option N :=
  (λ z, (c - z)%N) <$> head (List.filter (λ z, bool_decide (z ≤ c < z + 10)%N) decimal_zeros).

(** What [float] makes of a character before it parses: a character
    below 127 is kept, another white space character becomes a space,
    a decimal digit of another script becomes the ASCII digit of its
    value, and any other character makes the string invalid. *)
Definition to_ascii_char (c : N) : option N :=
  if bool_decide (c < 127)%N then Some c
  else if is_space c then Some 32%N
  else (λ d, (48 + d)%N) <$> to_decimal c.

Definition to_ascii (s : list N) : option (list N) := mapM to_ascii_char s.

(** The white space [float] strips from the ASCII text: tab, line feed,
    vertical tab, form feed, carriage return and space, and not the
    separators 28 to 31, which [str.strip] removes. *)
Definition is_ascii_space (c : N) : bool :=
  bool_decide (c ∈ [9; 10; 11; 12; 13; 32]%N).

Definition is_digit (c : N) : bool := bool_decide (48 ≤ c ≤ 57)%N.

(** The digits at the head of [s], appended to the number [acc]; [n]
    counts them.  An underscore is passed over between two digits. *)
Fixpoint scan_digits (s : list N) (acc : Z) (n : nat) : Z * nat * list N :=
  match s with
  | [] => (acc, n, [])
  | c :: rest =>
      if is_digit c then scan_digits rest (10 * acc + Z.of_N (c - 48)) (S n)
      else if bool_decide (c = 95%N) && bool_decide (0 < n)%nat then
        match rest with
        | d :: _ => if is_digit d then scan_digits rest acc n else (acc, n, s)
        | [] => (acc, n, s)
        end
      else (acc, n, s)
  end.

Definition scan_sign (s : list N) : bool * list N :=
  match s with
  | 45%N :: rest => (true, rest)
  | 43%N :: rest => (false, rest)
  | _ => (false, s)
  end.

(** The number [m * 10 ^ x] of a decimal literal without its sign. *)
Definition scan_number (s : list N) : option (Z * Z) :=
  let '(int_part, n_int, r1) := scan_digits s 0 0 in
  let '(m, n_frac, r2) :=
    match r1 with
    | 46%N :: r => scan_digits r int_part 0
    | _ => (int_part, 0%nat, r1)
    end in
  if bool_decide (n_int + n_frac = 0)%nat then None
  else
    match r2 with
    | [] => Some (m, - Z.of_nat n_frac)
    | c :: r =>
        if bool_decide (c = 101%N ∨ c = 69%N) then
          let '(neg, r') := scan_sign r in
          let '(x, n_exp, r3) := scan_digits r' 0 0 in
          if bool_decide (n_exp = 0%nat) then None
          else match r3 with
               | [] => Some (m, (if neg then - x else x) - Z.of_nat n_frac)
               | _ => None
               end
        else None
    end.

(** The float nearest to [m * 10 ^ x], with the sign [neg]. *)
Definition float_of_decimal (neg : bool) (m x : Z) : spec_float :=
  match m with
  | Z.pos p =>
      if 0 <=? x
      then binary_normalize 53 1024
             (if neg then - (Z.pos p * 10 ^ x) else Z.pos p * 10 ^ x) 0 false
      else SFdiv 53 1024 (S754_finite neg p 0)
             (S754_finite false (Z.to_pos (10 ^ (- x))) 0)
  | _ => S754_zero neg
  end.

Definition float_of_ascii (s : list N) : option spec_float :=
  text ← to_ascii s;
  let '(neg, body) := scan_sign (strip_with is_ascii_space text) in
  let word := lower body in
  if bool_decide (word = py "inf" ∨ word = py "infinity") then Some (S754_infinity neg)
  else if bool_decide (word = py "nan") then Some S754_nan
  else '(m, x) ← scan_number body; Some (float_of_decimal neg m x).

(** The word tables of [as01]. *)
Definition words_2 : list (list N) := py <$> ["2"; "two"].
Definition words_1 : list (list N) := py <$> ["1"; "true"; "on"; "yes"; "y"].
Definition words_0 : list (list N) :=
  py <$> ["0"; "false"; "off"; "no"; "n"; EmptyString].

(** An instance of the decoder parameter of the layer: the word read as
    a binary32 value, then rounded to 5 decimal digits (ties to even)
    and to the nearest binary64 value. *)
Definition unpack_f32 (w : Z) : spec_float :=
  let sign := Z.testbit w 31 in
  let e := Z.land (Z.shiftr w 23) 255 in
  let frac := Z.land w (2 ^ 23 - 1) in
  if e =? 255 then (if frac =? 0 then S754_infinity sign else S754_nan)
  else if e =? 0 then
    (if frac =? 0 then S754_zero sign
     else binary_normalize 53 1024 (if sign then - frac else frac) (-149) false)
  else binary_normalize 53 1024
         (if sign then - (2 ^ 23 + frac) else 2 ^ 23 + frac) (e - 150) false.

Definition round_half_even (n d : Z) : Z :=
  let q := n `div` d in
  let r := n `mod` d in
  if 2 * r <? d then q
  else if d <? 2 * r then q + 1
  else if Z.even q then q else q + 1.

Definition round5 (x : spec_float) : spec_float :=
  match x with
  | S754_finite s m e =>
      let q := if 0 <=? e then Z.pos m * 2 ^ e * 100000
               else round_half_even (Z.pos m * 100000) (2 ^ (- e)) in
      match q with
      | Z.pos p => SFdiv 53 1024 (S754_finite s p 0) (S754_finite false 100000 0)
      | _ => S754_zero s
      end
  | _ => x
  end.

Definition unpack_f32_round5 (w : Z) : spec_float := round5 (unpack_f32 w).

(** No notification is ever delivered. *)
Definition silent (k : nat) : list client_data := [].

(** The first [sleep] delivers the word of the float 1.0 for
    identifier 1, the fifth the word of 0.1 for identifier 2. *)
Definition two_deliveries (k : nat) : list client_data :=
  match k with
  | 0%nat => [{| dwDefineID := 1; dwData0 := 0x3F800000 |}]
  | 4%nat => [{| dwDefineID := 2; dwData0 := 0x3DCCCCCD |}]
  | _ => []
  end.

(** The names a run of reads sees, in the order of their first
    occurrence. *)
Fixpoint first_seen (seen names : list (list N)) : list (list N) :=
  match names with
  | [] => seen
  | x :: rest =>
      if decide (x ∈ seen) then first_seen seen rest
      else first_seen (seen ++ [x]) rest
  end.

(** The state after reading the names one after the other, whatever each
    read returns or raises. *)
Definition read_all (unpack_round5 : Z → spec_float)
    (delivered : nat → list client_data) (names : list (list N))
    (st : vr_state) : vr_state :=
  foldl (λ s x, (get unpack_round5 delivered x s).2) st names.

(** The identifiers of the layer are those of [order], counted from 1,
    and the stored variables are exactly the ones so numbered. *)
Definition numbered_by (st : vr_state) (order : list (list N)) : Prop :=
  NoDup order ∧
  (∀ x i, sim_var_name_to_id st !! x = Some i ↔
          1 ≤ i ∧ order !! Z.to_nat (i - 1) = Some x) ∧
  dom (sim_vars st) = list_to_set (seqZ 1 (Z.of_nat (length order))).

(** Two states of the layer with the same identifiers, the same library
    calls made and the same stored variables, up to their values. *)
Definition identity (sv : SimVariable) : Z * list N := (sv_id sv, sv_name sv).

Definition steady (st st' : vr_state) : Prop :=
  sim_var_name_to_id st' = sim_var_name_to_id st ∧
  dll_calls st' = dll_calls st ∧
  dom (sim_vars st') = dom (sim_vars st) ∧
  ∀ i, identity <$> sim_vars st' !! i = identity <$> sim_vars st !! i.

(** The number of [send] and of [create_connection] calls in a trace. *)
Definition is_Send (c : net_call) : bool :=
  match c with Send _ _ => true | _ => false end.
Definition is_CreateConnection (c : net_call) : bool :=
  match c with CreateConnection _ _ => true | _ => false end.
Definition sends (l : list net_call) : nat := length (List.filter is_Send l).
Definition connects (l : list net_call) : nat :=
  length (List.filter is_CreateConnection l).

(** [s'] is [s] after the library calls [l], with the same settings. *)
Definition extends (s s' : McduSocket) (l : list net_call) : Prop :=
  net_calls s' = net_calls s ++ l ∧ url s' = url s ∧
  connect_timeout s' = connect_timeout s ∧ _ping_interval s' = _ping_interval s.

(** What closing a held connection adds to the trace. *)
Definition closing (w : option nat) : list net_call :=
  match w with Some c => [Close c] | None => [] end.

(** Environments of the sender for the examples: every call of the
    listed positions raises [OSError], every other one succeeds; the
    clock stands at 100 seconds. *)
Definition failing_at (ks : list nat) (k : nat) : option exn :=
  if bool_decide (k ∈ ks) then Some OSError else None.
Definition clock_100 (k : nat) : Q := 100.

(** The exception is one the environment raised. *)
Definition from_faults (faults : nat → option exn) (e : exn) : Prop :=
  ∃ k, faults k = Some e.

(** The character [put_text_center] puts in column [c] of its row, if
    any: the text is cut to [CDU_COLUMNS] characters and starts at
    column [(CDU_COLUMNS - len(text)) // 2]. *)
Definition centred_char (text : list N) (c : Z) : option N :=
  let shown := py_slice text 0 CDU_COLUMNS in
  let col := (CDU_COLUMNS - Z.of_nat (length shown)) `div` 2 in
  if bool_decide (col ≤ c) then shown !! Z.to_nat (c - col) else None.

(** The variable a notification of the word [w] turns [sv] into. *)
Definition notified (unpack_round5 : Z → spec_float) (sv : SimVariable) (w : Z)
  : SimVariable :=
  {| sv_id := sv_id sv; sv_name := sv_name sv;
     float_value := Some (unpack_round5 w); initialized := true |}.

(** The last notification of a batch that is for identifier [id]. *)
Definition last_for (id : Z) (cds : list client_data) : option client_data :=
  last (filter (λ cd, dwDefineID cd = id) cds).

(** Every stored value is the decoded word of a notification, and a
    variable is initialized exactly when it has a value. *)
Definition notified_only (unpack_round5 : Z → spec_float) (st : vr_state) : Prop :=
  ∀ id sv, sim_vars st !! id = Some sv →
    match float_value sv with
    | Some f => initialized sv = true ∧ ∃ w, f = unpack_round5 w
    | None => initialized sv = false
    end.

(** The calls that define and request client data. *)
Definition is_subscription (c : dll_call) : bool :=
  match c with
  | AddToClientDataDefinition _ _ _ | RequestClientData _ _ _ => true
  | _ => false
  end.

(** The two calls that subscribe to the variable of identifier [i]. *)
Definition subscription (i : Z) : list dll_call :=
  [AddToClientDataDefinition i ((i - 1) * sizeof_FLOAT) sizeof_FLOAT;
   RequestClientData CLIENT_DATA_AREA_LVARS i i].

(** An environment of the sender in which no call fails. *)
Definition no_faults (k : nat) : option exn := None.

(** The grids sent one after the other, whatever each call returns or
    raises. *)
Definition send_all (faults : nat → option exn) (clock : nat → Q)
    (grids : list (list (list (list atom)))) (s : McduSocket) : McduSocket :=
  foldl (λ s grid, (send_grid faults clock grid s).2) s grids.

(** The [send] calls of a trace. *)
Definition sent (l : list net_call) : list net_call := List.filter is_Send l.

(** An environment of the sender in which the call of position [k0]
    raises [e] and every other call succeeds. *)
Definition raising (e : exn) (k0 : nat) (k : nat) : option exn :=
  if bool_decide (k = k0) then Some e else None.

(** ** The handler list of the SimConnect wrapper (SimConnectMobiFlight)

    The handlers are Python callables, which [in] and [list.remove]
    compare with [==]: any type [H] with a decidable equality. *)
Section Handlers.

Context {H : Type} `{EqDecision H}.

(** [if handler not in self.client_data_handlers:
       self.client_data_handlers.append(handler)] *)
Definition register_client_data_handler (handler : H)
    (client_data_handlers : list H) : list H :=
  if bool_decide (handler ∉ client_data_handlers)
  then client_data_handlers ++ [handler]
  else client_data_handlers.

(** [l.remove(x)]: the first item equal to [x] is removed; [None] is the
    [ValueError] raised when there is none. *)
Fixpoint list_remove (x : H) (l : list H) : option (list H) :=
  match l with
  | [] => None
  | y :: rest =>
      if bool_decide (y = x) then Some rest
      else rest' ← list_remove x rest; Some (y :: rest')
  end.

(** [if handler in self.client_data_handlers:
       self.client_data_handlers.remove(handler)] *)
Definition unregister_client_data_handler (handler : H)
    (client_data_handlers : list H) : option (list H) :=
  if bool_decide (handler ∈ client_data_handlers)
  then list_remove handler client_data_handlers
  else Some client_data_handlers.

End Handlers.

(** A printable ASCII character. *)
Definition printable (c : N) : Prop := (32 ≤ c ≤ 126)%N.

(** The number of [send] calls that returned in the part [l] of a
    trace, whose first call has position [k] in the trace. *)
Fixpoint returned_sends (faults : nat → option exn) (k : nat) (l : list net_call)
  : nat :=
  match l with
  | [] => 0
  | c :: rest =>
      ((if is_Send c && bool_decide (faults k = None) then 1 else 0)
       + returned_sends faults (S k) rest)%nat
  end.

(** The connection [k] was opened: the call of position [k] of the
    trace is a [create_connection], and it returned. *)
Definition opened (faults : nat → option exn) (l : list net_call) (k : nat) : Prop :=
  faults k = None ∧ ∃ u t, l !! k = Some (CreateConnection u t).

(** Every connection that was opened is the one held or has had
    [close] called on it, and the connection held was opened. *)
Definition no_leak (faults : nat → option exn) (s : McduSocket) : Prop :=
  (∀ k, opened faults (net_calls s) k → ws s = Some k ∨ Close k ∈ net_calls s) ∧
  (∀ k, ws s = Some k → opened faults (net_calls s) k).

(** ** The message, as the specification writes it

    These definitions follow the text of the message, not the code: they
    are what [grid_to_payload] is compared with. *)

(** [sep.join(l)] *)
Fixpoint join_with (sep : list N) (l : list (list N)) : list N :=
  match l with
  | [] => []
  | x :: rest =>
      match rest with
      | [] => x
      | _ :: _ => x ++ sep ++ join_with sep rest
      end
  end.

(** The text of an entry of a cell: a string between double quotes, its
    characters escaped, or an integer in decimal. *)
Definition atom_text (a : atom) : list N :=
  match a with
  | AStr s => [34%N] ++ (s ≫= escape_char) ++ [34%N]
  | AInt n => dumps_int n
  end.

(** The text of a cell: its entries between brackets, separated by a
    comma and a space. *)
Definition cell_text (c : list atom) : list N :=
  py "[" ++ join_with (py ", ") (atom_text <$> c) ++ py "]".

(** The text of the message: the object with the key [Target], whose
    value is [Display], and the key [Data], whose value is the array of
    the cells. *)
Definition message_text (cells : list (list N)) : list N :=
  [123; 34]%N ++ py "Target" ++ [34%N] ++ py ": " ++ [34%N] ++ py "Display" ++ [34%N] ++
  py ", " ++ [34%N] ++ py "Data" ++ [34%N] ++ py ": [" ++
  join_with (py ", ") cells ++ py "]}".

(** A character that a JSON string holds as it is: printable ASCII, and
    neither the double quote nor the backslash. *)
Definition plain (c : N) : Prop := (32 ≤ c ≤ 126)%N ∧ c ≠ 34%N ∧ c ≠ 92%N.

(** The hexadecimal digit of [n], in lower case. *)
Definition hex_char (n : N) : N := default 0%N (py "0123456789abcdef" !! N.to_nat n).

(** The grid with the letter [A] written at the start of the second row. *)
Definition grid_with_A : option (list (list (list atom))) :=
  put_text empty_grid (py "A") 1 0 (py "a") LARGE.

(** ** The attempts of the sender, call by call *)

(** The calls of one attempt of [send_grid], up to its [send]: on a held
    connection the [send]; without one, [create_connection] and
    [settimeout] first, then the [send] on the new connection, whose
    handle is the position of its [create_connection] in the trace. *)
Definition attempt_plan (payload : list N) (s : McduSocket) : list net_call :=
  match ws s with
  | Some c => [Send c payload]
  | None => [CreateConnection (url s) (connect_timeout s);
             SetTimeout (length (net_calls s)) 1;
             Send (length (net_calls s)) payload]
  end.

(** The first of the [n] calls from position [k] of the trace on that
    raises: its rank among them and its exception. *)
Fixpoint first_fault (faults : nat → option exn) (k n : nat) : option (nat * exn) :=
  match n with
  | O => None
  | S n' =>
      match faults k with
      | Some e => Some (O, e)
      | None => prod_map S id <$> first_fault faults (S k) n'
      end
  end.

(** The connection held once the call of rank [j] of an attempt has
    raised. *)
Definition held_at (s : McduSocket) (j : nat) : option nat :=
  match ws s with
  | Some c => Some c
  | None => match j with O => None | S _ => Some (length (net_calls s)) end
  end.
(** * Properties *)

(** ** Grid: well-formedness and cell lookup *)

Lemma wf_empty_grid : wf_grid empty_grid.
Proof.
  split; [reflexivity|].
  apply Forall_forall. intros r Hr.
  apply elem_of_replicate in Hr as [-> _]. reflexivity.
Qed.

Lemma cell_at_empty_grid r c :
  0 ≤ r < CDU_ROWS → 0 ≤ c < CDU_COLUMNS → cell_at empty_grid r c = Some [].
Proof.
  unfold CDU_ROWS, CDU_COLUMNS. intros Hr Hc. unfold cell_at, empty_grid.
  rewrite bool_decide_eq_true_2 by lia.
  rewrite lookup_replicate_2 by (unfold CDU_ROWS; lia).
  apply lookup_replicate_2. unfold CDU_COLUMNS. lia.
Qed.

Lemma cell_at_is_Some g r c :
  wf_grid g → 0 ≤ r < CDU_ROWS → 0 ≤ c < CDU_COLUMNS → is_Some (cell_at g r c).
Proof.
  unfold CDU_ROWS, CDU_COLUMNS. intros [Hl Hf] Hr Hc. unfold cell_at.
  rewrite bool_decide_eq_true_2 by lia.
  destruct (lookup_lt_is_Some_2 g (Z.to_nat r)) as [rw Hrw].
  { rewrite Hl. unfold CDU_ROWS. lia. }
  rewrite Hrw. simpl.
  apply lookup_lt_is_Some_2.
  rewrite Forall_forall in Hf. rewrite (Hf rw).
  - unfold CDU_COLUMNS. lia.
  - eapply list_elem_of_lookup_2; eauto.
Qed.

Lemma grid_set_spec g row col x :
  wf_grid g → 0 ≤ row < CDU_ROWS → 0 ≤ col < CDU_COLUMNS →
  ∃ g', grid_set g row col x = Some g' ∧ wf_grid g' ∧
        ∀ r c, cell_at g' r c =
               if decide (r = row ∧ c = col) then Some x else cell_at g r c.
Proof.
  unfold CDU_ROWS, CDU_COLUMNS. intros [Hl Hf] Hr Hc.
  assert (Hl' : length g = 14%nat) by (rewrite Hl; reflexivity).
  destruct (lookup_lt_is_Some_2 g (Z.to_nat row)) as [rw Hrw]; [lia|].
  assert (Hlrw : length rw = 24%nat).
  { rewrite Forall_forall in Hf. rewrite (Hf rw); [reflexivity|].
    eapply list_elem_of_lookup_2; eauto. }
  exists (<[Z.to_nat row := <[Z.to_nat col := x]> rw]> g).
  split; [|split].
  - unfold grid_set, py_getitem, py_setitem, py_index.
    rewrite (bool_decide_eq_true_2 (0 ≤ row < _)) by lia. simpl.
    rewrite Hrw. simpl.
    rewrite (bool_decide_eq_true_2 (0 ≤ col < _)) by lia. simpl.
    reflexivity.
  - split.
    + rewrite length_insert. exact Hl.
    + apply Forall_insert; [exact Hf|]. rewrite length_insert, Hlrw. reflexivity.
  - intros r c. unfold cell_at.
    destruct (bool_decide_reflect (0 ≤ r ∧ 0 ≤ c)) as [Hrc|Hrc].
    + destruct (decide (r = row)) as [->|Hne].
      * rewrite list_lookup_insert_eq by lia. rewrite Hrw. simpl.
        destruct (decide (c = col)) as [->|Hne].
        -- rewrite decide_True by done.
           apply list_lookup_insert_eq. lia.
        -- rewrite decide_False by (intros [_ ?]; done).
           apply list_lookup_insert_ne. lia.
      * rewrite decide_False by (intros [? _]; done).
        rewrite list_lookup_insert_ne by lia. reflexivity.
    + rewrite decide_False by lia. reflexivity.
Qed.

(** ** [put_text] *)

Lemma put_text_from_spec text : ∀ g row col i colour size,
  wf_grid g → 0 ≤ row < CDU_ROWS →
  ∃ g', put_text_from g text row col i colour size = Some g' ∧ wf_grid g' ∧
        ∀ r c, cell_at g' r c =
               match (if decide (r = row ∧ 0 ≤ c < CDU_COLUMNS ∧ col + i ≤ c)
                      then text !! Z.to_nat (c - (col + i)) else None) with
               | Some ch => Some (written ch colour size)
               | None => cell_at g r c
               end.
Proof.
  induction text as [|ch rest IH]; intros g row col i colour size Hwf Hrow.
  - exists g. split; [reflexivity|]. split; [exact Hwf|].
    intros r c. case_decide; reflexivity.
  - cbn [put_text_from].
    destruct (bool_decide_reflect (0 ≤ col + i < CDU_COLUMNS)) as [Hcc|Hcc].
    + destruct (grid_set_spec g row (col + i) (written ch colour size) Hwf Hrow Hcc)
        as (g1 & Hset & Hwf1 & Hcell1).
      unfold written in Hset. rewrite Hset. cbn [mbind option_bind].
      destruct (IH g1 row col (i + 1) colour size Hwf1 Hrow) as (g' & Hrun & Hwf' & Hcell').
      exists g'. split; [exact Hrun|]. split; [exact Hwf'|].
      intros r c. rewrite Hcell', Hcell1.
      destruct (decide (r = row ∧ 0 ≤ c < CDU_COLUMNS ∧ col + i ≤ c)) as [(-> & Hc & Hle)|Hn].
      * destruct (decide (c = col + i)) as [->|Hne].
        -- rewrite decide_False by lia.
           rewrite decide_True by done.
           replace (col + i - (col + i)) with 0 by lia. reflexivity.
        -- rewrite decide_True by lia.
           replace (Z.to_nat (c - (col + i))) with (S (Z.to_nat (c - (col + (i + 1))))) by lia.
           cbn [lookup list_lookup].
           destruct (rest !! _); [reflexivity|].
           rewrite decide_False by (intros [_ ?]; lia). reflexivity.
      * rewrite decide_False by lia.
        rewrite decide_False by lia. reflexivity.
    + cbn [mbind option_bind].
      destruct (IH g row col (i + 1) colour size Hwf Hrow) as (g' & Hrun & Hwf' & Hcell').
      exists g'. split; [exact Hrun|]. split; [exact Hwf'|].
      intros r c. rewrite Hcell'.
      destruct (decide (r = row ∧ 0 ≤ c < CDU_COLUMNS ∧ col + i ≤ c)) as [(-> & Hc & Hle)|Hn].
      * rewrite decide_True by lia.
        replace (Z.to_nat (c - (col + i))) with (S (Z.to_nat (c - (col + (i + 1))))) by lia.
        reflexivity.
      * rewrite decide_False by lia. reflexivity.
Qed.

(** What [put_text] leaves in each cell of a well-formed grid. *)
Lemma put_text_spec g text row col colour size :
  wf_grid g →
  ∃ g', put_text g text row col colour size = Some g' ∧ wf_grid g' ∧
        ∀ r c, cell_at g' r c =
               match (if decide (0 ≤ row < CDU_ROWS ∧ r = row ∧
                                 0 ≤ c < CDU_COLUMNS ∧ col ≤ c)
                      then text !! Z.to_nat (c - col) else None) with
               | Some ch => Some (written ch colour size)
               | None => cell_at g r c
               end.
Proof.
  intros Hwf. unfold put_text.
  destruct (bool_decide_reflect (0 ≤ row < CDU_ROWS)) as [Hrow|Hrow]; cbn [negb].
  - destruct (put_text_from_spec text g row col 0 colour size Hwf Hrow)
      as (g' & Hrun & Hwf' & Hcell).
    exists g'. split; [exact Hrun|]. split; [exact Hwf'|].
    intros r c. rewrite Hcell. rewrite Z.add_0_r.
    destruct (decide (r = row ∧ 0 ≤ c < CDU_COLUMNS ∧ col ≤ c)).
    + rewrite decide_True by tauto. reflexivity.
    + rewrite decide_False by tauto. reflexivity.
  - exists g. split; [reflexivity|]. split; [exact Hwf|].
    intros r c. rewrite decide_False by tauto. reflexivity.
Qed.

(** ** [clear_area_with_spaces] *)

Lemma clear_row_spec cols : ∀ g row x,
  wf_grid g → 0 ≤ row < CDU_ROWS → Forall (λ c, 0 ≤ c < CDU_COLUMNS) cols →
  ∃ g', for_each cols (λ c g, grid_set g row c x) g = Some g' ∧ wf_grid g' ∧
        ∀ r c, cell_at g' r c =
               if decide (r = row ∧ c ∈ cols) then Some x else cell_at g r c.
Proof.
  induction cols as [|c0 cols IH]; intros g row x Hwf Hrow Hcols.
  - exists g. split; [reflexivity|]. split; [exact Hwf|].
    intros r c. rewrite decide_False; [reflexivity|]. intros [_ H]. inversion H.
  - apply Forall_cons in Hcols as [Hc0 Hcols]. cbn [for_each].
    destruct (grid_set_spec g row c0 x Hwf Hrow Hc0) as (g1 & Hset & Hwf1 & Hcell1).
    rewrite Hset. cbn [mbind option_bind].
    destruct (IH g1 row x Hwf1 Hrow Hcols) as (g' & Hrun & Hwf' & Hcell').
    exists g'. split; [exact Hrun|]. split; [exact Hwf'|].
    intros r c. rewrite Hcell', Hcell1.
    destruct (decide (r = row ∧ c ∈ cols)) as [[-> Hin]|Hn].
    + rewrite decide_True; [reflexivity|]. split; [done|]. by right.
    + destruct (decide (r = row ∧ c = c0)) as [[-> ->]|Hn'].
      * rewrite decide_True; [reflexivity|]. split; [done|]. by left.
      * rewrite decide_False; [reflexivity|].
        intros [-> Hin]. apply elem_of_cons in Hin as [->|Hin]; tauto.
Qed.

Lemma clear_rows_spec rows : ∀ g cols x,
  wf_grid g → Forall (λ r, 0 ≤ r < CDU_ROWS) rows →
  Forall (λ c, 0 ≤ c < CDU_COLUMNS) cols →
  ∃ g', for_each rows (λ r g, for_each cols (λ c g, grid_set g r c x) g) g = Some g' ∧
        wf_grid g' ∧
        ∀ r c, cell_at g' r c =
               if decide (r ∈ rows ∧ c ∈ cols) then Some x else cell_at g r c.
Proof.
  induction rows as [|r0 rows IH]; intros g cols x Hwf Hrows Hcols.
  - exists g. split; [reflexivity|]. split; [exact Hwf|].
    intros r c. rewrite decide_False; [reflexivity|]. intros [H _]. inversion H.
  - apply Forall_cons in Hrows as [Hr0 Hrows]. cbn [for_each].
    destruct (clear_row_spec cols g r0 x Hwf Hr0 Hcols) as (g1 & Hrow & Hwf1 & Hcell1).
    rewrite Hrow. cbn [mbind option_bind].
    destruct (IH g1 cols x Hwf1 Hrows Hcols) as (g' & Hrun & Hwf' & Hcell').
    exists g'. split; [exact Hrun|]. split; [exact Hwf'|].
    intros r c. rewrite Hcell', Hcell1.
    destruct (decide (r ∈ rows ∧ c ∈ cols)) as [[Hin Hc]|Hn].
    + rewrite decide_True; [reflexivity|]. split; [by right|done].
    + destruct (decide (r = r0 ∧ c ∈ cols)) as [[-> Hc]|Hn'].
      * rewrite decide_True; [reflexivity|]. split; [by left|done].
      * rewrite decide_False; [reflexivity|].
        intros [Hin Hc]. apply elem_of_cons in Hin as [->|Hin]; tauto.
Qed.

Lemma elem_of_py_range x a b : x ∈ py_range a b ↔ a ≤ x < b.
Proof. unfold py_range. rewrite elem_of_seqZ. lia. Qed.

(** What [clear_area_with_spaces] leaves in each cell, for an area inside
    the grid. *)
Lemma clear_area_spec g r0 r1 c0 c1 colour size :
  wf_grid g → 0 ≤ r0 → r1 < CDU_ROWS → 0 ≤ c0 → c1 ≤ CDU_COLUMNS →
  ∃ g', clear_area_with_spaces g r0 r1 c0 c1 colour size = Some g' ∧ wf_grid g' ∧
        ∀ r c, cell_at g' r c =
               if decide (r0 ≤ r ≤ r1 ∧ c0 ≤ c < c1)
               then Some (space_cell colour size) else cell_at g r c.
Proof.
  intros Hwf Hr0 Hr1 Hc0 Hc1. unfold clear_area_with_spaces.
  destruct (clear_rows_spec (py_range r0 (r1 + 1)) g (py_range c0 c1)
              (space_cell colour size) Hwf) as (g' & Hrun & Hwf' & Hcell).
  - apply Forall_forall. intros r Hr. apply elem_of_py_range in Hr. lia.
  - apply Forall_forall. intros c Hc. apply elem_of_py_range in Hc. lia.
  - exists g'. split; [exact Hrun|]. split; [exact Hwf'|].
    intros r c. rewrite Hcell.
    destruct (decide (r0 ≤ r ≤ r1 ∧ c0 ≤ c < c1)) as [H|H].
    + rewrite decide_True; [reflexivity|]. rewrite !elem_of_py_range. lia.
    + rewrite decide_False; [reflexivity|]. rewrite !elem_of_py_range. lia.
Qed.

(** ** Slices *)

Lemma py_slice_nonneg {A} (l : list A) a b :
  0 ≤ a ≤ b → py_slice l a b = take (Z.to_nat (b - a)) (drop (Z.to_nat a) l).
Proof.
  intros Hab. unfold py_slice, py_clamp.
  rewrite (bool_decide_eq_false_2 (a < 0)) by lia.
  rewrite (bool_decide_eq_false_2 (b < 0)) by lia.
  destruct (Z.min_spec a (Z.of_nat (length l))) as [[Ha ->]|[Ha ->]];
    destruct (Z.min_spec b (Z.of_nat (length l))) as [[Hb ->]|[Hb ->]]; try lia.
  - reflexivity.
  - rewrite !take_ge; [reflexivity| |]; rewrite length_drop; lia.
  - rewrite Nat2Z.id. rewrite !drop_ge by lia. rewrite !take_nil. reflexivity.
Qed.

Lemma py_slice_0 {A} (l : list A) n : 0 ≤ n → py_slice l 0 n = take (Z.to_nat n) l.
Proof.
  intros Hn. rewrite py_slice_nonneg by lia.
  rewrite Z.sub_0_r. reflexivity.
Qed.

(** ** Label compaction *)

(** C5. [compact_labels] is a total function that returns exactly the
    labels of the entries whose state equals 1, in the order of the
    input: it is the input filtered on state 1 and projected on the
    label, hence a subsequence of the input labels; an entry of any
    other state (0, or the alternate state 2) contributes nothing; and
    [(0,A), (1,B), (1,C), (0,D)] yields [B, C]. *)
Theorem compact_labels_active_in_order :
  (∀ pairs : list (Z * list N),
     compact_labels pairs = snd <$> filter (λ p, p.1 = 1) pairs) ∧
  (∀ pairs : list (Z * list N),
     compact_labels pairs `sublist_of` (snd <$> pairs)) ∧
  (∀ (pairs : list (Z * list N)) label,
     label ∈ compact_labels pairs ↔ (1, label) ∈ pairs) ∧
  (∀ (pairs : list (Z * list N)) val label,
     val ≠ 1 → compact_labels ((val, label) :: pairs) = compact_labels pairs) ∧
  (∀ (pairs : list (Z * list N)) label,
     compact_labels ((2, label) :: pairs) = compact_labels pairs) ∧
  compact_labels [(0, py "A"); (1, py "B"); (1, py "C"); (0, py "D")]
    = [py "B"; py "C"].
Proof.
  assert (Hfilter : ∀ pairs : list (Z * list N),
             compact_labels pairs = snd <$> filter (λ p, p.1 = 1) pairs).
  { induction pairs as [|[val label] rest IH]; [reflexivity|].
    cbn [compact_labels]. rewrite filter_cons. cbn [fst].
    destruct (bool_decide_reflect (val = 1)) as [Hv|Hv].
    - rewrite decide_True by done. rewrite fmap_cons, IH. reflexivity.
    - rewrite decide_False by done. exact IH. }
  split; [exact Hfilter|]. split; [|split; [|split; [|split]]].
  - induction pairs as [|[val label] rest IH]; [constructor|].
    cbn [compact_labels]. rewrite fmap_cons. cbn [snd].
    destruct (bool_decide (val = 1)).
    + by apply sublist_skip.
    + by apply sublist_cons.
  - intros pairs label. rewrite Hfilter. rewrite list_elem_of_fmap. split.
    + intros ([val l] & -> & Hin). apply list_elem_of_filter in Hin as [Hv Hin].
      cbn in Hv. subst val. exact Hin.
    + intros Hin. exists (1, label). split; [reflexivity|].
      apply list_elem_of_filter. split; [reflexivity|exact Hin].
  - intros pairs val label Hv. cbn [compact_labels].
    rewrite bool_decide_eq_false_2 by done. reflexivity.
  - reflexivity.
  - reflexivity.
Qed.

Lemma compact_labels_active_in_order_witness :
  compact_labels [(3, py "A"); (1, py "B")] = compact_labels [(1, py "B")].
Proof.
  destruct compact_labels_active_in_order as (_ & _ & _ & H & _).
  apply H. lia.
Defined.

(** ** Paging *)

Lemma visible_take_drop (labels : list (list N)) (cdsPage : Z) :
  0 ≤ cdsPage →
  visible labels cdsPage = take 6 (drop (Z.to_nat (cdsPage * 6)) labels).
Proof.
  intros Hp. unfold visible, page_size. rewrite py_slice_nonneg by lia.
  replace (Z.to_nat (cdsPage * 6 + 6 - cdsPage * 6)) with 6%nat by lia.
  reflexivity.
Qed.

(** C6. For every label list and every page in {0,1,2} the window is
    the sub-range [page*6, page*6+6) of the list clamped to its bounds:
    its [i]-th label is the label of index [page*6 + i] for [i < 6] and
    there is none beyond, its length is [min 6 (len - page*6)] and never
    negative, hence at most 6; the window is a total function (nothing
    is raised on a short list), and 14 labels at page 2 give exactly 2. *)
Theorem visible_window (labels : list (list N)) (cdsPage : Z) :
  0 ≤ cdsPage ≤ 2 →
  (∀ i : nat,
     visible labels cdsPage !! i =
     if decide (i < 6)%nat then labels !! (Z.to_nat (cdsPage * 6) + i)%nat
     else None) ∧
  Z.of_nat (length (visible labels cdsPage)) =
    Z.max 0 (Z.min 6 (Z.of_nat (length labels) - cdsPage * 6)) ∧
  (length (visible labels cdsPage) ≤ 6)%nat ∧
  (length labels = 14%nat → cdsPage = 2 → length (visible labels cdsPage) = 2%nat).
Proof.
  intros Hp. rewrite visible_take_drop by lia.
  split; [|split; [|split]].
  - intros i. destruct (decide (i < 6)%nat) as [Hi|Hi].
    + rewrite lookup_take_lt by done. apply lookup_drop.
    + apply lookup_take_ge. lia.
  - rewrite length_take, length_drop. lia.
  - rewrite length_take. lia.
  - intros Hlen ->. rewrite length_take, length_drop, Hlen. reflexivity.
Qed.

Lemma visible_window_witness :
  length (visible fourteen_labels 2) = 2%nat.
Proof.
  apply (visible_window fourteen_labels 2); [lia|reflexivity|reflexivity].
Defined.

(** ** Writing text into the grid *)

(** C7. On every display grid (14 rows of 24 cells), for every text,
    row and column, [put_text] returns a grid and raises nothing; the
    result is again 14 by 24, so a character whose target cell lies
    outside the grid is dropped; a row outside [0,14) leaves the grid as
    it was; the character of index [i] lands in the cell of column
    [col + i] of the row when that column is in [0,24), so a text running
    past column 23 is cut there; and every cell that no character of the
    text targets is unchanged. *)
Theorem put_text_total_and_framed (g : list (list (list atom))) (text : list N)
    (row col : Z) (colour : list N) (size : Z) :
  wf_grid g →
  ∃ g', put_text g text row col colour size = Some g' ∧
        wf_grid g' ∧
        (¬ 0 ≤ row < CDU_ROWS → g' = g) ∧
        (∀ (i : nat) ch,
           text !! i = Some ch → 0 ≤ row < CDU_ROWS →
           0 ≤ col + Z.of_nat i < CDU_COLUMNS →
           cell_at g' row (col + Z.of_nat i) = Some (written ch colour size)) ∧
        (∀ r c,
           ¬ (0 ≤ row < CDU_ROWS ∧ r = row ∧ 0 ≤ c < CDU_COLUMNS ∧
              col ≤ c < col + Z.of_nat (length text)) →
           cell_at g' r c = cell_at g r c) ∧
        (∀ r c, ¬ (0 ≤ r < CDU_ROWS ∧ 0 ≤ c < CDU_COLUMNS) →
                cell_at g' r c = cell_at g r c).
Proof.
  intros Hwf.
  destruct (put_text_spec g text row col colour size Hwf) as (g' & Hrun & Hwf' & Hcell).
  exists g'. split; [exact Hrun|]. split; [exact Hwf'|].
  split; [|split; [|split]].
  - intros Hrow. unfold put_text in Hrun.
    rewrite bool_decide_eq_false_2 in Hrun by exact Hrow.
    cbn in Hrun. congruence.
  - intros i ch Hi Hrow Hc. rewrite Hcell.
    rewrite decide_True by lia.
    replace (Z.to_nat (col + Z.of_nat i - col)) with i by lia.
    rewrite Hi. reflexivity.
  - intros r c Hn. rewrite Hcell.
    destruct (decide (0 ≤ row < CDU_ROWS ∧ r = row ∧ 0 ≤ c < CDU_COLUMNS ∧ col ≤ c))
      as [(Hr & -> & Hc & Hle)|]; [|reflexivity].
    rewrite lookup_ge_None_2; [reflexivity|]. lia.
  - intros r c Hn. rewrite Hcell.
    destruct (decide (0 ≤ row < CDU_ROWS ∧ r = row ∧ 0 ≤ c < CDU_COLUMNS ∧ col ≤ c))
      as [(Hr & -> & Hc & Hle)|]; [|reflexivity].
    exfalso. apply Hn. lia.
Qed.

Lemma put_text_total_and_framed_witness :
  ∃ g', put_text empty_grid (py "0123456789") 2 20 (py "a") LARGE = Some g' ∧
        cell_at g' 2 23 = Some (written 51%N (py "a") LARGE) ∧
        cell_at g' 2 19 = Some [] ∧
        cell_at g' 3 0 = Some [] ∧
        cell_at g' 2 24 = None.
Proof.
  destruct (put_text_total_and_framed empty_grid (py "0123456789") 2 20 (py "a")
              LARGE wf_empty_grid) as (g' & Hrun & _ & _ & Hhit & Hmiss & Hout).
  exists g'. split; [exact Hrun|]. split; [|split; [|split]].
  - apply (Hhit 3%nat 51%N); [reflexivity|unfold CDU_ROWS; lia|unfold CDU_COLUMNS; lia].
  - rewrite Hmiss; [reflexivity|]. cbn. lia.
  - rewrite Hmiss; [reflexivity|]. cbn. lia.
  - rewrite Hout; [reflexivity|]. unfold CDU_COLUMNS. lia.
Defined.

(** Writing at row 20 is a no-op; ten characters at column 20 fill
    columns 20 to 23 and nothing else. *)
Example put_text_row_20 :
  put_text empty_grid (py "0123456789") 20 0 (py "a") LARGE = Some empty_grid.
Proof. reflexivity. Qed.

Example put_text_col_20 :
  put_text empty_grid (py "0123456789") 0 20 (py "a") LARGE
  = Some (<[0%nat := replicate 20 [] ++
                      ((λ ch, written ch (py "a") LARGE) <$> py "0123")]> empty_grid).
Proof. vm_compute. reflexivity. Qed.

(** A list of lists that is not a 14 by 24 grid is indexed as Python
    indexes it: the write raises [IndexError]. *)
Example put_text_not_a_grid :
  put_text [[]] (py "A") 0 0 (py "a") LARGE = None.
Proof. reflexivity. Qed.

(** ** The wire document *)

Lemma chain_lookup (g : list (list (list atom))) (r c : nat) :
  wf_grid g → (c < 24)%nat →
  chain g !! (r * 24 + c)%nat = g !! r ≫= (.!! c).
Proof.
  intros [_ Hf] Hc. unfold chain.
  destruct (g !! r) as [rw|] eqn:Hrw; cbn [mbind option_bind].
  - destruct (rw !! c) as [x|] eqn:Hx.
    + apply (join_lookup_Some_same_length' 24 g r c x Hf Hc). eauto.
    + assert (Hlen : length rw = 24%nat).
      { rewrite Forall_forall in Hf. apply Hf. eapply list_elem_of_lookup_2; eauto. }
      apply lookup_ge_None in Hx. lia.
  - destruct (mjoin g !! (r * 24 + c)%nat) as [x|] eqn:Hx; [|reflexivity].
    apply (join_lookup_Some_same_length' 24 g r c x Hf Hc) in Hx as (l & Hl & _).
    congruence.
Qed.

Lemma chain_length (g : list (list (list atom))) :
  wf_grid g → length (chain g) = 336%nat.
Proof.
  intros [Hl Hf]. unfold chain. rewrite length_join.
  rewrite (sum_list_fmap_same 24) by exact Hf. rewrite Hl. reflexivity.
Qed.

Lemma json_dumps_array (l : list json) :
  json_dumps (JArr l) = py "[" ++ join_with (py ", ") (json_dumps <$> l) ++ py "]".
Proof.
  cbn [json_dumps]. f_equal. f_equal.
  induction l as [|x rest IH]; [reflexivity|].
  destruct rest as [|y rest]; [reflexivity|].
  cbn [fmap list_fmap join_with] in *. rewrite <- IH. reflexivity.
Qed.

Lemma json_dumps_cell_text (c : list atom) : json_dumps (cell_json c) = cell_text c.
Proof.
  unfold cell_json, cell_text. rewrite json_dumps_array.
  rewrite <- list_fmap_compose.
  rewrite (list_fmap_ext (json_dumps ∘ atom_json) atom_text c); [reflexivity|].
  intros _ [s|n] _; reflexivity.
Qed.

Lemma escape_char_plain (c : N) : plain c → escape_char c = [c].
Proof.
  intros (Hrange & H34 & H92). unfold escape_char.
  rewrite (bool_decide_eq_false_2 (c = 34%N)) by exact H34.
  rewrite (bool_decide_eq_false_2 (c = 92%N)) by exact H92.
  rewrite (bool_decide_eq_false_2 (c = 10%N)) by lia.
  rewrite (bool_decide_eq_false_2 (c = 13%N)) by lia.
  rewrite (bool_decide_eq_false_2 (c = 9%N)) by lia.
  rewrite (bool_decide_eq_false_2 (c = 12%N)) by lia.
  rewrite (bool_decide_eq_false_2 (c = 8%N)) by lia.
  rewrite bool_decide_eq_true_2 by exact Hrange. reflexivity.
Qed.

Lemma escape_plain (s : list N) : Forall plain s → s ≫= escape_char = s.
Proof.
  induction 1 as [|c s Hc _ IH]; [reflexivity|].
  cbn [mbind list_bind]. change (escape_char c ++ (s ≫= escape_char) = c :: s).
  rewrite escape_char_plain, IH by exact Hc. reflexivity.
Qed.

Lemma hex_digit_char (n : N) : (n < 16)%N → hex_digit n = hex_char n.
Proof.
  intros Hn.
  assert (H : n ∈ (N.of_nat <$> seq 0 16)).
  { apply list_elem_of_fmap. exists (N.to_nat n). split; [lia|].
    apply elem_of_seq. lia. }
  cbn in H. repeat (apply elem_of_cons in H as [->|H]; [reflexivity|]).
  inversion H.
Qed.

Lemma escape_char_bmp (c : N) :
  (127 ≤ c < 0x10000)%N →
  escape_char c = py "\u" ++ [hex_char (c `div` 4096); hex_char ((c `div` 256) `mod` 16);
                              hex_char ((c `div` 16) `mod` 16); hex_char (c `mod` 16)].
Proof.
  intros Hc. unfold escape_char.
  rewrite (bool_decide_eq_false_2 (c = 34%N)) by lia.
  rewrite (bool_decide_eq_false_2 (c = 92%N)) by lia.
  rewrite (bool_decide_eq_false_2 (c = 10%N)) by lia.
  rewrite (bool_decide_eq_false_2 (c = 13%N)) by lia.
  rewrite (bool_decide_eq_false_2 (c = 9%N)) by lia.
  rewrite (bool_decide_eq_false_2 (c = 12%N)) by lia.
  rewrite (bool_decide_eq_false_2 (c = 8%N)) by lia.
  rewrite bool_decide_eq_false_2 by lia.
  rewrite bool_decide_eq_true_2 by lia.
  unfold escape_u.
  assert (H4096 : (c `div` 4096 < 16)%N) by (apply N.Div0.div_lt_upper_bound; lia).
  rewrite (N.mod_small (c `div` 4096)) by exact H4096.
  rewrite !hex_digit_char by (try exact H4096; apply N.mod_lt; lia).
  reflexivity.
Qed.

Lemma dumps_int_digit (n : Z) : 0 ≤ n ≤ 9 → dumps_int n = [Z.to_N (48 + n)].
Proof.
  intros Hn. assert (H : n = 0 ∨ n = 1 ∨ n = 2 ∨ n = 3 ∨ n = 4 ∨ n = 5 ∨ n = 6 ∨
                         n = 7 ∨ n = 8 ∨ n = 9) by lia.
  repeat destruct H as [->|H]; try reflexivity. subst n. reflexivity.
Qed.

(** C9. For every 14 by 24 grid the payload is, character for character,
    the JSON text of the object with [Target] equal to [Display] and
    [Data] the array of the texts of the cells, separated by a comma
    and a space; the cells are 336 and come in row-major order (entry
    [r*24 + c] is the cell of row [r], column [c]).  The text of a cell
    is its entries between brackets: the empty cell is [[]]; a cell with
    a glyph, a colour and a size is the glyph and the colour between
    double quotes and the size in decimal, a glyph beyond ASCII being
    written as a backslash, [u] and its four hexadecimal digits.  For
    [empty_grid] the 336 entries are all the empty cell. *)
Theorem grid_to_payload_shape (g : list (list (list atom))) :
  wf_grid g →
  grid_to_payload g = message_text (cell_text <$> chain g) ∧
  length (chain g) = 336%nat ∧
  (∀ r c : nat, (r < 14)%nat → (c < 24)%nat →
     chain g !! (r * 24 + c)%nat = cell_at g (Z.of_nat r) (Z.of_nat c)) ∧
  cell_text [] = py "[]" ∧
  (∀ ch colour size, plain ch → Forall plain colour → 0 ≤ size ≤ 9 →
     cell_text [AStr [ch]; AStr colour; AInt size]
     = py "[" ++ [34; ch; 34]%N ++ py ", " ++ [34%N] ++ colour ++ [34%N] ++ py ", " ++
       [Z.to_N (48 + size)] ++ py "]") ∧
  (∀ ch colour size, (127 ≤ ch < 0x10000)%N → Forall plain colour → 0 ≤ size ≤ 9 →
     cell_text [AStr [ch]; AStr colour; AInt size]
     = py "[" ++ [34%N] ++ py "\u" ++
       [hex_char (ch `div` 4096); hex_char ((ch `div` 256) `mod` 16);
        hex_char ((ch `div` 16) `mod` 16); hex_char (ch `mod` 16)] ++ [34%N] ++
       py ", " ++ [34%N] ++ colour ++ [34%N] ++ py ", " ++ [Z.to_N (48 + size)] ++ py "]") ∧
  (g = empty_grid → grid_to_payload g = message_text (replicate 336 (py "[]"))).
Proof.
  intros Hwf.
  assert (Htext : ∀ g', grid_to_payload g' = message_text (cell_text <$> chain g')).
  { intros g'. unfold grid_to_payload, payload_document, message_text.
    set (data := cell_json <$> chain g').
    change (json_dumps (JObj [(py "Target", JStr (py "Display")); (py "Data", JArr data)]))
      with (py "{" ++ (dumps_str (py "Target") ++ py ": " ++ dumps_str (py "Display") ++
                       py ", " ++ dumps_str (py "Data") ++ py ": " ++ json_dumps (JArr data))
            ++ py "}").
    rewrite json_dumps_array. unfold data.
    rewrite <- list_fmap_compose.
    rewrite (list_fmap_ext (json_dumps ∘ cell_json) cell_text (chain g'))
      by (intros; apply json_dumps_cell_text).
    generalize (join_with (py ", ") (cell_text <$> chain g')). intros body.
    rewrite <- !app_assoc. reflexivity. }
  split; [apply Htext|]. split; [apply chain_length, Hwf|]. split; [|split; [|split; [|split]]].
  - intros r c Hr Hc. rewrite chain_lookup by done. unfold cell_at.
    rewrite bool_decide_eq_true_2 by lia. rewrite !Nat2Z.id. reflexivity.
  - reflexivity.
  - intros ch colour size Hch Hcolour Hsize. unfold cell_text.
    cbn [fmap list_fmap join_with atom_text].
    change ([ch] ≫= escape_char) with (escape_char ch ++ []).
    rewrite escape_char_plain, escape_plain, dumps_int_digit by assumption.
    rewrite <- ?app_assoc. reflexivity.
  - intros ch colour size Hch Hcolour Hsize. unfold cell_text.
    cbn [fmap list_fmap join_with atom_text].
    change ([ch] ≫= escape_char) with (escape_char ch ++ []).
    rewrite escape_char_bmp, escape_plain, dumps_int_digit by assumption.
    rewrite <- ?app_assoc. reflexivity.
  - intros ->. rewrite Htext. f_equal.
Qed.

Lemma grid_to_payload_shape_witness :
  ∃ g, grid_with_A = Some g ∧
       length (chain g) = 336%nat ∧
       chain g !! 24%nat = Some [AStr (py "A"); AStr (py "a"); AInt LARGE] ∧
       grid_to_payload g =
       message_text (replicate 24 (py "[]") ++
                     [py "[" ++ [34; 65; 34]%N ++ py ", " ++ [34%N] ++ py "a" ++ [34%N] ++
                      py ", 0]"] ++
                     replicate 311 (py "[]")).
Proof.
  destruct grid_with_A as [g|] eqn:Hg; [|vm_compute in Hg; discriminate].
  assert (Hwf : wf_grid g).
  { unfold grid_with_A in Hg.
    destruct (put_text_spec empty_grid (py "A") 1 0 (py "a") LARGE wf_empty_grid)
      as (g' & Hg' & Hwf' & _).
    rewrite Hg in Hg'. injection Hg' as <-. exact Hwf'. }
  destruct (grid_to_payload_shape g Hwf) as (Htext & Hlen & Hrow & _).
  exists g. split; [reflexivity|]. split; [exact Hlen|]. split.
  - transitivity (cell_at g (Z.of_nat 1) (Z.of_nat 0)); [apply (Hrow 1%nat 0%nat); lia|].
    vm_compute in Hg. injection Hg as <-. reflexivity.
  - rewrite Htext. f_equal.
    vm_compute in Hg. injection Hg as <-. vm_compute. reflexivity.
Defined.

(** The text for the empty grid: the two keys, then 336 times [[]]. *)
Example grid_to_payload_empty_grid :
  length (grid_to_payload empty_grid) = 1375%nat ∧
  take 31 (grid_to_payload empty_grid)
  = [123; 34]%N ++ py "Target" ++ [34%N] ++ py ": " ++ [34%N] ++ py "Display" ++
    [34%N] ++ py ", " ++ [34%N] ++ py "Data" ++ [34%N] ++ py ": [" ∧
  drop 1371 (grid_to_payload empty_grid) = py "[]]}".
Proof. vm_compute. repeat split. Qed.

(** A written cell in the text: the glyph escaped, the colour, the size. *)
Example json_dumps_cell :
  json_dumps (cell_json (written 123%N (py "g") SMALL))
  = py "[" ++ [34%N] ++ py "\u2190" ++ [34%N] ++ py ", " ++ [34%N] ++ py "g" ++
    [34%N] ++ py ", 1]".
Proof. vm_compute. reflexivity. Qed.

(** ** Drawing the two columns *)

Lemma draw_column_spec labels : ∀ g row width col,
  wf_grid g → 0 ≤ row ≤ CONTENT_LAST_ROW →
  ∃ g', draw_column g labels row width col = Some g' ∧ wf_grid g' ∧
        ∀ r c, cell_at g' r c =
               match (if decide (r ≤ CONTENT_LAST_ROW ∧ 0 ≤ c < CDU_COLUMNS)
                      then field_char labels width (r - row) (c - col) else None) with
               | Some ch => Some (written ch (py "a") LARGE)
               | None => cell_at g r c
               end.
Proof.
  unfold CONTENT_LAST_ROW, CDU_ROWS.
  induction labels as [|lbl rest IH]; intros g row width col Hwf Hrow.
  - exists g. split; [reflexivity|]. split; [exact Hwf|].
    intros r c. unfold field_char. case_decide; [|reflexivity].
    case_bool_decide; reflexivity.
  - cbn [draw_column].
    destruct (put_text_spec g (ljust (py_slice lbl 0 width) width) row col (py "a")
                LARGE Hwf) as (g1 & Hput & Hwf1 & Hcell1).
    rewrite Hput. cbn [mbind option_bind].
    assert (Hfirst : ∀ r c, r ≤ row →
              cell_at g1 r c =
              match (if decide (r ≤ 14 - 2 ∧ 0 ≤ c < CDU_COLUMNS)
                     then field_char (lbl :: rest) width (r - row) (c - col) else None) with
              | Some ch => Some (written ch (py "a") LARGE)
              | None => cell_at g r c
              end).
    { intros r c Hr. rewrite Hcell1. unfold field_char, CDU_ROWS.
      destruct (decide (0 ≤ row < 14 ∧ r = row ∧ 0 ≤ c < CDU_COLUMNS ∧ col ≤ c))
        as [(_ & -> & Hc & Hle)|Hn].
      - rewrite decide_True by lia. rewrite bool_decide_eq_true_2 by lia.
        replace (Z.to_nat (row - row)) with 0%nat by lia. reflexivity.
      - destruct (decide (r ≤ 14 - 2 ∧ 0 ≤ c < CDU_COLUMNS)) as [Hin|]; [|reflexivity].
        rewrite bool_decide_eq_false_2 by lia. reflexivity. }
    destruct (bool_decide_reflect (row + 1 > CONTENT_LAST_ROW)) as [Hlast|Hmore];
      unfold CONTENT_LAST_ROW, CDU_ROWS in *.
    + exists g1. split; [reflexivity|]. split; [exact Hwf1|].
      intros r c. destruct (decide (r ≤ row)) as [Hr|Hr]; [by apply Hfirst|].
      rewrite decide_False by lia. rewrite Hcell1.
      rewrite decide_False by lia. reflexivity.
    + destruct (IH g1 (row + 1) width col Hwf1) as (g' & Hrun & Hwf' & Hcell'); [lia|].
      exists g'. split; [exact Hrun|]. split; [exact Hwf'|].
      intros r c. rewrite Hcell'.
      destruct (decide (r ≤ row)) as [Hr|Hr].
      * rewrite <- Hfirst by exact Hr.
        destruct (decide (r ≤ 14 - 2 ∧ 0 ≤ c < CDU_COLUMNS)); [|reflexivity].
        unfold field_char. rewrite bool_decide_eq_false_2 by lia. reflexivity.
      * destruct (decide (r ≤ 14 - 2 ∧ 0 ≤ c < CDU_COLUMNS)) as [Hin|Hout].
        -- unfold field_char.
           destruct (bool_decide_reflect (0 ≤ r - (row + 1) ∧ 0 ≤ c - col)) as [Hb|Hb].
           ++ rewrite bool_decide_eq_true_2 by lia.
              replace (Z.to_nat (r - row)) with (S (Z.to_nat (r - (row + 1)))) by lia.
              cbn [lookup list_lookup].
              destruct (rest !! Z.to_nat (r - (row + 1)) ≫= _); [reflexivity|].
              rewrite Hcell1. rewrite decide_False by lia. reflexivity.
           ++ rewrite bool_decide_eq_false_2 by lia.
              rewrite Hcell1. rewrite decide_False by lia. reflexivity.
        -- rewrite Hcell1. rewrite decide_False by lia. reflexivity.
Qed.

(** What [draw_columns] leaves in each cell of a well-formed grid: in
    the content rows, the character of the right field, else that of the
    left field, else a white space; the last row is untouched. *)
Lemma draw_columns_spec g left_labels right_labels :
  wf_grid g →
  ∃ g', draw_columns g left_labels right_labels = Some g' ∧ wf_grid g' ∧
        ∀ r c, 0 ≤ c < CDU_COLUMNS →
          cell_at g' r c =
          if decide (0 ≤ r ≤ CONTENT_LAST_ROW) then
            match field_char (py_slice right_labels 0 MAX_ROWS) 11 r (c - RIGHT_COL_START) with
            | Some ch => Some (written ch (py "a") LARGE)
            | None =>
                match field_char (py_slice left_labels 0 MAX_ROWS) 12 r (c - LEFT_COL_START) with
                | Some ch => Some (written ch (py "a") LARGE)
                | None => Some (space_cell (py "w") 0)
                end
            end
          else cell_at g r c.
Proof.
  intros Hwf. unfold draw_columns.
  destruct (clear_area_spec g CONTENT_FIRST_ROW CONTENT_LAST_ROW 0 CDU_COLUMNS
              (py "w") 0 Hwf) as (g1 & Hclear & Hwf1 & Hcell1);
    [unfold CONTENT_FIRST_ROW; lia|unfold CONTENT_LAST_ROW, CDU_ROWS; lia|lia|lia|].
  rewrite Hclear. cbn [mbind option_bind].
  destruct (draw_column_spec (py_slice left_labels 0 MAX_ROWS) g1 CONTENT_FIRST_ROW
              12 LEFT_COL_START Hwf1) as (g2 & Hleft & Hwf2 & Hcell2);
    [unfold CONTENT_FIRST_ROW, CONTENT_LAST_ROW, CDU_ROWS; lia|].
  rewrite Hleft. cbn [mbind option_bind].
  destruct (draw_column_spec (py_slice right_labels 0 MAX_ROWS) g2 CONTENT_FIRST_ROW
              11 RIGHT_COL_START Hwf2) as (g3 & Hright & Hwf3 & Hcell3);
    [unfold CONTENT_FIRST_ROW, CONTENT_LAST_ROW, CDU_ROWS; lia|].
  exists g3. split; [exact Hright|]. split; [exact Hwf3|].
  intros r c Hc. rewrite Hcell3, Hcell2, Hcell1.
  unfold CONTENT_FIRST_ROW, CONTENT_LAST_ROW, CDU_ROWS in *. rewrite !Z.sub_0_r.
  destruct (decide (0 ≤ r ≤ 14 - 2)) as [Hr|Hr].
  - rewrite !decide_True by lia. reflexivity.
  - destruct (decide (r ≤ 14 - 2 ∧ 0 ≤ c < CDU_COLUMNS)) as [Hin|Hout].
    + unfold field_char. rewrite !bool_decide_eq_false_2 by lia.
      rewrite decide_False by lia. reflexivity.
    + rewrite decide_False by lia. reflexivity.
Qed.

(** ** One tick *)

Lemma draw_misc_spec rows : ∀ g visible_misc i,
  wf_grid g → 0 ≤ i →
  ∃ g', draw_misc g visible_misc i rows = Some g' ∧ wf_grid g' ∧
        ∀ r c, r ∉ rows → cell_at g' r c = cell_at g r c.
Proof.
  induction rows as [|row rest IH]; intros g vis i Hwf Hi.
  - exists g. split; [reflexivity|]. split; [exact Hwf|]. reflexivity.
  - cbn [draw_misc].
    assert (Hstep : ∃ g1,
              (if bool_decide (i < Z.of_nat (length vis))
               then lbl ← py_getitem vis i; put_text_center g lbl row (py "a") LARGE
               else Some g) = Some g1 ∧ wf_grid g1 ∧
              ∀ r c, r ≠ row → cell_at g1 r c = cell_at g r c).
    { destruct (bool_decide_reflect (i < Z.of_nat (length vis))) as [Hlt|Hge].
      - destruct (lookup_lt_is_Some_2 vis (Z.to_nat i)) as [lbl Hlbl]; [lia|].
        unfold py_getitem, py_index.
        rewrite bool_decide_eq_true_2 by lia. cbn [mbind option_bind].
        rewrite Hlbl. cbn [mbind option_bind]. unfold put_text_center.
        destruct (put_text_spec g (py_slice lbl 0 CDU_COLUMNS) row
                    ((CDU_COLUMNS - Z.of_nat (length (py_slice lbl 0 CDU_COLUMNS))) `div` 2)
                    (py "a") LARGE Hwf) as (g1 & Hput & Hwf1 & Hcell1).
        exists g1. split; [exact Hput|]. split; [exact Hwf1|].
        intros r c Hr. rewrite Hcell1. rewrite decide_False by tauto. reflexivity.
      - exists g. split; [reflexivity|]. split; [exact Hwf|]. reflexivity. }
    destruct Hstep as (g1 & Hstep & Hwf1 & Hcell1). rewrite Hstep.
    cbn [mbind option_bind].
    destruct (IH g1 vis (i + 1) Hwf1) as (g' & Hrun & Hwf' & Hcell'); [lia|].
    exists g'. split; [exact Hrun|]. split; [exact Hwf'|].
    intros r c Hr. rewrite Hcell', Hcell1; [reflexivity| |].
    + intros ->. apply Hr. by left.
    + intros Hin. apply Hr. by right.
Qed.

(** A tick always builds a grid, and the first six rows of the grid it
    sends are the ones [draw_columns] has drawn: the title, the
    miscellaneous block and the green indicators live in rows 6 to 13. *)
Lemma render_tick_first_rows (val : list N → Z) :
  ∃ g1 g,
    draw_columns empty_grid
      (visible (compact_labels (left_pairs val)) (val (py "(L:cdsPage)")))
      (visible (compact_labels (right_pairs val)) (val (py "(L:cdsPage)"))) = Some g1 ∧
    render_tick val = Some g ∧ wf_grid g ∧
    ∀ r c, r ≤ 5 → cell_at g r c = cell_at g1 r c.
Proof.
  unfold render_tick.
  destruct (draw_columns_spec empty_grid
              (visible (compact_labels (left_pairs val)) (val (py "(L:cdsPage)")))
              (visible (compact_labels (right_pairs val)) (val (py "(L:cdsPage)")))
              wf_empty_grid) as (g1 & H1 & Hwf1 & _).
  exists g1. rewrite H1. cbn [mbind option_bind].
  unfold put_text_center at 1.
  destruct (put_text_spec g1 (py_slice (py "MISC") 0 CDU_COLUMNS) 6
              ((CDU_COLUMNS - Z.of_nat (length (py_slice (py "MISC") 0 CDU_COLUMNS))) `div` 2)
              (py "k") LARGE Hwf1) as (g2 & H2 & Hwf2 & Hc2).
  rewrite H2. cbn [mbind option_bind].
  destruct (clear_area_spec g2 7 12 0 CDU_COLUMNS (py "w") 0 Hwf2)
    as (g3 & H3 & Hwf3 & Hc3); [unfold CDU_ROWS; lia..|].
  rewrite H3. cbn [mbind option_bind].
  destruct (draw_misc_spec misc_rows g3
              (visible (compact_labels (misc_pairs val)) (val (py "(L:cdsPage)"))) 0 Hwf3)
    as (g4 & H4 & Hwf4 & Hc4); [lia|].
  rewrite H4. cbn [mbind option_bind].
  destruct (clear_area_spec g4 13 13 0 12 (py "w") 0 Hwf4)
    as (g5 & H5 & Hwf5 & Hc5); [unfold CDU_ROWS, CDU_COLUMNS; lia..|].
  rewrite H5. cbn [mbind option_bind].
  destruct (clear_area_spec g5 13 13 13 24 (py "w") 0 Hwf5)
    as (g6 & H6 & Hwf6 & Hc6); [unfold CDU_ROWS, CDU_COLUMNS; lia..|].
  rewrite H6. cbn [mbind option_bind].
  assert (H7 : ∃ g7,
            (if bool_decide (val (py "(L:pitotPilot)") = 1)
             then put_text g6 (py "P/S-HTR-P") 13 0 (py "g") LARGE else Some g6) = Some g7 ∧
            wf_grid g7 ∧ ∀ r c, r ≤ 5 → cell_at g7 r c = cell_at g6 r c).
  { destruct (bool_decide (val (py "(L:pitotPilot)") = 1)).
    - destruct (put_text_spec g6 (py "P/S-HTR-P") 13 0 (py "g") LARGE Hwf6)
        as (g7 & H7 & Hwf7 & Hc7).
      exists g7. split; [exact H7|]. split; [exact Hwf7|].
      intros r c Hr. rewrite Hc7. rewrite decide_False by lia. reflexivity.
    - exists g6. split; [reflexivity|]. split; [exact Hwf6|]. reflexivity. }
  destruct H7 as (g7 & H7 & Hwf7 & Hc7). rewrite H7. cbn [mbind option_bind].
  assert (H8 : ∃ g8,
            (if bool_decide (val (py "(L:pitotCoPilot)") = 1)
             then put_text g7 (py "P/S-HTR-C") 13 13 (py "g") LARGE else Some g7) = Some g8 ∧
            wf_grid g8 ∧ ∀ r c, r ≤ 5 → cell_at g8 r c = cell_at g7 r c).
  { destruct (bool_decide (val (py "(L:pitotCoPilot)") = 1)).
    - destruct (put_text_spec g7 (py "P/S-HTR-C") 13 13 (py "g") LARGE Hwf7)
        as (g8 & H8 & Hwf8 & Hc8).
      exists g8. split; [exact H8|]. split; [exact Hwf8|].
      intros r c Hr. rewrite Hc8. rewrite decide_False by lia. reflexivity.
    - exists g7. split; [reflexivity|]. split; [exact Hwf7|]. reflexivity. }
  destruct H8 as (g8 & H8 & Hwf8 & Hc8). exists g8.
  split; [reflexivity|]. split; [exact H8|]. split; [exact Hwf8|].
  intros r c Hr.
  rewrite Hc8 by exact Hr. rewrite Hc7 by exact Hr. rewrite Hc6, Hc5.
  rewrite !decide_False by lia.
  rewrite Hc4.
  - rewrite Hc3, Hc2. rewrite !decide_False by lia. reflexivity.
  - unfold misc_rows. rewrite !elem_of_cons. rewrite elem_of_nil. lia.
Qed.

Lemma compact_labels_cons val label (rest : list (Z * list N)) :
  compact_labels ((val, label) :: rest) =
  if bool_decide (val = 1) then label :: compact_labels rest else compact_labels rest.
Proof. reflexivity. Qed.

Lemma compact_left_only_engine1Fail (val : list N → Z) :
  only_engine1Fail_active val → compact_labels (left_pairs val) = [py "ENG FAIL"].
Proof.
  intros [H1 Hrest]. unfold left_pairs in *. cbn [tail] in Hrest.
  repeat (apply Forall_cons in Hrest as [? Hrest]).
  rewrite compact_labels_cons, bool_decide_eq_true_2 by exact H1.
  repeat (rewrite compact_labels_cons; rewrite bool_decide_eq_false_2 by assumption).
  reflexivity.
Qed.

(** What [draw_columns] leaves in rows 0 to 12, and the grid it produces
    with page 0 when [engine1Fail] is the only active flag of the left
    column; the rows 0 to 5 of that grid are those of the grid that is
    sent. *)
Lemma draw_columns_engine1Fail :
  (∀ (g : list (list (list atom))) (left_labels right_labels : list (list N)),
     wf_grid g →
     ∃ g', draw_columns g left_labels right_labels = Some g' ∧
           ∀ r c, 0 ≤ r ≤ 12 → 0 ≤ c < 24 →
             cell_at g' r c =
             match field_char (py_slice right_labels 0 MAX_ROWS) 11 r (c - 13) with
             | Some ch => Some [AStr (glyph ch); AStr (py "a"); AInt LARGE]
             | None =>
                 match field_char (py_slice left_labels 0 MAX_ROWS) 12 r c with
                 | Some ch => Some [AStr (glyph ch); AStr (py "a"); AInt LARGE]
                 | None => Some [AStr (py " "); AStr (py "w"); AInt 0]
                 end
             end) ∧
  (∀ val : list N → Z,
     val (py "(L:cdsPage)") = 0 → only_engine1Fail_active val →
     visible (compact_labels (left_pairs val)) 0 = [py "ENG FAIL"] ∧
     ∃ g1 g,
       draw_columns empty_grid [py "ENG FAIL"]
         (visible (compact_labels (right_pairs val)) 0) = Some g1 ∧
       render_tick val = Some g ∧
       (∀ (i : nat) ch, py "ENG FAIL" !! i = Some ch →
          cell_at g1 0 (Z.of_nat i) = Some [AStr [ch]; AStr (py "a"); AInt LARGE]) ∧
       (∀ c, 8 ≤ c < 12 →
          cell_at g1 0 c = Some [AStr (py " "); AStr (py "a"); AInt LARGE]) ∧
       cell_at g1 0 12 = Some [AStr (py " "); AStr (py "w"); AInt 0] ∧
       (∀ r c, 1 ≤ r ≤ 12 → 0 ≤ c ≤ 12 →
          cell_at g1 r c = Some [AStr (py " "); AStr (py "w"); AInt 0]) ∧
       (∀ r c, 0 ≤ r ≤ 5 → cell_at g r c = cell_at g1 r c)).
Proof.
  split.
  - intros g left_labels right_labels Hwf.
    destruct (draw_columns_spec g left_labels right_labels Hwf) as (g' & Hrun & _ & Hcell).
    exists g'. split; [exact Hrun|]. intros r c Hr Hc.
    rewrite Hcell by (unfold CDU_COLUMNS; lia).
    rewrite decide_True by (unfold CONTENT_LAST_ROW, CDU_ROWS; lia).
    unfold LEFT_COL_START. rewrite Z.sub_0_r. reflexivity.
  - intros val Hpage Hleft.
    assert (Hvis : visible (compact_labels (left_pairs val)) 0 = [py "ENG FAIL"]).
    { rewrite compact_left_only_engine1Fail by exact Hleft. reflexivity. }
    split; [exact Hvis|].
    destruct (render_tick_first_rows val) as (g1 & g & Hdraw & Hrender & _ & Hrows).
    rewrite Hpage, Hvis in Hdraw. exists g1, g.
    split; [exact Hdraw|]. split; [exact Hrender|].
    destruct (draw_columns_spec empty_grid [py "ENG FAIL"]
                (visible (compact_labels (right_pairs val)) 0) wf_empty_grid)
      as (g1' & Hdraw' & _ & Hcell).
    rewrite Hdraw in Hdraw'. injection Hdraw' as <-.
    assert (Hright : ∀ r c, c ≤ 12 →
              field_char (py_slice (visible (compact_labels (right_pairs val)) 0) 0 MAX_ROWS)
                11 r (c - RIGHT_COL_START) = None).
    { intros r c Hc. unfold field_char, RIGHT_COL_START.
      rewrite bool_decide_eq_false_2 by lia. reflexivity. }
    split; [|split; [|split; [|split]]].
    + intros i ch Hi.
      assert (Hlt : (i < 8)%nat) by (apply lookup_lt_Some in Hi; exact Hi).
      rewrite Hcell by (unfold CDU_COLUMNS; lia).
      rewrite Hright by lia.
      do 8 (destruct i as [|i]; [injection Hi as <-; reflexivity|]). lia.
    + intros c Hc. rewrite Hcell by (unfold CDU_COLUMNS; lia).
      rewrite Hright by lia.
      assert (Hcases : c = 8 ∨ c = 9 ∨ c = 10 ∨ c = 11) by lia.
      destruct Hcases as [->|[->|[->| ->]]]; reflexivity.
    + rewrite Hcell by (unfold CDU_COLUMNS; lia).
      rewrite Hright by lia. reflexivity.
    + intros r c Hr Hc. rewrite Hcell by (unfold CDU_COLUMNS; lia).
      rewrite Hright by lia.
      rewrite decide_True by (unfold CONTENT_LAST_ROW, CDU_ROWS; lia).
      unfold field_char. case_bool_decide; [|reflexivity].
      change (py_slice [py "ENG FAIL"] 0 MAX_ROWS) with [py "ENG FAIL"].
      destruct (Z.to_nat r) as [|n] eqn:Hn; [lia|]. reflexivity.
    + intros r c Hr. apply Hrows. lia.
Qed.

(** In the grid that tick sends, row 0 starts with the label and row 6
    carries the title of the miscellaneous block, centred over columns
    10 to 13. *)
Example render_tick_engine1Fail :
  ∃ g, render_tick val_engine1Fail = Some g ∧
       cell_at g 0 0 = Some [AStr (py "E"); AStr (py "a"); AInt 0] ∧
       cell_at g 0 7 = Some [AStr (py "L"); AStr (py "a"); AInt 0] ∧
       cell_at g 0 8 = Some [AStr (py " "); AStr (py "a"); AInt 0] ∧
       cell_at g 1 0 = Some [AStr (py " "); AStr (py "w"); AInt 0] ∧
       cell_at g 6 9 = Some [AStr (py " "); AStr (py "w"); AInt 0] ∧
       cell_at g 6 10 = Some [AStr (py "M"); AStr (py "k"); AInt 0] ∧
       cell_at g 6 13 = Some [AStr (py "C"); AStr (py "k"); AInt 0].
Proof. eexists. split; [vm_compute; reflexivity|]. repeat split. Qed.

(** ** Conversion of an [int] to a float *)

Lemma digits2_pos_lower p : 2 ^ (Z.pos (digits2_pos p) - 1) ≤ Z.pos p.
Proof.
  induction p as [p IH|p IH|]; cbn [digits2_pos]; [| |reflexivity].
  all: rewrite Pos2Z.inj_succ;
    replace (Z.succ (Z.pos (digits2_pos p)) - 1)
      with (Z.succ (Z.pos (digits2_pos p) - 1)) by lia;
    rewrite Z.pow_succ_r by lia; lia.
Qed.

Lemma shr_1_lower mrs k :
  1 ≤ k → 2 ^ k ≤ shr_m mrs → 2 ^ (k - 1) ≤ shr_m (shr_1 mrs).
Proof.
  intros Hk Hm.
  assert (Hpow : 2 ^ k = 2 * 2 ^ (k - 1)).
  { replace k with (Z.succ (k - 1)) at 1 by lia. apply Z.pow_succ_r. lia. }
  assert (Hpos : 0 < 2 ^ (k - 1)) by (apply Z.pow_pos_nonneg; lia).
  destruct mrs as [m r s]. cbn [shr_m] in Hm.
  destruct m as [|[p|p|]|p]; cbn [shr_1 shr_m]; lia.
Qed.

Lemma iter_shr_1_lower n : ∀ mrs k,
  Z.pos n ≤ k → 2 ^ k ≤ shr_m mrs →
  2 ^ (k - Z.pos n) ≤ shr_m (SpecFloat.iter_pos shr_1 n mrs).
Proof.
  induction n as [n IH|n IH|]; intros mrs k Hk Hm; cbn [SpecFloat.iter_pos].
  - replace (k - Z.pos n~1) with (k - 1 - Z.pos n - Z.pos n) by lia.
    apply IH; [lia|]. apply IH; [lia|]. apply shr_1_lower; [lia|exact Hm].
  - replace (k - Z.pos n~0) with (k - Z.pos n - Z.pos n) by lia.
    apply IH; [lia|]. apply IH; [lia|exact Hm].
  - apply shr_1_lower; [lia|exact Hm].
Qed.

Lemma shr_record_of_loc_m m l : shr_m (shr_record_of_loc m l) = m.
Proof. destruct l as [|[]]; reflexivity. Qed.

Lemma round_nearest_even_lower m l : m ≤ round_nearest_even m l.
Proof.
  destruct l as [|[]]; cbn [round_nearest_even]; try lia.
  destruct (Z.even m); lia.
Qed.

(** Shifting a positive mantissa to the binary64 format keeps it
    positive and never lowers the exponent. *)
Lemma shr_fexp_positive p e l :
  -1074 ≤ e →
  1 ≤ shr_m (shr_fexp 53 1024 (Z.pos p) e l).1 ∧ e ≤ (shr_fexp 53 1024 (Z.pos p) e l).2.
Proof.
  intros He. unfold shr_fexp, shr, fexp, emin. cbn [Zdigits2].
  pose proof (digits2_pos_lower p) as Hd.
  destruct (Z.max (Z.pos (digits2_pos p) + e - 53) (3 - 1024 - 53) - e) as [|q|q] eqn:Hn;
    cbn [fst snd]; rewrite ?shr_record_of_loc_m; try lia.
  split; [|lia].
  assert (Hq : Z.pos q ≤ Z.pos (digits2_pos p) - 1) by lia.
  pose proof (iter_shr_1_lower q (shr_record_of_loc (Z.pos p) l)
                (Z.pos (digits2_pos p) - 1) Hq) as Hlow.
  rewrite shr_record_of_loc_m in Hlow. specialize (Hlow Hd).
  assert (0 < 2 ^ (Z.pos (digits2_pos p) - 1 - Z.pos q)) by (apply Z.pow_pos_nonneg; lia).
  lia.
Qed.

Lemma binary_round_aux_positive s p e :
  -1074 ≤ e →
  binary_round_aux 53 1024 s (Z.pos p) e loc_Exact = S754_infinity s ∨
  ∃ m e', binary_round_aux 53 1024 s (Z.pos p) e loc_Exact = S754_finite s m e' ∧ e ≤ e'.
Proof.
  intros He. unfold binary_round_aux.
  pose proof (shr_fexp_positive p e loc_Exact He) as [Hm1 He1].
  destruct (shr_fexp 53 1024 (Z.pos p) e loc_Exact) as [mrs' e'].
  cbn [fst snd] in Hm1, He1.
  pose proof (round_nearest_even_lower (shr_m mrs') (loc_of_shr_record mrs')) as Hround.
  destruct (round_nearest_even (shr_m mrs') (loc_of_shr_record mrs')) as [|p'|p'];
    [lia| |lia].
  pose proof (shr_fexp_positive p' e' loc_Exact ltac:(lia)) as [Hm2 He2].
  destruct (shr_fexp 53 1024 (Z.pos p') e' loc_Exact) as [mrs'' e''].
  cbn [fst snd] in Hm2, He2.
  destruct (shr_m mrs'') as [|m|m]; [lia| |lia].
  destruct (e'' <=? 1024 - 53); [|left; reflexivity].
  right. exists m, e''. split; [reflexivity|lia].
Qed.

(** The float of a non-zero integer of [d] binary digits has the sign
    of the integer and, when finite, an exponent of at least
    [min 0 (d - 53)]. *)
Lemma binary_round_int s p :
  binary_round 53 1024 s p 0 = S754_infinity s ∨
  ∃ m e, binary_round 53 1024 s p 0 = S754_finite s m e ∧
         Z.min 0 (Z.pos (digits2_pos p) - 53) ≤ e.
Proof.
  unfold binary_round, shl_align, fexp, emin.
  destruct (Z.max (Z.pos (digits2_pos p) + 0 - 53) (3 - 1024 - 53) - 0) as [|d|d] eqn:Hd.
  - destruct (binary_round_aux_positive s p 0 ltac:(lia)) as [H|(m & e & H & He)];
      [left; exact H|right; exists m, e; split; [exact H|lia]].
  - destruct (binary_round_aux_positive s p 0 ltac:(lia)) as [H|(m & e & H & He)];
      [left; exact H|right; exists m, e; split; [exact H|lia]].
  - destruct (binary_round_aux_positive s (Pos.iter xO p d)
                (Z.max (Z.pos (digits2_pos p) + 0 - 53) (3 - 1024 - 53)) ltac:(lia))
      as [H|(m & e & H & He)];
      [left; exact H|right; exists m, e; split; [exact H|lia]].
Qed.

Lemma digits2_pos_ge_2 p : (2 ≤ p)%positive → 2 ≤ Z.pos (digits2_pos p).
Proof.
  destruct p as [p|p|]; cbn [digits2_pos]; [| |lia].
  all: intros _; rewrite Pos2Z.inj_succ; lia.
Qed.

Lemma float_of_int_nonpos n :
  n ≤ 0 → float_of_int n = Raise OverflowError ∨
          ∃ f, float_of_int n = Ok f ∧ thresholds f = 0.
Proof.
  intros Hn. unfold float_of_int. destruct n as [|p|p]; [|lia|].
  - right. eexists. split; reflexivity.
  - cbn [binary_normalize].
    destruct (binary_round_int true p) as [->|(m & e & -> & _)].
    + left. reflexivity.
    + right. eexists. split; reflexivity.
Qed.

Lemma float_of_int_ge_2 n f :
  2 ≤ n → float_of_int n = Ok f → thresholds f = 2.
Proof.
  intros Hn. unfold float_of_int. destruct n as [|p|p]; [lia| |lia].
  cbn [binary_normalize].
  pose proof (digits2_pos_ge_2 p ltac:(lia)) as Hd.
  destruct (binary_round_int false p) as [->|(m & e & -> & He)]; [discriminate|].
  intros [= <-]. unfold thresholds, SFltb, f0_5, f1_5. cbn [SFcompare].
  destruct (Z.compare_spec e (-53)); try lia.
  destruct (Z.compare_spec e (-52)); first [lia | reflexivity].
Qed.

Lemma digits2_pos_upper p : Z.pos p < 2 ^ Z.pos (digits2_pos p).
Proof.
  induction p as [p IH|p IH|]; cbn [digits2_pos]; [| |reflexivity].
  all: rewrite Pos2Z.inj_succ, Z.pow_succ_r by lia; lia.
Qed.

Lemma digits2_pos_le p k : Z.pos p < 2 ^ k → Z.pos (digits2_pos p) ≤ k.
Proof.
  intros Hlt. pose proof (digits2_pos_lower p) as Hlow.
  destruct (Z_lt_le_dec k (Z.pos (digits2_pos p))) as [Hk|Hk]; [|exact Hk].
  exfalso.
  assert (2 ^ k ≤ 2 ^ (Z.pos (digits2_pos p) - 1)).
  { destruct (Z_lt_le_dec k 0) as [Hneg|Hpos].
    - rewrite (Z.pow_neg_r 2 k) by lia. apply Z.pow_nonneg. lia.
    - apply Z.pow_le_mono_r; lia. }
  lia.
Qed.

Lemma digits2_pos_ge p k : 2 ^ (k - 1) ≤ Z.pos p → k ≤ Z.pos (digits2_pos p).
Proof.
  intros Hle. pose proof (digits2_pos_upper p) as Hup.
  destruct (Z_lt_le_dec (Z.pos (digits2_pos p)) k) as [Hk|Hk]; [|exact Hk].
  exfalso.
  assert (2 ^ Z.pos (digits2_pos p) ≤ 2 ^ (k - 1)) by (apply Z.pow_le_mono_r; lia).
  lia.
Qed.

Lemma shr_1_exact mrs :
  0 ≤ shr_m mrs →
  shr_m (shr_1 mrs) = Z.shiftr (shr_m mrs) 1 ∧ shr_r (shr_1 mrs) = Z.testbit (shr_m mrs) 0.
Proof.
  destruct mrs as [m r s]. cbn [shr_m]. intros Hm.
  destruct m as [|[p|p|]|p]; try lia; split; reflexivity.
Qed.

Lemma iter_shr_1_exact n : ∀ mrs,
  0 ≤ shr_m mrs →
  shr_m (SpecFloat.iter_pos shr_1 n mrs) = Z.shiftr (shr_m mrs) (Z.pos n) ∧
  shr_r (SpecFloat.iter_pos shr_1 n mrs) = Z.testbit (shr_m mrs) (Z.pos n - 1).
Proof.
  induction n as [n IH|n IH|]; intros mrs Hm; cbn [SpecFloat.iter_pos].
  - destruct (shr_1_exact mrs Hm) as [Hm1 Hr1].
    assert (H1 : 0 ≤ shr_m (shr_1 mrs)) by (rewrite Hm1; apply Z.shiftr_nonneg; exact Hm).
    destruct (IH (shr_1 mrs) H1) as [Hm2 Hr2].
    assert (H2 : 0 ≤ shr_m (SpecFloat.iter_pos shr_1 n (shr_1 mrs)))
      by (rewrite Hm2; apply Z.shiftr_nonneg; exact H1).
    destruct (IH _ H2) as [Hm3 Hr3].
    rewrite Hm3, Hr3, Hm2, Hm1. rewrite !Z.shiftr_shiftr by lia.
    split; [f_equal; lia|].
    rewrite Z.shiftr_spec by lia. f_equal. lia.
  - destruct (IH mrs Hm) as [Hm2 Hr2].
    assert (H2 : 0 ≤ shr_m (SpecFloat.iter_pos shr_1 n mrs))
      by (rewrite Hm2; apply Z.shiftr_nonneg; exact Hm).
    destruct (IH _ H2) as [Hm3 Hr3].
    rewrite Hm3, Hr3, Hm2. rewrite !Z.shiftr_shiftr by lia.
    split; [f_equal; lia|].
    rewrite Z.shiftr_spec by lia. f_equal. lia.
  - apply shr_1_exact, Hm.
Qed.

Lemma shr_fexp_no_shift p e l :
  Z.pos (digits2_pos p) ≤ 53 → -1074 ≤ e →
  shr_fexp 53 1024 (Z.pos p) e l = (shr_record_of_loc (Z.pos p) l, e).
Proof.
  intros Hd He. unfold shr_fexp, shr, fexp, emin. cbn [Zdigits2].
  destruct (Z.max (Z.pos (digits2_pos p) + e - 53) (3 - 1024 - 53) - e) eqn:Hn;
    [reflexivity|lia|reflexivity].
Qed.

Lemma shr_fexp_shift p e l :
  53 < Z.pos (digits2_pos p) → -1074 ≤ e →
  ∃ mrs, shr_fexp 53 1024 (Z.pos p) e l = (mrs, e + (Z.pos (digits2_pos p) - 53)) ∧
         shr_m mrs = Z.shiftr (Z.pos p) (Z.pos (digits2_pos p) - 53) ∧
         shr_r mrs = Z.testbit (Z.pos p) (Z.pos (digits2_pos p) - 54).
Proof.
  intros Hd He. unfold shr_fexp, shr, fexp, emin. cbn [Zdigits2].
  destruct (Z.max (Z.pos (digits2_pos p) + e - 53) (3 - 1024 - 53) - e) as [|n|n] eqn:Hn;
    [lia| |lia].
  assert (Hn' : Z.pos n = Z.pos (digits2_pos p) - 53) by lia.
  eexists. split; [rewrite <- Hn'; reflexivity|].
  destruct (iter_shr_1_exact n (shr_record_of_loc (Z.pos p) l)) as [Hm Hr].
  { rewrite shr_record_of_loc_m. lia. }
  rewrite shr_record_of_loc_m in Hm, Hr. rewrite Hm, Hr, Hn'.
  split; [reflexivity|]. f_equal. lia.
Qed.

Lemma round_nearest_even_cases mrs :
  let m := shr_m mrs in
  let m' := round_nearest_even m (loc_of_shr_record mrs) in
  m ≤ m' ≤ m + 1 ∧
  (shr_r mrs = false → m' = m) ∧
  (shr_r mrs = true → Z.odd m = true → m' = m + 1).
Proof.
  destruct mrs as [m [] []]; cbn; rewrite <- ?Z.negb_odd;
    destruct (Z.odd m); cbn; repeat split; try lia; try discriminate.
Qed.

(** A mantissa of 53 digits or fewer is kept as it is. *)
Lemma binary_round_aux_fits s p e :
  Z.pos (digits2_pos p) ≤ 53 → -1074 ≤ e →
  binary_round_aux 53 1024 s (Z.pos p) e loc_Exact =
  if e <=? 971 then S754_finite s p e else S754_infinity s.
Proof.
  intros Hd He. unfold binary_round_aux.
  rewrite shr_fexp_no_shift by assumption.
  cbn [shr_record_of_loc shr_m loc_of_shr_record round_nearest_even].
  rewrite shr_fexp_no_shift by assumption. reflexivity.
Qed.

(** A longer mantissa is shifted to 53 digits and rounded to nearest,
    ties to even; a carry into a 54th digit costs one more shift. *)
Lemma binary_round_aux_long s p :
  let d := Z.pos (digits2_pos p) in
  let m1 := Z.shiftr (Z.pos p) (d - 53) in
  53 < d →
  2 ^ 52 ≤ m1 < 2 ^ 53 ∧
  ∃ q, m1 ≤ Z.pos q ≤ m1 + 1 ∧
       (Z.testbit (Z.pos p) (d - 54) = false → Z.pos q = m1) ∧
       (Z.testbit (Z.pos p) (d - 54) = true → Z.odd m1 = true → Z.pos q = m1 + 1) ∧
       binary_round_aux 53 1024 s (Z.pos p) 0 loc_Exact =
       if Z.pos q <? 2 ^ 53
       then (if d - 53 <=? 971 then S754_finite s q (d - 53) else S754_infinity s)
       else (if d - 52 <=? 971 then S754_finite s 4503599627370496 (d - 52)
             else S754_infinity s).
Proof.
  intros d m1 Hd.
  pose proof (digits2_pos_lower p) as Hlow. pose proof (digits2_pos_upper p) as Hup.
  fold d in Hlow, Hup.
  assert (Hm1 : 2 ^ 52 ≤ m1 < 2 ^ 53).
  { unfold m1. rewrite Z.shiftr_div_pow2 by lia.
    assert (Hpos : 0 < 2 ^ (d - 53)) by (apply Z.pow_pos_nonneg; lia).
    assert (H52 : 2 ^ (d - 1) = 2 ^ 52 * 2 ^ (d - 53))
      by (rewrite <- Z.pow_add_r by lia; f_equal; lia).
    assert (H53 : 2 ^ d = 2 ^ (d - 53) * 2 ^ 53)
      by (rewrite <- Z.pow_add_r by lia; f_equal; lia).
    split.
    - apply Z.div_le_lower_bound; [exact Hpos|]. rewrite Z.mul_comm. lia.
    - apply Z.div_lt_upper_bound; [exact Hpos|]. lia. }
  split; [exact Hm1|].
  unfold binary_round_aux.
  destruct (shr_fexp_shift p 0 loc_Exact Hd ltac:(lia)) as (mrs & -> & Hm & Hr).
  fold d in Hm, Hr. fold m1 in Hm.
  pose proof (round_nearest_even_cases mrs) as (Hrange & Hdown & Hup').
  rewrite Hm in Hrange, Hdown, Hup'. rewrite Hr in Hdown, Hup'.
  rewrite Hm.
  destruct (round_nearest_even m1 (loc_of_shr_record mrs)) as [|q|q] eqn:Hq; [lia| |lia].
  exists q. split; [exact Hrange|]. split; [exact Hdown|]. split; [exact Hup'|].
  cbn [Z.add].
  destruct (Z.ltb_spec (Z.pos q) (2 ^ 53)) as [Hlt|Hge].
  - assert (Hdq : Z.pos (digits2_pos q) ≤ 53) by (apply digits2_pos_le; exact Hlt).
    rewrite shr_fexp_no_shift by (fold d; lia). cbn [shr_record_of_loc shr_m].
    replace (0 + (d - 53)) with (d - 53) by lia. reflexivity.
  - assert (Hq53 : Z.pos q = 2 ^ 53) by lia.
    assert (q = 9007199254740992%positive) as -> by lia.
    change (Z.pos (digits2_pos p)) with d.
    cbv [shr_fexp fexp emin Zdigits2 digits2_pos Pos.succ].
    replace (Z.max (54 + (0 + (d - 53)) - 53) (3 - 1024 - 53) - (0 + (d - 53))) with 1 by lia.
    cbn. replace (0 + (d - 53) + 1) with (d - 52) by lia. reflexivity.
Qed.

Lemma digits2_pos_iter_xO p k :
  Z.pos (digits2_pos (Pos.iter xO p k)) = Z.pos (digits2_pos p) + Z.pos k.
Proof.
  induction k as [|k IH] using Pos.peano_ind.
  - cbn [Pos.iter digits2_pos]. lia.
  - rewrite Pos.iter_succ. cbn [digits2_pos]. lia.
Qed.

(** The float of a positive integer below [2^1024 - 2^970] is finite;
    from there on the conversion overflows. *)
Lemma binary_round_int_finite s p :
  Z.pos p < 2 ^ 1024 - 2 ^ 970 →
  ∃ m e, binary_round 53 1024 s p 0 = S754_finite s m e.
Proof.
  intros Hp. set (d := Z.pos (digits2_pos p)).
  assert (Hd1024 : d ≤ 1024).
  { apply digits2_pos_le. assert (0 < 2 ^ 970) by (apply Z.pow_pos_nonneg; lia). lia. }
  unfold binary_round, shl_align, fexp, emin. fold d.
  destruct (Z.max (d + 0 - 53) (3 - 1024 - 53) - 0) as [|k|k] eqn:Hk.
  - rewrite binary_round_aux_fits by (fold d; lia). cbn. eauto.
  - assert (Hd : 53 < d) by lia.
    destruct (binary_round_aux_long s p Hd) as (Hm1 & q & Hrange & Hdown & Hup & ->).
    fold d in Hm1, Hrange, Hdown, Hup |- *.
    destruct (Z.ltb_spec (Z.pos q) (2 ^ 53)) as [Hlt|Hge].
    + rewrite (proj2 (Z.leb_le (d - 53) 971)) by lia. eauto.
    + destruct (Z.leb_spec (d - 52) 971) as [Hle|Hgt]; [eauto|].
      exfalso. assert (d = 1024) as Hd' by lia.
      set (m1 := Z.shiftr (Z.pos p) (d - 53)) in *.
      destruct (Z.testbit (Z.pos p) (d - 54)) eqn:Hbit.
      * rewrite Hd' in Hbit. change (1024 - 54) with 970 in Hbit.
        apply Z.testbit_true in Hbit; [|lia].
        assert (Hhalf : Z.pos p / 2 ^ 970 / 2 = m1).
        { unfold m1. rewrite Hd'. change (1024 - 53) with 971.
          rewrite Z.shiftr_div_pow2 by lia. rewrite Z.div_div by lia.
          f_equal. }
        pose proof (Z.div_mod (Z.pos p / 2 ^ 970) 2 ltac:(lia)) as Hdm.
        rewrite Hbit, Hhalf in Hdm.
        pose proof (Z.mul_div_le (Z.pos p) (2 ^ 970) ltac:(lia)) as Hmul.
        assert (H1024 : 2 ^ 1024 = 2 ^ 54 * 2 ^ 970) by reflexivity.
        nia.
      * specialize (Hdown eq_refl). lia.
  - rewrite binary_round_aux_fits.
    + destruct (Z.leb_spec (Z.max (d + 0 - 53) (3 - 1024 - 53)) 971); [eauto|lia].
    + rewrite digits2_pos_iter_xO. fold d. lia.
    + lia.
Qed.

Lemma binary_round_int_overflow s p :
  2 ^ 1024 - 2 ^ 970 ≤ Z.pos p →
  binary_round 53 1024 s p 0 = S754_infinity s.
Proof.
  intros Hp. set (d := Z.pos (digits2_pos p)).
  assert (Hd : 1024 ≤ d).
  { apply digits2_pos_ge. change (1024 - 1) with 1023.
    assert (2 ^ 1024 = 2 * 2 ^ 1023) by reflexivity.
    assert (2 ^ 970 ≤ 2 ^ 1023) by (apply Z.pow_le_mono_r; lia). lia. }
  unfold binary_round, shl_align, fexp, emin. fold d.
  destruct (Z.max (d + 0 - 53) (3 - 1024 - 53) - 0) as [|k|k] eqn:Hk; [lia| |lia].
  destruct (binary_round_aux_long s p ltac:(fold d; lia)) as (Hm1 & q & Hrange & Hdown & Hup & ->).
  fold d in Hm1, Hrange, Hdown, Hup |- *.
  destruct (Z.leb_spec (d - 52) 971) as [Hle|_]; [lia|].
  destruct (Z.leb_spec (d - 53) 971) as [Hle|_];
    [|destruct (Z.pos q <? 2 ^ 53); reflexivity].
  assert (d = 1024) as Hd' by lia.
  set (m1 := Z.shiftr (Z.pos p) (d - 53)) in *.
  pose proof (digits2_pos_upper p) as Hupper. fold d in Hupper. rewrite Hd' in Hupper.
  assert (Hq : Z.pos p / 2 ^ 970 = 2 ^ 54 - 1).
  { symmetry. apply (Z.div_unique (Z.pos p) (2 ^ 970) (2 ^ 54 - 1)
                       (Z.pos p - 2 ^ 970 * (2 ^ 54 - 1))).
    - left. assert (2 ^ 1024 = 2 ^ 970 * 2 ^ 54) by reflexivity.
      assert (0 < 2 ^ 970) by (apply Z.pow_pos_nonneg; lia). lia.
    - lia. }
  assert (Hm1' : m1 = 2 ^ 53 - 1).
  { unfold m1. rewrite Hd'. change (1024 - 53) with 971.
    rewrite Z.shiftr_div_pow2 by lia.
    change (2 ^ 971) with (2 ^ 970 * 2). rewrite <- Z.div_div by lia.
    rewrite Hq. reflexivity. }
  assert (Hbit : Z.testbit (Z.pos p) (d - 54) = true).
  { rewrite Hd'. change (1024 - 54) with 970. apply Z.testbit_true; [lia|].
    rewrite Hq. reflexivity. }
  specialize (Hup Hbit). rewrite Hm1' in Hup. specialize (Hup eq_refl).
  rewrite (proj2 (Z.ltb_ge (Z.pos q) (2 ^ 53))) by lia. reflexivity.
Qed.

Lemma float_of_int_in_range n :
  0 < n < 2 ^ 1024 - 2 ^ 970 → ∃ f, float_of_int n = Ok f.
Proof.
  intros Hn. unfold float_of_int. destruct n as [|p|p]; [lia| |lia].
  cbn [binary_normalize].
  destruct (binary_round_int_finite false p ltac:(lia)) as (m & e & ->). eauto.
Qed.

Lemma float_of_int_too_large n :
  2 ^ 1024 - 2 ^ 970 ≤ n → float_of_int n = Raise OverflowError.
Proof.
  intros Hn. unfold float_of_int. destruct n as [|p|p].
  - exfalso. assert (2 ^ 970 < 2 ^ 1024) by (apply Z.pow_lt_mono_r; lia). lia.
  - cbn [binary_normalize]. rewrite binary_round_int_overflow by exact Hn. reflexivity.
  - exfalso. assert (2 ^ 970 < 2 ^ 1024) by (apply Z.pow_lt_mono_r; lia). lia.
Qed.

(** ** Value normalization *)

Lemma SFleb_not_SFltb a f : SFleb a f = true → SFltb f a = false.
Proof.
  unfold SFleb, SFltb.
  destruct a as [[]|[]| |[] ma ea], f as [[]|[]| |[] mf ef]; cbn [SFcompare];
    try discriminate; try reflexivity.
  all: rewrite (Z.compare_antisym ea ef);
    change (Pos.compare_cont Eq mf ma) with (Pos.compare mf ma);
    change (Pos.compare_cont Eq ma mf) with (Pos.compare ma mf);
    rewrite (Pos.compare_antisym ma mf);
    destruct (ea ?= ef); destruct (ma ?= mf)%positive; cbn; congruence.
Qed.

Lemma thresholds_range f : thresholds f = 0 ∨ thresholds f = 1 ∨ thresholds f = 2.
Proof. unfold thresholds. destruct (SFltb f f0_5), (SFltb f f1_5); auto. Qed.

Section NormalizationProperties.

Variable float_of_str : list N → option spec_float.

Lemma as01_text_range s n :
  as01_text float_of_str s = Ok n → n = 0 ∨ n = 1 ∨ n = 2.
Proof.
  unfold as01_text.
  destruct (in_words _ _); [intros [= <-]; auto|].
  destruct (in_words _ _); [intros [= <-]; auto|].
  destruct (in_words _ _); [intros [= <-]; auto|].
  destruct (float_of_str _) as [f|]; [|discriminate].
  intros [= <-]. apply thresholds_range.
Qed.

Lemma as01_range v :
  as01 float_of_str v = 0 ∨ as01 float_of_str v = 1 ∨ as01 float_of_str v = 2.
Proof.
  unfold as01.
  destruct (as01_try float_of_str v) as [n|e] eqn:Htry; [|auto].
  destruct v as [|[]|n'|f|s|[s|]]; cbn [as01_try] in Htry.
  - injection Htry as <-. auto.
  - injection Htry as <-. auto.
  - injection Htry as <-. auto.
  - destruct (float_of_int n') as [f|]; [|discriminate].
    injection Htry as <-. apply thresholds_range.
  - injection Htry as <-. apply thresholds_range.
  - eapply as01_text_range, Htry.
  - eapply as01_text_range, Htry.
  - discriminate.
Qed.

Lemma as01_word s w n :
  clean s = py w →
  as01_text float_of_str (py w) = Ok n →
  clean (py w) = py w →
  as01 float_of_str (PyStr s) = n.
Proof.
  intros Hs Hw Hclean. unfold as01. cbn [as01_try].
  unfold as01_text in *. rewrite Hs. rewrite Hclean in Hw. rewrite Hw. reflexivity.
Qed.

End NormalizationProperties.

(** C2, amended.  [as01] is a total function into {0,1,2} whatever the
    input and whatever the string parser: [None] gives 0, [True] 1,
    [False] 0; a float below 0.5 gives 0, one from 0.5 up to but not
    1.5 gives 1, one from 1.5 on gives 2; an [int] is converted to a
    float first, so 0 and the negative ones give 0, 1 gives 1, an
    [int] from 2 up to but not [2^1024 - 2^970] gives 2, and from there
    on the conversion raises [OverflowError] and the result is 0; a
    string is stripped of
    white space, then of double and of single quotes, and lowered, and
    then the words [2], [two] give 2, the words [1], [true], [on],
    [yes], [y] give 1, the words [0], [false], [off], [no], [n] and the
    empty string give 0, and any other string gives what the float it
    parses to gives, or 0 when it does not parse. *)
Theorem as01_normalizes (float_of_str : list N → option spec_float) :
  (∀ v, as01 float_of_str v = 0 ∨ as01 float_of_str v = 1 ∨ as01 float_of_str v = 2) ∧
  as01 float_of_str PyNone = 0 ∧
  as01 float_of_str (PyBool true) = 1 ∧
  as01 float_of_str (PyBool false) = 0 ∧
  (∀ f, (SFltb f f0_5 = true → as01 float_of_str (PyFloat f) = 0) ∧
        (SFleb f0_5 f = true → SFltb f f1_5 = true → as01 float_of_str (PyFloat f) = 1) ∧
        (SFleb f1_5 f = true → as01 float_of_str (PyFloat f) = 2)) ∧
  (∀ n, (n ≤ 0 → as01 float_of_str (PyInt n) = 0) ∧
        (n = 1 → as01 float_of_str (PyInt n) = 1) ∧
        (2 ≤ n < 2 ^ 1024 - 2 ^ 970 → as01 float_of_str (PyInt n) = 2) ∧
        (2 ^ 1024 - 2 ^ 970 ≤ n →
         float_of_int n = Raise OverflowError ∧ as01 float_of_str (PyInt n) = 0)) ∧
  (∀ s, (clean s ∈ words_2 → as01 float_of_str (PyStr s) = 2) ∧
        (clean s ∈ words_1 → as01 float_of_str (PyStr s) = 1) ∧
        (clean s ∈ words_0 → as01 float_of_str (PyStr s) = 0) ∧
        (clean s ∉ words_2 ++ words_1 ++ words_0 →
         (∀ f, float_of_str (clean s) = Some f →
               as01 float_of_str (PyStr s) = as01 float_of_str (PyFloat f)) ∧
         (float_of_str (clean s) = None → as01 float_of_str (PyStr s) = 0))).
Proof.
  split; [apply as01_range|].
  split; [reflexivity|]. split; [reflexivity|]. split; [reflexivity|].
  split; [|split].
  - intros f. unfold as01. cbn [as01_try]. unfold thresholds.
    split; [|split].
    + intros ->. reflexivity.
    + intros H05 H15. rewrite (SFleb_not_SFltb _ _ H05), H15. reflexivity.
    + intros H15. rewrite (SFleb_not_SFltb _ _ H15).
      destruct (SFltb f f0_5) eqn:H05; [|reflexivity].
      exfalso. revert H15 H05. unfold SFleb, SFltb, f0_5, f1_5.
      destruct f as [[]|[]| |[] m e]; cbn [SFcompare]; try discriminate.
      destruct (Z.compare_spec (-52) e); destruct (Z.compare_spec e (-53));
        try discriminate; lia.
  - intros n. unfold as01. cbn [as01_try]. split; [|split; [|split]].
    + intros Hn. destruct (float_of_int_nonpos n Hn) as [->|(f & -> & ->)]; reflexivity.
    + intros ->. reflexivity.
    + intros Hn. destruct (float_of_int_in_range n ltac:(lia)) as [f Hf].
      rewrite Hf. apply (float_of_int_ge_2 n f ltac:(lia) Hf).
    + intros Hn. rewrite (float_of_int_too_large n Hn). split; reflexivity.
  - intros s. split; [|split; [|split]].
    + unfold words_2. intros H. apply list_elem_of_fmap in H as (w & Hc & Hw).
      repeat (apply elem_of_cons in Hw as [->|Hw];
              [apply (as01_word float_of_str s _ 2 Hc); reflexivity|]).
      inversion Hw.
    + unfold words_1. intros H. apply list_elem_of_fmap in H as (w & Hc & Hw).
      repeat (apply elem_of_cons in Hw as [->|Hw];
              [apply (as01_word float_of_str s _ 1 Hc); reflexivity|]).
      inversion Hw.
    + unfold words_0. intros H. apply list_elem_of_fmap in H as (w & Hc & Hw).
      repeat (apply elem_of_cons in Hw as [->|Hw];
              [apply (as01_word float_of_str s _ 0 Hc); reflexivity|]).
      inversion Hw.
    + intros Hnot. rewrite !elem_of_app in Hnot.
      unfold as01. cbn [as01_try]. unfold as01_text, in_words.
      rewrite (bool_decide_eq_false_2 (clean s ∈ py <$> ["2"; "two"]))
        by (intros ?; apply Hnot; auto).
      rewrite (bool_decide_eq_false_2 (clean s ∈ py <$> ["1"; "true"; "on"; "yes"; "y"]))
        by (intros ?; apply Hnot; auto).
      rewrite (bool_decide_eq_false_2
                 (clean s ∈ py <$> ["0"; "false"; "off"; "no"; "n"; EmptyString]))
        by (intros ?; apply Hnot; auto).
      split.
      * intros f ->. reflexivity.
      * intros ->. reflexivity.
Qed.

Lemma as01_normalizes_witness :
  as01 float_of_ascii (PyStr (py " 'ON' ")) = 1 ∧
  as01 float_of_ascii (PyFloat f1_5) = 2 ∧
  as01 float_of_ascii (PyInt 7) = 2 ∧
  as01 float_of_ascii (PyStr (py "garbage")) = 0.
Proof.
  destruct (as01_normalizes float_of_ascii) as (_ & _ & _ & _ & Hfloat & Hint & Hstr).
  split; [|split; [|split]].
  - apply (Hstr (py " 'ON' ")). apply (bool_decide_unpack _). vm_compute. exact I.
  - apply (Hfloat f1_5). reflexivity.
  - destruct (Hint 7) as (_ & _ & H & _). apply H.
    split; [lia|]. reflexivity.
  - apply (Hstr (py "garbage")); [|reflexivity].
    apply (bool_decide_unpack _). vm_compute. exact I.
Defined.

(** An [int] beyond the range of the floats: the conversion raises, the
    handler returns 0, though the value is far above 1.5. *)
Lemma as01_huge_int_counterexample :
  2 ≤ 2 ^ 1024 ∧
  float_of_int (2 ^ 1024) = Raise OverflowError ∧
  as01 float_of_ascii (PyInt (2 ^ 1024)) = 0 ∧
  as01 float_of_ascii (PyInt (2 ^ 1024)) ≠ 2.
Proof.
  split; [lia|]. split; [vm_compute; reflexivity|].
  split; [vm_compute; reflexivity|]. vm_compute. discriminate.
Qed.

(** The largest [int] that converts, and the first that does not. *)
Example as01_int_boundary :
  as01 float_of_ascii (PyInt (2 ^ 1024 - 2 ^ 970 - 1)) = 2 ∧
  as01 float_of_ascii (PyInt (2 ^ 1024 - 2 ^ 970)) = 0 ∧
  as01 float_of_ascii (PyInt (- 2 ^ 1024)) = 0.
Proof. vm_compute. repeat split. Qed.

(** The table of the specification. *)
Example as01_table :
  let as01 := as01 float_of_ascii in
  as01 PyNone = 0 ∧ as01 (PyBool true) = 1 ∧
  as01 (PyFloat (S754_finite false 7205759403792794 (-54))) = 0 ∧
  as01 (PyFloat f0_5) = 1 ∧ as01 (PyFloat f1_5) = 2 ∧
  as01 (PyFloat S754_nan) = 2 ∧
  as01 (PyStr (py "on")) = 1 ∧ as01 (PyStr (py "two")) = 2 ∧
  as01 (PyStr (py "garbage")) = 0 ∧
  as01 (PyStr [34; 89; 101; 115; 34]%N) = 1 ∧
  as01 (PyStr (py " 1.7 ")) = 2 ∧
  as01 (PyStr (py "0.49")) = 0 ∧
  as01 (PyStr (py "0.49999999999999999")) = 1 ∧
  as01 (PyStr (py "-inf")) = 0 ∧
  as01 (PyObj None) = 0.
Proof. vm_compute. repeat split. Qed.

(** The quotes are stripped in a fixed order, double quotes first: single
    quotes inside double quotes go, double quotes inside single quotes
    stay and the text is then no word and no number. *)
Example as01_quotes :
  as01 float_of_ascii (PyStr [34; 39; 111; 110; 39; 34]%N) = 1 ∧
  as01 float_of_ascii (PyStr [39; 34; 111; 110; 34; 39]%N) = 0 ∧
  clean [39; 34; 111; 110; 34; 39]%N = [34; 111; 110; 34]%N.
Proof. vm_compute. repeat split. Qed.

(** [float] on strings: the separators 28 to 31 are not stripped, though
    [str.strip] removes them; the digits of other scripts are read; a
    no-break space is stripped. *)
Example float_of_ascii_table :
  float_of_ascii [28; 49]%N = None ∧
  float_of_ascii [49; 31]%N = None ∧
  float_of_ascii [0x661]%N = Some (S754_finite false 4503599627370496 (-52)) ∧
  float_of_ascii [0xff11; 46; 0xff15]%N = Some f1_5 ∧
  float_of_ascii [0xa0; 49; 46; 53; 10]%N = Some f1_5 ∧
  float_of_ascii (py "1_0") = float_of_ascii (py "10") ∧
  float_of_ascii (py "1__0") = None ∧
  float_of_ascii (py "-Infinity") = Some (S754_infinity true) ∧
  float_of_ascii (py "1e400") = Some (S754_infinity false) ∧
  float_of_ascii (py "0x10") = None ∧
  as01 float_of_ascii (PyStr [34; 28; 49; 34]%N) = 0 ∧
  as01 float_of_ascii (PyStr [34; 32; 49; 34]%N) = 1.
Proof. vm_compute. repeat split. Qed.

(** ** The variable access layer *)

Lemma steady_refl st : steady st st.
Proof. split; [|split; [|split]]; reflexivity. Qed.

Lemma steady_trans st1 st2 st3 : steady st1 st2 → steady st2 st3 → steady st1 st3.
Proof.
  intros (H1 & H2 & H3 & H4) (H1' & H2' & H3' & H4').
  split; [congruence|]. split; [congruence|]. split; [congruence|].
  intros i. rewrite H4', H4. reflexivity.
Qed.

(** Replacing a stored variable by one of the same identity. *)
Lemma steady_update st id sv sv' :
  sim_vars st !! id = Some sv → identity sv' = identity sv →
  steady st (set_sim_vars <[id := sv']> st).
Proof.
  intros Hsv Hid. split; [reflexivity|]. split; [reflexivity|].
  cbn [set_sim_vars sim_vars]. split.
  - rewrite dom_insert_L. apply elem_of_dom_2 in Hsv.
    apply subseteq_union_1_L. apply singleton_subseteq_l. exact Hsv.
  - intros i. destruct (decide (i = id)) as [->|Hne].
    + rewrite lookup_insert_eq, Hsv. cbn. rewrite Hid. reflexivity.
    + rewrite lookup_insert_ne by done. reflexivity.
Qed.

Section LayerProperties.

Variable unpack_round5 : Z → spec_float.
Variable delivered : nat → list client_data.


Lemma handler_steady cd st :
  steady st (client_data_callback_handler unpack_round5 cd st) ∧
  sleeps (client_data_callback_handler unpack_round5 cd st) = sleeps st.
Proof.
  unfold client_data_callback_handler.
  destruct (sim_vars st !! dwDefineID cd) as [sv|] eqn:Hsv.
  - split; [|reflexivity]. eapply steady_update; [exact Hsv|reflexivity].
  - split; [apply steady_refl|reflexivity].
Qed.

Lemma handler_other cd st id :
  dwDefineID cd ≠ id →
  sim_vars (client_data_callback_handler unpack_round5 cd st) !! id = sim_vars st !! id.
Proof.
  intros Hne. unfold client_data_callback_handler.
  destruct (sim_vars st !! dwDefineID cd); [|reflexivity].
  cbn [set_sim_vars sim_vars]. apply lookup_insert_ne. exact Hne.
Qed.

Lemma handlers_steady cds : ∀ st,
  steady st (foldl (λ s cd, client_data_callback_handler unpack_round5 cd s) st cds) ∧
  sleeps (foldl (λ s cd, client_data_callback_handler unpack_round5 cd s) st cds) = sleeps st.
Proof.
  induction cds as [|cd cds IH]; intros st; cbn [foldl].
  - split; [apply steady_refl|reflexivity].
  - destruct (handler_steady cd st) as [Hs Hn].
    destruct (IH (client_data_callback_handler unpack_round5 cd st)) as [Hs' Hn'].
    split; [eapply steady_trans; eauto|congruence].
Qed.

Lemma handlers_other cds id : ∀ st,
  Forall (λ cd, dwDefineID cd ≠ id) cds →
  sim_vars (foldl (λ s cd, client_data_callback_handler unpack_round5 cd s) st cds) !! id
  = sim_vars st !! id.
Proof.
  induction cds as [|cd cds IH]; intros st Hall; cbn [foldl]; [reflexivity|].
  apply Forall_cons in Hall as [Hcd Hall].
  rewrite IH by exact Hall. apply handler_other, Hcd.
Qed.

Lemma sleep_spec st :
  ∃ st', sleep unpack_round5 delivered st = (Ok tt, st') ∧ steady st st' ∧
         sleeps st' = S (sleeps st) ∧
         ∀ id, Forall (λ cd, dwDefineID cd ≠ id) (delivered (sleeps st)) →
               sim_vars st' !! id = sim_vars st !! id.
Proof.
  eexists. split; [reflexivity|].
  destruct (handlers_steady (delivered (sleeps st)) st) as [(H1 & H2 & H3 & H4) Hn].
  cbn [sim_vars sim_var_name_to_id dll_calls sleeps].
  split; [split; [|split; [|split]]; assumption|]. split; [congruence|].
  intros id Hall. apply handlers_other, Hall.
Qed.

(** The wait loop always returns, keeps the identifiers and makes no
    library call. *)
Lemma wait_loop_steady fuel : ∀ id c st,
  ∃ c' st', wait_loop unpack_round5 delivered fuel id c st = (Ok c', st') ∧
            steady st st' ∧ (sleeps st ≤ sleeps st' ≤ sleeps st + fuel)%nat.
Proof.
  induction fuel as [|fuel IH]; intros id c st; cbn [wait_loop].
  - exists c, st. split; [reflexivity|]. split; [apply steady_refl|lia].
  - destruct (bool_decide (c < 50));
      [|exists c, st; split; [reflexivity|]; split; [apply steady_refl|lia]].
    unfold mbind, M_bind, gets at 1.
    destruct (current_value id st).
    + exists c, st. split; [reflexivity|]. split; [apply steady_refl|lia].
    + destruct (sleep_spec st) as (st1 & Hsleep & Hsteady & Hn & _).
      rewrite Hsleep.
      destruct (IH id (c + 1) st1) as (c' & st' & Hrun & Hsteady' & Hn').
      exists c', st'. split; [exact Hrun|].
      split; [eapply steady_trans; eauto|lia].
Qed.

(** With no notification for [id] the loop polls until the counter
    reaches 50, one [sleep] per poll. *)
Lemma wait_loop_silent fuel : ∀ id c st sv,
  c = 50 - Z.of_nat fuel →
  sim_vars st !! id = Some sv → float_value sv = None →
  (∀ k, (sleeps st ≤ k < sleeps st + fuel)%nat →
        Forall (λ cd, dwDefineID cd ≠ id) (delivered k)) →
  ∃ st', wait_loop unpack_round5 delivered fuel id c st = (Ok 50, st') ∧ steady st st' ∧
         sleeps st' = (sleeps st + fuel)%nat ∧ sim_vars st' !! id = Some sv.
Proof.
  induction fuel as [|fuel IH]; intros id c st sv Hc Hsv Hnone Hquiet;
    cbn [wait_loop].
  - exists st. replace c with 50 by lia.
    split; [reflexivity|]. split; [apply steady_refl|]. split; [lia|exact Hsv].
  - rewrite bool_decide_eq_true_2 by lia.
    unfold mbind, M_bind, gets at 1. unfold current_value.
    rewrite Hsv. cbn [mbind option_bind]. rewrite Hnone.
    destruct (sleep_spec st) as (st1 & Hsleep & Hsteady & Hn & Hsame).
    rewrite Hsleep.
    destruct (IH id (c + 1) st1 sv) as (st' & Hrun & Hsteady' & Hn' & Hsv'); try lia.
    + rewrite Hsame; [exact Hsv|]. apply Hquiet. lia.
    + exact Hnone.
    + intros k Hk. apply Hquiet. lia.
    + exists st'. split; [exact Hrun|]. split; [eapply steady_trans; eauto|].
      split; [lia|exact Hsv'].
Qed.

Lemma await_value_steady x st :
  ∃ r st', await_value unpack_round5 delivered x st = (r, st') ∧ steady st st' ∧
           (sleeps st ≤ sleeps st' ≤ sleeps st + 50)%nat.
Proof.
  unfold await_value, lookup_or_KeyError.
  unfold mbind at 1, M_bind at 1, gets at 1.
  destruct (sim_var_name_to_id st !! x) as [id|];
    [|eexists _, st; split; [reflexivity|]; split; [apply steady_refl|lia]].
  unfold mbind at 1, M_bind at 1, mret at 1, M_ret at 1.
  unfold mbind at 1, M_bind at 1, gets at 1.
  destruct (sim_vars st !! id) as [sv0|];
    [|eexists _, st; split; [reflexivity|]; split; [apply steady_refl|lia]].
  unfold mbind at 1, M_bind at 1, mret at 1, M_ret at 1.
  unfold mbind at 1, M_bind at 1.
  destruct (wait_loop_steady 50 id 0 st) as (c & st1 & -> & Hsteady & Hn).
  unfold mbind at 1, M_bind at 1, gets at 1.
  destruct (sim_vars st1 !! id) as [sv|] eqn:Hsv;
    [|eexists _, st1; split; [reflexivity|]; split; [exact Hsteady|exact Hn]].
  unfold mbind at 1, M_bind at 1, mret at 1, M_ret at 1.
  unfold mbind at 1, M_bind at 1.
  destruct (bool_decide (float_value sv = None) && initialized sv).
  - eexists _, _. split; [reflexivity|]. split; [|exact Hn].
    eapply steady_trans; [exact Hsteady|].
    eapply steady_update; [exact Hsv|reflexivity].
  - eexists _, st1. split; [reflexivity|]. split; [exact Hsteady|exact Hn].
Qed.

(** A read of a known name keeps the identifiers and makes no library
    call. *)
Lemma get_known x st :
  is_Some (sim_var_name_to_id st !! x) →
  get unpack_round5 delivered x st = await_value unpack_round5 delivered x st ∧
  steady st (get unpack_round5 delivered x st).2.
Proof.
  intros Hknown.
  assert (Heq : get unpack_round5 delivered x st = await_value unpack_round5 delivered x st).
  { unfold get. unfold mbind at 1, M_bind at 1, gets at 1.
    rewrite bool_decide_eq_true_2 by exact Hknown. reflexivity. }
  split; [exact Heq|]. rewrite Heq.
  destruct (await_value_steady x st) as (r & st' & -> & Hsteady & _). exact Hsteady.
Qed.

(** What [add_new_variable] does to the state, whether or not the
    command can be sent. *)
Lemma add_new_variable_spec x st :
  let id := Z.of_nat (size (sim_vars st)) + 1 in
  ∃ r calls,
    add_new_variable x st =
      (r, {| sim_vars := <[id := {| sv_id := id; sv_name := x;
                                    float_value := None; initialized := false |}]>
                           (sim_vars st);
             sim_var_name_to_id := <[x := id]> (sim_var_name_to_id st);
             dll_calls := dll_calls st ++
                            AddToClientDataDefinition id ((id - 1) * 4) 4 ::
                            RequestClientData 0 id id :: calls;
             sleeps := sleeps st |}) ∧
    (r = Ok tt → calls = [SetClientData 1 0 256
                            ((py "MF.SimVars.Add." ++ x) ++
                             replicate (Z.to_nat (256 - Z.of_nat (length (py "MF.SimVars.Add." ++ x)))) 0%N)]) ∧
    (r ≠ Ok tt → calls = []).
Proof.
  intros id. unfold add_new_variable, send_command.
  destruct (negb (forallb (λ c, bool_decide (c < 128)%N) (py "MF.SimVars.Add." ++ x)))
    eqn:Hascii.
  - exists (Raise UnicodeEncodeError), [].
    split; [|split; [discriminate|reflexivity]].
    cbv [mbind M_bind gets modify add_to_client_data_definition
         subscribe_to_data_change dll raise set_sim_vars set_name_to_id
         sim_vars sim_var_name_to_id dll_calls sleeps].
    rewrite <- !app_assoc. reflexivity.
  - destruct (bool_decide (DATA_STRING_SIZE - Z.of_nat (length (py "MF.SimVars.Add." ++ x)) < 0))
      eqn:Hlen.
    + exists (Raise ValueError), [].
      split; [|split; [discriminate|reflexivity]].
      cbv [mbind M_bind gets modify add_to_client_data_definition
           subscribe_to_data_change dll raise set_sim_vars set_name_to_id
           sim_vars sim_var_name_to_id dll_calls sleeps].
      rewrite <- !app_assoc. reflexivity.
    + eexists (Ok tt), _.
      split; [|split; [reflexivity|congruence]].
      cbv [mbind M_bind gets modify add_to_client_data_definition
           subscribe_to_data_change send_data dll raise set_sim_vars set_name_to_id
           sim_vars sim_var_name_to_id dll_calls sleeps].
      rewrite <- !app_assoc. reflexivity.
Qed.

(** A read of an unseen name gives it the next identifier, stores a
    variable under it and subscribes, once. *)
Lemma get_unknown x st :
  sim_var_name_to_id st !! x = None →
  let id := Z.of_nat (size (sim_vars st)) + 1 in
  ∃ calls,
    sim_var_name_to_id (get unpack_round5 delivered x st).2
    = <[x := id]> (sim_var_name_to_id st) ∧
    dom (sim_vars (get unpack_round5 delivered x st).2) = {[id]} ∪ dom (sim_vars st) ∧
    identity <$> sim_vars (get unpack_round5 delivered x st).2 !! id = Some (id, x) ∧
    (∀ i, i ≠ id →
          identity <$> sim_vars (get unpack_round5 delivered x st).2 !! i
          = identity <$> sim_vars st !! i) ∧
    dll_calls (get unpack_round5 delivered x st).2 =
      dll_calls st ++ AddToClientDataDefinition id ((id - 1) * 4) 4 ::
                      RequestClientData 0 id id :: calls.
Proof.
  intros Hnew id.
  destruct (add_new_variable_spec x st) as (r & calls & Hadd & _). fold id in Hadd.
  exists calls.
  set (st1 := {| sim_vars := <[id := {| sv_id := id; sv_name := x;
                                        float_value := None; initialized := false |}]>
                               (sim_vars st);
                 sim_var_name_to_id := <[x := id]> (sim_var_name_to_id st);
                 dll_calls := dll_calls st ++
                                AddToClientDataDefinition id ((id - 1) * 4) 4 ::
                                RequestClientData 0 id id :: calls;
                 sleeps := sleeps st |}) in *.
  assert (Hsteady : steady st1 (get unpack_round5 delivered x st).2).
  { unfold get. unfold mbind at 1, M_bind at 1, gets at 1.
    rewrite bool_decide_eq_false_2 by (rewrite Hnew; apply is_Some_None).
    cbn [negb]. unfold mbind at 1, M_bind at 1. rewrite Hadd.
    destruct r as [[]|e]; [|apply steady_refl].
    destruct (await_value_steady x st1) as (r' & st' & -> & Hsteady & _). exact Hsteady. }
  destruct Hsteady as (Hids & Hcalls & Hdom & Hident).
  split; [exact Hids|]. split; [|split; [|split]].
  - rewrite Hdom. apply dom_insert_L.
  - rewrite Hident. cbn [st1 sim_vars]. rewrite lookup_insert_eq. reflexivity.
  - intros i Hi. rewrite Hident. cbn [st1 sim_vars].
    rewrite lookup_insert_ne by done. reflexivity.
  - exact Hcalls.
Qed.

(** A read sleeps at most 50 times. *)
Lemma get_sleeps x st :
  (sleeps st ≤ sleeps (get unpack_round5 delivered x st).2 ≤ sleeps st + 50)%nat.
Proof.
  destruct (sim_var_name_to_id st !! x) as [i|] eqn:Hx.
  - destruct (get_known x st) as [-> _]; [eauto|].
    destruct (await_value_steady x st) as (r & st' & -> & _ & Hn). exact Hn.
  - assert (Heq : get unpack_round5 delivered x st =
                  match add_new_variable x st with
                  | (Ok _, s1) => await_value unpack_round5 delivered x s1
                  | (Raise e, s1) => (Raise e, s1)
                  end).
    { unfold get. unfold mbind at 1, M_bind at 1, gets at 1.
      rewrite bool_decide_eq_false_2 by (rewrite Hx; apply is_Some_None).
      reflexivity. }
    rewrite Heq. destruct (add_new_variable_spec x st) as (r & calls & -> & _).
    destruct r as [[]|e]; [|cbn [snd sleeps]; lia].
    match goal with
    | |- context [await_value _ _ x ?s] =>
        destruct (await_value_steady x s) as (r' & st' & -> & _ & Hn)
    end.
    exact Hn.
Qed.

Lemma numbered_by_size st order :
  numbered_by st order → size (sim_vars st) = length order.
Proof.
  intros (_ & _ & Hdom). rewrite <- size_dom, Hdom.
  rewrite size_list_to_set by apply NoDup_seqZ.
  rewrite length_seqZ. lia.
Qed.

Lemma numbered_by_known st order x :
  numbered_by st order → is_Some (sim_var_name_to_id st !! x) ↔ x ∈ order.
Proof.
  intros (_ & Hids & _). split.
  - intros [i Hi]. apply Hids in Hi as [_ Hi]. eapply list_elem_of_lookup_2, Hi.
  - intros Hin. apply list_elem_of_lookup_1 in Hin as [j Hj].
    exists (Z.of_nat j + 1). apply Hids. split; [lia|].
    replace (Z.to_nat (Z.of_nat j + 1 - 1)) with j by lia. exact Hj.
Qed.

Lemma numbered_by_steady st st' order :
  steady st st' → numbered_by st order → numbered_by st' order.
Proof.
  intros (Hids & _ & Hdom & _) (Hnodup & Hnum & Hvars).
  split; [exact Hnodup|]. split.
  - intros x i. rewrite Hids. apply Hnum.
  - rewrite Hdom. exact Hvars.
Qed.

(** One read keeps the numbering, extended by the name when it is new. *)
Lemma get_numbered st order x :
  numbered_by st order →
  numbered_by (get unpack_round5 delivered x st).2
    (if decide (x ∈ order) then order else order ++ [x]).
Proof.
  intros Hnum. destruct (decide (x ∈ order)) as [Hin|Hnotin].
  - apply (numbered_by_steady st); [|exact Hnum].
    apply get_known. apply (numbered_by_known st order x Hnum). exact Hin.
  - assert (Hnew : sim_var_name_to_id st !! x = None).
    { apply eq_None_not_Some. intros Hsome. apply Hnotin.
      apply (numbered_by_known st order x Hnum). exact Hsome. }
    destruct (get_unknown x st Hnew) as (calls & Hids & Hdom & _).
    rewrite (numbered_by_size st order Hnum) in Hids, Hdom.
    destruct Hnum as (Hnodup & Hnum & Hvars).
    split; [|split].
    + apply NoDup_app. split; [exact Hnodup|]. split; [|apply NoDup_singleton].
      intros y Hy Hyx. apply list_elem_of_singleton in Hyx. subst y. contradiction.
    + intros y i. rewrite Hids.
      destruct (decide (y = x)) as [->|Hne].
      * rewrite lookup_insert_eq. split.
        -- intros [= <-]. split; [lia|].
           replace (Z.to_nat (Z.of_nat (length order) + 1 - 1)) with (length order) by lia.
           rewrite lookup_app_r by lia. rewrite Nat.sub_diag. reflexivity.
        -- intros [Hi Hlook].
           destruct (decide (Z.to_nat (i - 1) < length order)%nat) as [Hlt|Hge].
           ++ rewrite lookup_app_l in Hlook by exact Hlt.
              exfalso. apply Hnotin. eapply list_elem_of_lookup_2, Hlook.
           ++ apply lookup_lt_Some in Hlook. rewrite length_app in Hlook.
              cbn [length] in Hlook. f_equal. lia.
      * rewrite lookup_insert_ne by done. rewrite Hnum. split.
        -- intros [Hi Hlook]. split; [exact Hi|].
           apply lookup_app_l_Some. exact Hlook.
        -- intros [Hi Hlook]. split; [exact Hi|].
           apply lookup_app_Some in Hlook as [Hlook|[_ Hlook]]; [exact Hlook|].
           apply list_lookup_singleton_Some in Hlook as [_ ?]. congruence.
    + rewrite Hdom, Hvars. rewrite length_app. cbn [length].
      apply set_eq. intros i.
      rewrite elem_of_union, elem_of_singleton, !elem_of_list_to_set, !elem_of_seqZ.
      lia.
Qed.

Lemma read_all_numbered names : ∀ st seen,
  numbered_by st seen →
  numbered_by (read_all unpack_round5 delivered names st) (first_seen seen names).
Proof.
  induction names as [|x names IH]; intros st seen Hnum; [exact Hnum|].
  pose proof (get_numbered st seen x Hnum) as Hstep.
  unfold read_all. cbn [foldl first_seen].
  destruct (decide (x ∈ seen)); apply IH; exact Hstep.
Qed.

End LayerProperties.

Lemma fresh_layer_numbered : numbered_by fresh_layer [].
Proof.
  split; [apply NoDup_nil; exact I|]. split.
  - intros x i. change (sim_var_name_to_id fresh_layer) with (∅ : gmap (list N) Z).
    rewrite lookup_empty, lookup_nil. split; [discriminate|intros [_ ?]; discriminate].
  - change (sim_vars fresh_layer) with (∅ : gmap Z SimVariable).
    rewrite dom_empty_L. reflexivity.
Qed.

(** C1, amended.  A call to [get] sleeps at most 50 times, 10 ms each,
    in every case.  When the name is known, its variable has no value
    and is not initialized (the subscription is pending and no
    notification has ever arrived), and none arrives for it during the
    wait, [get] sleeps exactly 50 times, once per poll, and then returns
    [None]: it sets no default and leaves the variable uninitialized, as
    it was; notifications for other identifiers are handled meanwhile.
    The poll loop, which normalizes what [get] returns, reads the flag
    as 0. *)
Theorem get_pending_times_out (unpack_round5 : Z → spec_float)
    (delivered : nat → list client_data) (st : vr_state) (x : list N) :
  (sleeps st ≤ sleeps (get unpack_round5 delivered x st).2 ≤ sleeps st + 50)%nat ∧
  ∀ (id : Z) (sv : SimVariable),
    sim_var_name_to_id st !! x = Some id →
    sim_vars st !! id = Some sv →
    float_value sv = None → initialized sv = false →
    (∀ k, (sleeps st ≤ k < sleeps st + 50)%nat →
          Forall (λ cd, dwDefineID cd ≠ id) (delivered k)) →
    ∃ st', get unpack_round5 delivered x st = (Ok None, st') ∧
           sleeps st' = (sleeps st + 50)%nat ∧
           sim_vars st' !! id = Some sv ∧
           steady st st' ∧
           ∀ float_of_str,
             read_flag unpack_round5 delivered float_of_str x st = (Ok 0, st').
Proof.
  split; [apply get_sleeps|].
  intros id sv Hid Hsv Hnone Hinit Hquiet.
  cut (∃ st', get unpack_round5 delivered x st = (Ok None, st') ∧
              sleeps st' = (sleeps st + 50)%nat ∧
              sim_vars st' !! id = Some sv ∧ steady st st').
  { intros (st' & Hget & H). exists st'. split; [exact Hget|].
    destruct H as (H1 & H2 & H3). split; [exact H1|]. split; [exact H2|].
    split; [exact H3|]. intros float_of_str. unfold read_flag.
    unfold mbind, M_bind. rewrite Hget. reflexivity. }
  destruct (get_known unpack_round5 delivered x st) as [-> _]; [eauto|].
  unfold await_value, lookup_or_KeyError.
  unfold mbind at 1, M_bind at 1, gets at 1. rewrite Hid.
  unfold mbind at 1, M_bind at 1, mret at 1, M_ret at 1.
  unfold mbind at 1, M_bind at 1, gets at 1. rewrite Hsv.
  unfold mbind at 1, M_bind at 1, mret at 1, M_ret at 1.
  unfold mbind at 1, M_bind at 1.
  destruct (wait_loop_silent unpack_round5 delivered 50 id 0 st sv)
    as (st' & -> & Hsteady & Hsleeps & Hsv'); [lia|assumption..|].
  unfold mbind at 1, M_bind at 1, gets at 1. rewrite Hsv'.
  unfold mbind at 1, M_bind at 1, mret at 1, M_ret at 1.
  rewrite Hinit, andb_false_r.
  exists st'. split; [|split; [exact Hsleeps|split; [exact Hsv'|exact Hsteady]]].
  cbv [mbind M_bind mret M_ret gets current_value]. rewrite Hsv'. cbn. rewrite Hnone.
  reflexivity.
Qed.

Lemma get_pending_times_out_witness :
  ∃ st', get unpack_f32_round5 two_deliveries (py "(L:engine1Fail)")
           (read_all unpack_f32_round5 silent
              [py "(L:cdsPage)"; py "(L:engine1Fail)"; py "(L:engine1OilPress)"]
              fresh_layer)
         = (Ok None, st') ∧
         sleeps st' = 200%nat.
Proof.
  destruct (get_pending_times_out unpack_f32_round5 two_deliveries
              (read_all unpack_f32_round5 silent
                 [py "(L:cdsPage)"; py "(L:engine1Fail)"; py "(L:engine1OilPress)"]
                 fresh_layer)
              (py "(L:engine1Fail)")) as [_ H].
  destruct (H 2 {| sv_id := 2; sv_name := py "(L:engine1Fail)";
                   float_value := None; initialized := false |})
    as (st' & Hget & Hsleeps & _).
  - vm_compute. reflexivity.
  - vm_compute. reflexivity.
  - reflexivity.
  - reflexivity.
  - intros k Hk. change (sleeps _) with 150%nat in Hk.
    unfold two_deliveries.
    do 5 (destruct k as [|k]; [lia|]). apply Forall_nil. exact I.
  - exists st'. split; [exact Hget|]. rewrite Hsleeps. reflexivity.
Defined.

(** A first read of a name that is never notified, and a second one:
    both return [None] after 50 sleeps each, and the variable is still
    not initialized and without a value. *)
Lemma get_pending_counterexample :
  let first := get unpack_f32_round5 silent (py "(L:cdsPage)") fresh_layer in
  let second := get unpack_f32_round5 silent (py "(L:cdsPage)") first.2 in
  first.1 = Ok None ∧ second.1 = Ok None ∧
  second.1 ≠ Ok (Some (S754_zero false)) ∧
  sleeps first.2 = 50%nat ∧ sleeps second.2 = 100%nat ∧
  sim_vars second.2 !! 1 =
    Some {| sv_id := 1; sv_name := py "(L:cdsPage)";
            float_value := None; initialized := false |}.
Proof. vm_compute. repeat split. discriminate. Qed.

(** A name that is notified during the first sleep of its first read:
    the read returns the value after that one sleep. *)
Example get_notified :
  let first := get unpack_f32_round5 two_deliveries (py "(L:cdsPage)") fresh_layer in
  first.1 = Ok (Some (S754_finite false 4503599627370496 (-52))) ∧
  sleeps first.2 = 1%nat ∧
  initialized <$> sim_vars first.2 !! 1 = Some true.
Proof. vm_compute. repeat split. Qed.

Lemma get_keeps_identifier unpack_round5 delivered st x i y :
  sim_var_name_to_id st !! x = Some i →
  sim_var_name_to_id (get unpack_round5 delivered y st).2 !! x = Some i.
Proof.
  intros Hx. destruct (sim_var_name_to_id st !! y) as [j|] eqn:Hy.
  - destruct (get_known unpack_round5 delivered y st) as [_ (-> & _)]; [eauto|exact Hx].
  - destruct (get_unknown unpack_round5 delivered y st Hy) as (calls & -> & _).
    rewrite lookup_insert_ne; [exact Hx|]. intros ->. congruence.
Qed.

(** C3. Identifiers are given to names in the order the names are first
    read, densely from 1: after reading any list of names on a fresh
    layer, a name has identifier [i] exactly when it is the [i]-th
    distinct name read, whatever is notified meanwhile and whether or
    not a command could be sent.  An identifier, once given, is kept by
    every later read and every notification; a read of a known name
    changes no identifier and makes no library call, so it neither
    reassigns nor subscribes again; and on a fresh layer, reading X,
    then Y, then X uses the identifiers 1, 2, 1. *)
Theorem identifiers_first_seen (unpack_round5 : Z → spec_float)
    (delivered : nat → list client_data) :
  (∀ names x i,
     sim_var_name_to_id (read_all unpack_round5 delivered names fresh_layer) !! x = Some i
     ↔ 1 ≤ i ∧ first_seen [] names !! Z.to_nat (i - 1) = Some x) ∧
  (∀ st x i y,
     sim_var_name_to_id st !! x = Some i →
     sim_var_name_to_id (get unpack_round5 delivered y st).2 !! x = Some i) ∧
  (∀ st x i cd,
     sim_var_name_to_id st !! x = Some i →
     sim_var_name_to_id (client_data_callback_handler unpack_round5 cd st) !! x = Some i) ∧
  (∀ st x,
     is_Some (sim_var_name_to_id st !! x) →
     sim_var_name_to_id (get unpack_round5 delivered x st).2 = sim_var_name_to_id st ∧
     dll_calls (get unpack_round5 delivered x st).2 = dll_calls st) ∧
  (∀ X Y,
     X ≠ Y →
     let st1 := (get unpack_round5 delivered X fresh_layer).2 in
     let st2 := (get unpack_round5 delivered Y st1).2 in
     let st3 := (get unpack_round5 delivered X st2).2 in
     sim_var_name_to_id st1 !! X = Some 1 ∧
     sim_var_name_to_id st2 !! Y = Some 2 ∧
     sim_var_name_to_id st3 !! X = Some 1 ∧
     sim_var_name_to_id st3 = sim_var_name_to_id st2 ∧
     dll_calls st3 = dll_calls st2).
Proof.
  split; [|split; [|split; [|split]]].
  - intros names x i.
    destruct (read_all_numbered unpack_round5 delivered names fresh_layer []
                fresh_layer_numbered) as (_ & Hids & _).
    apply Hids.
  - intros st x i y. apply get_keeps_identifier.
  - intros st x i cd Hx.
    destruct (handler_steady unpack_round5 cd st) as [(-> & _) _]. exact Hx.
  - intros st x Hknown.
    destruct (get_known unpack_round5 delivered x st Hknown) as [_ (H1 & H2 & _)].
    split; assumption.
  - intros X Y Hne st1 st2 st3.
    pose proof (get_numbered unpack_round5 delivered fresh_layer [] X
                  fresh_layer_numbered) as H1.
    rewrite decide_False in H1 by (intros H; inversion H). fold st1 in H1.
    pose proof (get_numbered unpack_round5 delivered st1 _ Y H1) as H2.
    rewrite decide_False in H2
      by (intros H; apply list_elem_of_singleton in H; congruence).
    fold st2 in H2. cbn [app] in H2.
    assert (HX1 : sim_var_name_to_id st1 !! X = Some 1).
    { destruct H1 as (_ & Hids & _). apply Hids. split; [lia|reflexivity]. }
    assert (HY2 : sim_var_name_to_id st2 !! Y = Some 2).
    { destruct H2 as (_ & Hids & _). apply Hids. split; [lia|reflexivity]. }
    assert (HX2 : sim_var_name_to_id st2 !! X = Some 1).
    { destruct H2 as (_ & Hids & _). apply Hids. split; [lia|reflexivity]. }
    destruct (get_known unpack_round5 delivered X st2) as [_ (H3 & H4 & _)]; [eauto|].
    fold st3 in H3, H4.
    split; [exact HX1|]. split; [exact HY2|]. split; [rewrite H3; exact HX2|].
    split; assumption.
Qed.

Lemma identifiers_first_seen_witness :
  let st1 := (get unpack_f32_round5 two_deliveries (py "X") fresh_layer).2 in
  let st2 := (get unpack_f32_round5 two_deliveries (py "Y") st1).2 in
  let st3 := (get unpack_f32_round5 two_deliveries (py "X") st2).2 in
  sim_var_name_to_id st1 !! py "X" = Some 1 ∧
  sim_var_name_to_id st2 !! py "Y" = Some 2 ∧
  sim_var_name_to_id st3 !! py "X" = Some 1 ∧
  sim_var_name_to_id st3 = sim_var_name_to_id st2 ∧
  dll_calls st3 = dll_calls st2.
Proof.
  destruct (identifiers_first_seen unpack_f32_round5 two_deliveries)
    as (_ & _ & _ & _ & H).
  apply (H (py "X") (py "Y")). discriminate.
Defined.

(** C10. After [clear_sim_variables] both maps are empty, and the next
    read of any name, seen before or not, gives it identifier 1 and
    stores its variable under 1: the numbering restarts at 1 after a
    reset.  So a name read second before a reset (identifier 2) and
    first after it has identifier 1 then. *)
Theorem clear_restarts_numbering (unpack_round5 : Z → spec_float)
    (delivered : nat → list client_data) :
  (∀ st,
     (clear_sim_variables st).1 = Ok tt ∧
     sim_vars (clear_sim_variables st).2 = ∅ ∧
     sim_var_name_to_id (clear_sim_variables st).2 = ∅ ∧
     ∀ x,
       let st' := (get unpack_round5 delivered x (clear_sim_variables st).2).2 in
       sim_var_name_to_id st' !! x = Some 1 ∧
       identity <$> sim_vars st' !! 1 = Some (1, x) ∧
       dom (sim_vars st') = {[1]}) ∧
  (∀ X Y,
     X ≠ Y →
     let before := read_all unpack_round5 delivered [X; Y] fresh_layer in
     let after := (get unpack_round5 delivered Y (clear_sim_variables before).2).2 in
     sim_var_name_to_id before !! Y = Some 2 ∧
     sim_var_name_to_id after !! Y = Some 1 ∧
     sim_var_name_to_id after !! X = None).
Proof.
  assert (Hclear : ∀ st,
            (clear_sim_variables st).1 = Ok tt ∧
            sim_vars (clear_sim_variables st).2 = ∅ ∧
            sim_var_name_to_id (clear_sim_variables st).2 = ∅) by (intros st; repeat split).
  assert (Hnext : ∀ st x,
            let st' := (get unpack_round5 delivered x (clear_sim_variables st).2).2 in
            sim_var_name_to_id st' = {[x := 1]} ∧
            identity <$> sim_vars st' !! 1 = Some (1, x) ∧
            dom (sim_vars st') = {[1]}).
  { intros st x st'. destruct (Hclear st) as (_ & Hvars & Hids).
    destruct (get_unknown unpack_round5 delivered x (clear_sim_variables st).2)
      as (calls & H1 & H2 & H3 & _); [rewrite Hids; apply lookup_empty|].
    fold st' in H1, H2, H3. rewrite Hvars, map_size_empty in H1, H2, H3.
    rewrite Hids in H1. rewrite dom_empty_L in H2.
    split; [exact H1|]. split; [exact H3|]. rewrite H2. apply (right_id_L ∅ (∪)). }
  split.
  - intros st. destruct (Hclear st) as (H1 & H2 & H3).
    split; [exact H1|]. split; [exact H2|]. split; [exact H3|].
    intros x st'. destruct (Hnext st x) as (Hids & Hvar & Hdom). fold st' in Hids, Hvar, Hdom.
    split; [|split; assumption]. rewrite Hids. apply lookup_singleton_eq.
  - intros X Y Hne before after.
    destruct (read_all_numbered unpack_round5 delivered [X; Y] fresh_layer []
                fresh_layer_numbered) as (_ & Hfirst & _).
    split; [|split].
    + apply Hfirst. split; [lia|]. cbn [first_seen].
      rewrite decide_False by (intros H; inversion H). cbn [app first_seen].
      rewrite decide_False by (intros H; apply list_elem_of_singleton in H; congruence).
      reflexivity.
    + destruct (Hnext before Y) as (Hids & _). fold after in Hids.
      rewrite Hids. apply lookup_singleton_eq.
    + destruct (Hnext before Y) as (Hids & _). fold after in Hids.
      rewrite Hids. apply lookup_singleton_ne. congruence.
Qed.

Lemma clear_restarts_numbering_witness :
  let before := read_all unpack_f32_round5 two_deliveries [py "X"; py "Y"] fresh_layer in
  let after := (get unpack_f32_round5 two_deliveries (py "Y")
                  (clear_sim_variables before).2).2 in
  sim_var_name_to_id before !! py "Y" = Some 2 ∧
  sim_var_name_to_id after !! py "Y" = Some 1 ∧
  sim_var_name_to_id after !! py "X" = None.
Proof.
  destruct (clear_restarts_numbering unpack_f32_round5 two_deliveries) as [_ H].
  apply (H (py "X") (py "Y")). discriminate.
Defined.

(** ** The reconnecting sender *)

Lemma extends_refl s : extends s s [].
Proof. split; [symmetry; apply app_nil_r|]. repeat split. Qed.

Lemma extends_trans s1 s2 s3 l1 l2 :
  extends s1 s2 l1 → extends s2 s3 l2 → extends s1 s3 (l1 ++ l2).
Proof.
  intros (H1 & H2 & H3 & H4) (H1' & H2' & H3' & H4').
  split; [rewrite H1', H1, app_assoc; reflexivity|].
  repeat split; congruence.
Qed.

Lemma sends_app l1 l2 : sends (l1 ++ l2) = (sends l1 + sends l2)%nat.
Proof. unfold sends. rewrite List.filter_app, length_app. reflexivity. Qed.

Lemma connects_app l1 l2 : connects (l1 ++ l2) = (connects l1 + connects l2)%nat.
Proof. unfold connects. rewrite List.filter_app, length_app. reflexivity. Qed.

Section SenderProperties.

Variable faults : nat → option exn.
Variable clock : nat → Q.



Lemma net_spec c s :
  ∃ r, net faults c s = (r, log_call c s) ∧
       (∀ e, r = Raise e → from_faults faults e) ∧
       (∀ k, r = Ok k → k = length (net_calls s)).
Proof.
  unfold net. destruct (faults (length (net_calls s))) as [e|] eqn:He.
  - eexists. split; [reflexivity|]. split; [|discriminate].
    intros e' [= <-]. eexists; exact He.
  - eexists. split; [reflexivity|]. split; [discriminate|].
    intros k [= <-]. reflexivity.
Qed.

Lemma log_call_extends c s : extends s (log_call c s) [c].
Proof. repeat split. Qed.

(** Closing and discarding never raises and leaves no connection. *)
Lemma close_and_discard_spec guarded s :
  ∃ s', close_and_discard faults guarded s = (Ok tt, s') ∧
        extends s s' (closing (ws s)) ∧ ws s' = None.
Proof.
  unfold close_and_discard, try_except.
  unfold mbind at 1, M_bind at 1.
  unfold mbind at 1, M_bind at 1, gets at 1.
  destruct (ws s) as [c|] eqn:Hws.
  - unfold mbind at 1, M_bind at 1.
    destruct (net_spec (Close c) s) as (r & -> & _).
    destruct r as [k|e]; cbn [mret M_ret modify];
      (eexists; split; [reflexivity|]; split; [|reflexivity]);
      repeat split.
  - destruct guarded; cbn [mret M_ret raise modify];
      (eexists; split; [reflexivity|]; split; [|reflexivity]);
      (split; [symmetry; apply app_nil_r|repeat split]).
Qed.
(** Ensuring a connection: nothing to do when one is held; otherwise
    the first call is [create_connection], and a normal return leaves a
    connection. *)
Lemma _ensure_spec s :
  ∃ r s' l, _ensure faults s = (r, s') ∧ extends s s' l ∧
            sends l = 0%nat ∧ (connects l ≤ 1)%nat ∧
            (r = Ok tt → is_Some (ws s')) ∧
            (∀ e, r = Raise e → from_faults faults e) ∧
            match ws s with
            | Some _ => l = [] ∧ s' = s ∧ r = Ok tt
            | None => ∃ l', l = CreateConnection (url s) (connect_timeout s) :: l'
            end.
Proof.
  unfold _ensure. unfold mbind at 1, M_bind at 1, gets at 1.
  destruct (ws s) as [c|] eqn:Hws.
  - exists (Ok tt), s, []. split; [reflexivity|]. split; [apply extends_refl|].
    split; [reflexivity|]. split; [cbn; lia|]. split; [rewrite Hws; eauto|].
    split; [discriminate|]. repeat split.
  - unfold _connect.
    unfold mbind at 1, M_bind at 1, gets at 1.
    unfold mbind at 1, M_bind at 1, gets at 1.
    unfold mbind at 1, M_bind at 1.
    destruct (net_spec (CreateConnection (url s) (connect_timeout s)) s)
      as (r & -> & Hraise & _).
    destruct r as [k|e].
    + unfold mbind at 1, M_bind at 1, modify at 1.
      unfold mbind at 1, M_bind at 1, with_ws at 1.
      unfold mbind at 1, M_bind at 1, gets at 1. cbn [set_ws ws].
      destruct (net_spec (SetTimeout k 1)
                  (set_ws (Some k) (log_call (CreateConnection (url s) (connect_timeout s)) s)))
        as (r & -> & Hraise' & _).
      destruct r as [k'|e].
      * eexists (Ok tt), _, [_; _]. split; [reflexivity|].
        split; [repeat split; cbn; rewrite <- app_assoc; reflexivity|].
        split; [reflexivity|]. split; [cbn; lia|]. split; [cbn; eauto|].
        split; [discriminate|]. eexists; reflexivity.
      * eexists (Raise e), _, [_; _]. split; [reflexivity|].
        split; [repeat split; cbn; rewrite <- app_assoc; reflexivity|].
        split; [reflexivity|]. split; [cbn; lia|]. split; [discriminate|].
        split; [intros e' [= <-]; apply Hraise'; reflexivity|]. eexists; reflexivity.
    + eexists (Raise e), _, [_]. split; [reflexivity|].
      split; [repeat split|].
      split; [reflexivity|]. split; [cbn; lia|]. split; [discriminate|].
      split; [intros e' [= <-]; apply Hraise; reflexivity|]. eexists; reflexivity.
Qed.

(** The liveness probe never raises, sends no grid and opens no
    connection. *)
Lemma _maybe_ping_spec s :
  ∃ s' l, _maybe_ping faults clock s = (Ok tt, s') ∧ extends s s' l ∧
          sends l = 0%nat ∧ connects l = 0%nat.
Proof.
  unfold _maybe_ping. unfold mbind at 1, M_bind at 1, time at 1.
  unfold mbind at 1, M_bind at 1, gets at 1.
  unfold mbind at 1, M_bind at 1, gets at 1.
  cbn [log_call _last_ping _ping_interval].
  destruct (Qle_bool _ _).
  - unfold try_except. unfold mbind at 1, M_bind at 1, with_ws at 1.
    unfold mbind at 1, M_bind at 1, gets at 1. cbn [log_call ws].
    destruct (ws s) as [c|] eqn:Hws.
    + destruct (net_spec (Ping c) (log_call Time s)) as (r & -> & _).
      destruct r as [k|e].
      * eexists _, [_; _]. split; [reflexivity|].
        split; [repeat split; cbn; rewrite <- app_assoc; reflexivity|].
        split; reflexivity.
      * destruct (close_and_discard_spec false (log_call (Ping c) (log_call Time s)))
          as (s' & -> & Hext & _).
        cbn [log_call ws closing] in Hext. rewrite Hws in Hext.
        exists s', ([Time; Ping c] ++ [Close c]). split; [reflexivity|].
        split; [|split; reflexivity].
        eapply extends_trans; [|exact Hext].
        repeat split. cbn. rewrite <- app_assoc. reflexivity.
    + cbn [raise].
      destruct (close_and_discard_spec false (log_call Time s)) as (s' & -> & Hext & _).
      cbn [log_call ws closing] in Hext. rewrite Hws in Hext.
      exists s', ([Time] ++ []). split; [reflexivity|].
      split; [|split; reflexivity].
      eapply extends_trans; [|exact Hext]. apply log_call_extends.
  - eexists _, [_]. split; [reflexivity|].
    split; [apply log_call_extends|]. split; reflexivity.
Qed.

(** One attempt: at most one connection opened and one grid sent; it
    starts by opening a connection when none is held; and what it
    raises, the environment raised. *)
Lemma send_once_spec payload s :
  ∃ r s' l, send_once faults clock payload s = (r, s') ∧ extends s s' l ∧
            (sends l ≤ 1)%nat ∧ (connects l ≤ 1)%nat ∧
            (∀ e, r = Raise e → from_faults faults e) ∧
            match ws s with
            | Some c => ∃ l', l = Send c payload :: l'
            | None => ∃ l', l = CreateConnection (url s) (connect_timeout s) :: l'
            end.
Proof.
  unfold send_once. unfold mbind at 1, M_bind at 1.
  destruct (_ensure_spec s) as (r & s1 & l1 & -> & Hext1 & Hs1 & Hc1 & Hws1 & Hr1 & Hfirst).
  destruct r as [[]|e].
  - destruct (Hws1 eq_refl) as [c Hc].
    unfold mbind at 1, M_bind at 1, with_ws at 1.
    unfold mbind at 1, M_bind at 1, gets at 1. rewrite Hc.
    destruct (net_spec (Send c payload) s1) as (r & -> & Hr2 & _).
    assert (Hhead : match ws s with
                    | Some c0 => ∃ l', l1 ++ [Send c payload] = Send c0 payload :: l'
                    | None => ∃ l', l1 ++ [Send c payload] =
                                    CreateConnection (url s) (connect_timeout s) :: l'
                    end).
    { destruct (ws s) as [c0|] eqn:Hws.
      - destruct Hfirst as (-> & -> & _).
        rewrite Hws in Hc. injection Hc as ->. eexists; reflexivity.
      - destruct Hfirst as [l' ->]. eexists; reflexivity. }
    destruct r as [k|e].
    + destruct (_maybe_ping_spec (log_call (Send c payload) s1))
        as (s2 & l2 & -> & Hext2 & Hs2 & Hc2).
      exists (Ok tt), s2, ((l1 ++ [Send c payload]) ++ l2). split; [reflexivity|].
      split; [eapply extends_trans;
                [eapply extends_trans; [exact Hext1|apply log_call_extends]|exact Hext2]|].
      rewrite !sends_app, !connects_app, Hs1, Hs2, Hc2.
      split; [cbn; lia|]. split; [cbn; lia|]. split; [discriminate|].
      destruct (ws s); destruct Hhead as [l' ->]; eexists; reflexivity.
    + exists (Raise e), (log_call (Send c payload) s1), (l1 ++ [Send c payload]).
      split; [reflexivity|].
      split; [eapply extends_trans; [exact Hext1|apply log_call_extends]|].
      rewrite !sends_app, !connects_app, Hs1.
      split; [cbn; lia|]. split; [cbn; lia|].
      split; [intros e' [= <-]; apply Hr2; reflexivity|]. exact Hhead.
  - exists (Raise e), s1, l1. split; [reflexivity|]. split; [exact Hext1|].
    split; [lia|]. split; [exact Hc1|]. split; [exact Hr1|].
    destruct (ws s) as [c|] eqn:Hws; [|exact Hfirst].
    destruct Hfirst as (_ & _ & ?). discriminate.
Qed.

Lemma send_grid_unfold grid s :
  send_grid faults clock grid s =
  match send_once faults clock (grid_to_payload grid) s with
  | (Ok _, s1) => (Ok tt, s1)
  | (Raise e, s1) =>
      if is_transport_error e then
        match send_once faults clock (grid_to_payload grid) (close_and_discard faults true s1).2 with
        | (Ok _, s3) => (Ok tt, s3)
        | (Raise e', s3) =>
            if is_transport_error e' then (Ok tt, (close_and_discard faults true s3).2)
            else (Raise e', s3)
        end
      else (Raise e, s1)
  end.
Proof.
  unfold send_grid, send_attempts, try_except.
  destruct (send_once faults clock (grid_to_payload grid) s) as [[[]|e] s1]; [reflexivity|].
  destruct (is_transport_error e); [|reflexivity].
  unfold mbind at 1, M_bind at 1.
  destruct (close_and_discard_spec true s1) as (s2 & -> & _). cbn [snd].
  destruct (send_once faults clock (grid_to_payload grid) s2) as [[[]|e'] s3]; [reflexivity|].
  destruct (is_transport_error e'); [|reflexivity].
  unfold mbind at 1, M_bind at 1.
  destruct (close_and_discard_spec true s3) as (s4 & -> & _). reflexivity.
Qed.

(** One call makes at most two attempts, and begins by opening a
    connection when none is held. *)
Lemma send_grid_trace grid s :
  ∃ l, extends s (send_grid faults clock grid s).2 l ∧
       (sends l ≤ 2)%nat ∧ (connects l ≤ 2)%nat ∧
       (ws s = None → ∃ l', l = CreateConnection (url s) (connect_timeout s) :: l').
Proof.
  rewrite send_grid_unfold.
  destruct (send_once_spec (grid_to_payload grid) s)
    as (r & s1 & l1 & -> & Hext1 & Hs1 & Hc1 & _ & Hfirst).
  assert (Hhead : ∀ l2, ws s = None →
            ∃ l', l1 ++ l2 = CreateConnection (url s) (connect_timeout s) :: l').
  { intros l2 Hws. rewrite Hws in Hfirst. destruct Hfirst as [l' ->].
    eexists; reflexivity. }
  destruct r as [[]|e].
  - exists l1. split; [exact Hext1|]. split; [lia|]. split; [lia|].
    intros Hws. rewrite <- (app_nil_r l1). apply Hhead, Hws.
  - destruct (is_transport_error e).
    + destruct (close_and_discard_spec true s1) as (s2 & -> & Hext2 & _). cbn [snd].
      destruct (send_once_spec (grid_to_payload grid) s2)
        as (r & s3 & l3 & -> & Hext3 & Hs3 & Hc3 & _).
      assert (Hclose : ∀ w, sends (closing w) = 0%nat ∧ connects (closing w) = 0%nat)
        by (intros [c|]; split; reflexivity).
      destruct (Hclose (ws s1)) as [Hs2 Hc2].
      destruct r as [[]|e'].
      * exists (l1 ++ closing (ws s1) ++ l3).
        split; [eapply extends_trans; [exact Hext1|eapply extends_trans; eauto]|].
        rewrite !sends_app, !connects_app, Hs2, Hc2.
        split; [lia|]. split; [lia|]. apply Hhead.
      * destruct (is_transport_error e').
        -- destruct (close_and_discard_spec true s3) as (s4 & -> & Hext4 & _). cbn [snd].
           destruct (Hclose (ws s3)) as [Hs4 Hc4].
           exists (l1 ++ closing (ws s1) ++ l3 ++ closing (ws s3)).
           split; [eapply extends_trans; [exact Hext1|];
                   eapply extends_trans; [exact Hext2|];
                   eapply extends_trans; eauto|].
           rewrite !sends_app, !connects_app, Hs2, Hc2, Hs4, Hc4.
           split; [lia|]. split; [lia|]. apply Hhead.
        -- exists (l1 ++ closing (ws s1) ++ l3).
           split; [eapply extends_trans; [exact Hext1|eapply extends_trans; eauto]|].
           rewrite !sends_app, !connects_app, Hs2, Hc2.
           split; [lia|]. split; [lia|]. apply Hhead.
    + exists l1. split; [exact Hext1|]. split; [lia|]. split; [lia|].
      intros Hws. rewrite <- (app_nil_r l1). apply Hhead, Hws.
Qed.

End SenderProperties.

(** With transport failures only, [send_grid] returns normally; how its
    result follows from those of its attempts. *)
Lemma send_grid_attempts (faults : nat → option exn) (clock : nat → Q)
    (grid : list (list (list atom))) (s : McduSocket) :
  (∀ k e, faults k = Some e → is_transport_error e = true) →
  (send_grid faults clock grid s).1 = Ok tt ∧
  (∀ s1, send_once faults clock (grid_to_payload grid) s = (Ok tt, s1) →
         send_grid faults clock grid s = (Ok tt, s1)) ∧
  (∀ e s1,
     send_once faults clock (grid_to_payload grid) s = (Raise e, s1) →
     ∃ s2, close_and_discard faults true s1 = (Ok tt, s2) ∧
           net_calls s2 = net_calls s1 ++ closing (ws s1) ∧ ws s2 = None ∧
           (∃ l', net_calls (send_once faults clock (grid_to_payload grid) s2).2
                  = net_calls s2 ++ CreateConnection (url s) (connect_timeout s) :: l') ∧
           (∀ s3, send_once faults clock (grid_to_payload grid) s2 = (Ok tt, s3) →
                  send_grid faults clock grid s = (Ok tt, s3)) ∧
           (∀ e' s3,
              send_once faults clock (grid_to_payload grid) s2 = (Raise e', s3) →
              ∃ s4, send_grid faults clock grid s = (Ok tt, s4) ∧
                    close_and_discard faults true s3 = (Ok tt, s4) ∧
                    net_calls s4 = net_calls s3 ++ closing (ws s3) ∧
                    ws s4 = None ∧ url s4 = url s ∧
                    connect_timeout s4 = connect_timeout s)) ∧
  (∃ l, net_calls (send_grid faults clock grid s).2 = net_calls s ++ l ∧
        (sends l ≤ 2)%nat ∧ (connects l ≤ 2)%nat ∧
        (ws s = None → ∃ l', l = CreateConnection (url s) (connect_timeout s) :: l')).
Proof.
  intros Htransport.
  assert (Hcaught : ∀ payload s0 e s1,
            send_once faults clock payload s0 = (Raise e, s1) → is_transport_error e = true).
  { intros payload s0 e s1 Hrun.
    destruct (send_once_spec faults clock payload s0) as (r & s' & l & Hrun' & _ & _ & _ & Hr & _).
    rewrite Hrun in Hrun'. injection Hrun' as <- <-.
    destruct (Hr e eq_refl) as [k Hk]. eapply Htransport, Hk. }
  split; [|split; [|split]].
  - rewrite send_grid_unfold.
    destruct (send_once faults clock (grid_to_payload grid) s) as [[[]|e] s1] eqn:H1;
      [reflexivity|].
    rewrite (Hcaught _ _ _ _ H1).
    destruct (send_once faults clock (grid_to_payload grid)
                (close_and_discard faults true s1).2) as [[[]|e'] s3] eqn:H2; [reflexivity|].
    rewrite (Hcaught _ _ _ _ H2). reflexivity.
  - intros s1 H1. rewrite send_grid_unfold, H1. reflexivity.
  - intros e s1 H1.
    destruct (close_and_discard_spec faults true s1) as (s2 & Hclose & Hext2 & Hws2).
    exists s2. split; [exact Hclose|]. split; [apply Hext2|]. split; [exact Hws2|].
    destruct (send_once_spec faults clock (grid_to_payload grid) s)
      as (r & s1' & l1 & Hrun1 & Hext1 & _).
    rewrite H1 in Hrun1. injection Hrun1 as <- <-.
    assert (Hurl : url s2 = url s ∧ connect_timeout s2 = connect_timeout s).
    { destruct Hext1 as (_ & ? & ? & _), Hext2 as (_ & ? & ? & _). split; congruence. }
    split; [|split].
    + destruct (send_once_spec faults clock (grid_to_payload grid) s2)
        as (r & s3 & l3 & -> & Hext3 & _ & _ & _ & Hfirst).
      rewrite Hws2 in Hfirst. destruct Hfirst as [l' ->].
      destruct Hurl as [<- <-]. exists l'. apply Hext3.
    + intros s3 H2. rewrite send_grid_unfold, H1, (Hcaught _ _ _ _ H1), Hclose.
      cbn [snd]. rewrite H2. reflexivity.
    + intros e' s3 H2.
      destruct (close_and_discard_spec faults true s3) as (s4 & Hclose4 & Hext4 & Hws4).
      exists s4. split.
      * rewrite send_grid_unfold, H1, (Hcaught _ _ _ _ H1), Hclose. cbn [snd].
        rewrite H2, (Hcaught _ _ _ _ H2), Hclose4. reflexivity.
      * split; [exact Hclose4|]. split; [apply Hext4|]. split; [exact Hws4|].
        destruct (send_once_spec faults clock (grid_to_payload grid) s2)
          as (r & s3' & l3 & Hrun3 & Hext3 & _).
        rewrite H2 in Hrun3. injection Hrun3 as <- <-.
        destruct Hext3 as (_ & ? & ? & _), Hext4 as (_ & ? & ? & _), Hurl.
        split; congruence.
  - destruct (send_grid_trace faults clock grid s) as (l & Hext & Hs & Hc & Hfirst).
    exists l. split; [apply Hext|]. split; [exact Hs|]. split; [exact Hc|exact Hfirst].
Qed.

(** The first send fails on both attempts, the next call connects
    afresh: the calls made, in order. *)
Example send_grid_fails_twice :
  let payload := grid_to_payload empty_grid in
  let s1 := (send_grid (failing_at [2; 6]%nat) clock_100 empty_grid
               (new_McduSocket MCDU_URL)).2 in
  let s2 := (send_grid (failing_at [2; 6]%nat) clock_100 empty_grid s1).2 in
  ws s1 = None ∧
  net_calls s1 =
    [CreateConnection MCDU_URL 2; SetTimeout 0 1; Send 0 payload; Close 0;
     CreateConnection MCDU_URL 2; SetTimeout 4 1; Send 4 payload; Close 4] ∧
  ws s2 = Some 8%nat ∧
  net_calls s2 =
    net_calls s1 ++
    [CreateConnection MCDU_URL 2; SetTimeout 8 1; Send 8 payload; Time; Ping 8].
Proof. vm_compute. repeat split. Qed.

(** * Further properties *)

(** ** Grids and their cells *)

(** A display grid is determined by its cells. *)
Lemma wf_grid_ext g g' :
  wf_grid g → wf_grid g' →
  (∀ r c, 0 ≤ r < CDU_ROWS → 0 ≤ c < CDU_COLUMNS → cell_at g r c = cell_at g' r c) →
  g = g'.
Proof.
  intros [Hl Hf] [Hl' Hf'] Hcell.
  apply list_eq. intros i.
  destruct (decide (i < Z.to_nat CDU_ROWS)%nat) as [Hi|Hi].
  - destruct (lookup_lt_is_Some_2 g i) as [rw Hrw]; [lia|].
    destruct (lookup_lt_is_Some_2 g' i) as [rw' Hrw']; [lia|].
    rewrite Hrw, Hrw'. f_equal.
    assert (Hlen : length rw = Z.to_nat CDU_COLUMNS).
    { rewrite Forall_forall in Hf. apply Hf. eapply list_elem_of_lookup_2; eauto. }
    assert (Hlen' : length rw' = Z.to_nat CDU_COLUMNS).
    { rewrite Forall_forall in Hf'. apply Hf'. eapply list_elem_of_lookup_2; eauto. }
    apply list_eq. intros j.
    destruct (decide (j < Z.to_nat CDU_COLUMNS)%nat) as [Hj|Hj].
    + specialize (Hcell (Z.of_nat i) (Z.of_nat j)).
      unfold cell_at in Hcell. rewrite bool_decide_eq_true_2 in Hcell by lia.
      rewrite !Nat2Z.id, Hrw, Hrw' in Hcell. apply Hcell; lia.
    + rewrite !lookup_ge_None_2 by lia. reflexivity.
  - rewrite !lookup_ge_None_2 by lia. reflexivity.
Qed.

Lemma cell_at_outside g r c :
  wf_grid g → ¬ (0 ≤ r < CDU_ROWS ∧ 0 ≤ c < CDU_COLUMNS) → cell_at g r c = None.
Proof.
  intros [Hl Hf] Hout. unfold cell_at. case_bool_decide as Hrc; [|reflexivity].
  destruct (g !! Z.to_nat r) as [rw|] eqn:Hrw; [|reflexivity]. cbn.
  assert (Hlen : length rw = Z.to_nat CDU_COLUMNS).
  { rewrite Forall_forall in Hf. apply Hf. eapply list_elem_of_lookup_2; eauto. }
  apply lookup_lt_Some in Hrw.
  apply lookup_ge_None_2. lia.
Qed.

(** Python's index resolution on a list of length [len]: an index from
    [-len] up to but not [len] is taken from the end when negative, any
    other raises. *)
Lemma py_index_wrap {A} (l : list A) i :
  - Z.of_nat (length l) ≤ i < Z.of_nat (length l) →
  py_index l i = Some (Z.to_nat (if bool_decide (i < 0) then i + Z.of_nat (length l) else i)).
Proof.
  intros Hi. unfold py_index.
  destruct (bool_decide_reflect (i < 0)) as [Hneg|Hneg].
  - rewrite bool_decide_eq_false_2 by lia. rewrite bool_decide_eq_true_2 by lia.
    f_equal. lia.
  - rewrite bool_decide_eq_true_2 by lia. reflexivity.
Qed.

Lemma py_index_out {A} (l : list A) i :
  ¬ (- Z.of_nat (length l) ≤ i < Z.of_nat (length l)) → py_index l i = None.
Proof.
  intros Hi. unfold py_index.
  rewrite !bool_decide_eq_false_2 by lia. reflexivity.
Qed.

(** The row or column an index addresses. *)
Lemma grid_set_wrap g row col x :
  wf_grid g → - CDU_ROWS ≤ row < CDU_ROWS → - CDU_COLUMNS ≤ col < CDU_COLUMNS →
  grid_set g row col x =
  grid_set g (if bool_decide (row < 0) then row + CDU_ROWS else row)
             (if bool_decide (col < 0) then col + CDU_COLUMNS else col) x.
Proof.
  intros [Hl Hf] Hrow Hcol. unfold grid_set, py_getitem, py_setitem.
  assert (Hl14 : Z.of_nat (length g) = CDU_ROWS) by (rewrite Hl; reflexivity).
  set (row' := if bool_decide (row < 0) then row + CDU_ROWS else row).
  set (col' := if bool_decide (col < 0) then col + CDU_COLUMNS else col).
  assert (Hrow' : 0 ≤ row' < CDU_ROWS) by (unfold row'; case_bool_decide; lia).
  assert (Hcol' : 0 ≤ col' < CDU_COLUMNS) by (unfold col'; case_bool_decide; lia).
  rewrite (py_index_wrap g row), (py_index_wrap g row') by lia.
  rewrite Hl14. fold row'.
  rewrite (bool_decide_eq_false_2 (row' < 0)) by lia.
  cbn [mbind option_bind].
  destruct (g !! Z.to_nat row') as [rw|] eqn:Hrw; [|reflexivity].
  cbn [mbind option_bind].
  assert (Hl24 : Z.of_nat (length rw) = CDU_COLUMNS).
  { rewrite Forall_forall in Hf. rewrite (Hf rw); [reflexivity|].
    eapply list_elem_of_lookup_2; eauto. }
  rewrite (py_index_wrap rw col), (py_index_wrap rw col') by lia.
  rewrite Hl24. fold col'.
  rewrite (bool_decide_eq_false_2 (col' < 0)) by lia.
  reflexivity.
Qed.

Lemma grid_set_out g row col x :
  wf_grid g → ¬ (- CDU_ROWS ≤ row < CDU_ROWS ∧ - CDU_COLUMNS ≤ col < CDU_COLUMNS) →
  grid_set g row col x = None.
Proof.
  intros [Hl Hf] Hout. unfold grid_set, py_getitem, py_setitem.
  assert (Hl14 : Z.of_nat (length g) = CDU_ROWS) by (rewrite Hl; reflexivity).
  destruct (decide (- CDU_ROWS ≤ row < CDU_ROWS)) as [Hrow|Hrow].
  - rewrite (py_index_wrap g row) by lia. cbn [mbind option_bind].
    destruct (g !! _) as [rw|] eqn:Hrw; [|reflexivity]. cbn [mbind option_bind].
    assert (Hl24 : Z.of_nat (length rw) = CDU_COLUMNS).
    { rewrite Forall_forall in Hf. rewrite (Hf rw); [reflexivity|].
      eapply list_elem_of_lookup_2; eauto. }
    rewrite (py_index_out rw col) by lia. reflexivity.
  - rewrite (py_index_out g row) by lia. reflexivity.
Qed.

(** ** [clear_area_with_spaces] on any area *)

Lemma clear_row_wrap_spec cols : ∀ g row x,
  wf_grid g →
  Forall (λ c, - CDU_ROWS ≤ row < CDU_ROWS ∧ - CDU_COLUMNS ≤ c < CDU_COLUMNS) cols →
  ∃ g', for_each cols (λ c g, grid_set g row c x) g = Some g' ∧ wf_grid g' ∧
        ∀ r c, 0 ≤ r < CDU_ROWS → 0 ≤ c < CDU_COLUMNS →
          cell_at g' r c =
          if decide ((r = row ∨ r - CDU_ROWS = row) ∧ (c ∈ cols ∨ c - CDU_COLUMNS ∈ cols))
          then Some x else cell_at g r c.
Proof.
  induction cols as [|c0 cols IH]; intros g row x Hwf Hcols.
  - exists g. split; [reflexivity|]. split; [exact Hwf|].
    intros r c _ _. rewrite decide_False; [reflexivity|].
    intros [_ [H|H]]; inversion H.
  - apply Forall_cons in Hcols as [[Hrow Hc0] Hcols]. cbn [for_each].
    rewrite grid_set_wrap by assumption.
    set (row' := if bool_decide (row < 0) then row + CDU_ROWS else row).
    set (col' := if bool_decide (c0 < 0) then c0 + CDU_COLUMNS else c0).
    assert (Hrow' : 0 ≤ row' < CDU_ROWS) by (unfold row'; case_bool_decide; lia).
    assert (Hcol' : 0 ≤ col' < CDU_COLUMNS) by (unfold col'; case_bool_decide; lia).
    destruct (grid_set_spec g row' col' x Hwf Hrow' Hcol') as (g1 & Hset & Hwf1 & Hcell1).
    rewrite Hset. cbn [mbind option_bind].
    destruct (IH g1 row x Hwf1 Hcols) as (g' & Hrun & Hwf' & Hcell').
    exists g'. split; [exact Hrun|]. split; [exact Hwf'|].
    intros r c Hr Hc. rewrite Hcell', Hcell1 by assumption.
    assert (Hr' : r = row' ↔ (r = row ∨ r - CDU_ROWS = row))
      by (unfold row'; case_bool_decide; lia).
    assert (Hc' : c = col' ↔ (c = c0 ∨ c - CDU_COLUMNS = c0))
      by (unfold col'; case_bool_decide; lia).
    destruct (decide ((r = row ∨ r - CDU_ROWS = row) ∧ (c ∈ cols ∨ c - CDU_COLUMNS ∈ cols)))
      as [[Hrr Hin]|Hn].
    + rewrite decide_True; [reflexivity|]. split; [exact Hrr|].
      destruct Hin; [left|right]; by right.
    + destruct (decide (r = row' ∧ c = col')) as [[H1 H2]|Hn'].
      * rewrite decide_True; [reflexivity|]. split; [tauto|].
        apply Hc' in H2 as [->| <-]; [left|right]; by left.
      * rewrite decide_False; [reflexivity|].
        intros [Hrr Hin]. rewrite !elem_of_cons in Hin. tauto.
Qed.

Lemma clear_rows_wrap_spec rows : ∀ g cols x,
  wf_grid g →
  Forall (λ r, Forall (λ c, - CDU_ROWS ≤ r < CDU_ROWS ∧
                            - CDU_COLUMNS ≤ c < CDU_COLUMNS) cols) rows →
  ∃ g', for_each rows (λ r g, for_each cols (λ c g, grid_set g r c x) g) g = Some g' ∧
        wf_grid g' ∧
        ∀ r c, 0 ≤ r < CDU_ROWS → 0 ≤ c < CDU_COLUMNS →
          cell_at g' r c =
          if decide ((r ∈ rows ∨ r - CDU_ROWS ∈ rows) ∧ (c ∈ cols ∨ c - CDU_COLUMNS ∈ cols))
          then Some x else cell_at g r c.
Proof.
  induction rows as [|r0 rows IH]; intros g cols x Hwf Hrows.
  - exists g. split; [reflexivity|]. split; [exact Hwf|].
    intros r c _ _. rewrite decide_False; [reflexivity|].
    intros [[H|H] _]; inversion H.
  - apply Forall_cons in Hrows as [Hr0 Hrows]. cbn [for_each].
    destruct (clear_row_wrap_spec cols g r0 x Hwf Hr0) as (g1 & Hrow & Hwf1 & Hcell1).
    rewrite Hrow. cbn [mbind option_bind].
    destruct (IH g1 cols x Hwf1 Hrows) as (g' & Hrun & Hwf' & Hcell').
    exists g'. split; [exact Hrun|]. split; [exact Hwf'|].
    intros r c Hr Hc. rewrite Hcell', Hcell1 by assumption.
    destruct (decide ((r ∈ rows ∨ r - CDU_ROWS ∈ rows) ∧ (c ∈ cols ∨ c - CDU_COLUMNS ∈ cols)))
      as [[Hin Hcc]|Hn].
    + rewrite decide_True; [reflexivity|]. split; [|exact Hcc].
      destruct Hin; [left|right]; by right.
    + destruct (decide ((r = r0 ∨ r - CDU_ROWS = r0) ∧ (c ∈ cols ∨ c - CDU_COLUMNS ∈ cols)))
        as [[Hrr Hcc]|Hn'].
      * rewrite decide_True; [reflexivity|]. split; [|exact Hcc].
        destruct Hrr as [->| <-]; [left|right]; by left.
      * rewrite decide_False; [reflexivity|].
        intros [Hin Hcc]. rewrite !elem_of_cons in Hin. tauto.
Qed.

(** An index outside the grid ends the loops with [IndexError]. *)
Lemma clear_row_fails cols : ∀ g row x,
  wf_grid g →
  Exists (λ c, ¬ (- CDU_ROWS ≤ row < CDU_ROWS ∧ - CDU_COLUMNS ≤ c < CDU_COLUMNS)) cols →
  for_each cols (λ c g, grid_set g row c x) g = None.
Proof.
  induction cols as [|c0 cols IH]; intros g row x Hwf Hbad; [inversion Hbad|].
  cbn [for_each].
  destruct (decide (- CDU_ROWS ≤ row < CDU_ROWS ∧ - CDU_COLUMNS ≤ c0 < CDU_COLUMNS))
    as [[Hrow Hc0]|Hout].
  - rewrite grid_set_wrap by assumption.
    destruct (grid_set_spec g (if bool_decide (row < 0) then row + CDU_ROWS else row)
                (if bool_decide (c0 < 0) then c0 + CDU_COLUMNS else c0) x Hwf)
      as (g1 & -> & Hwf1 & _); [case_bool_decide; lia..|].
    cbn [mbind option_bind]. apply IH; [exact Hwf1|].
    apply Exists_cons in Hbad as [Hbad|Hbad]; [tauto|exact Hbad].
  - rewrite grid_set_out by assumption. reflexivity.
Qed.

Lemma clear_rows_fails rows : ∀ g cols x,
  wf_grid g →
  Exists (λ r, Exists (λ c, ¬ (- CDU_ROWS ≤ r < CDU_ROWS ∧
                               - CDU_COLUMNS ≤ c < CDU_COLUMNS)) cols) rows →
  for_each rows (λ r g, for_each cols (λ c g, grid_set g r c x) g) g = None.
Proof.
  induction rows as [|r0 rows IH]; intros g cols x Hwf Hbad; [inversion Hbad|].
  cbn [for_each].
  destruct (decide (Exists (λ c, ¬ (- CDU_ROWS ≤ r0 < CDU_ROWS ∧
                                    - CDU_COLUMNS ≤ c < CDU_COLUMNS)) cols)) as [Hr0|Hr0].
  - rewrite clear_row_fails by assumption. reflexivity.
  - apply not_Exists_Forall in Hr0; [|intros c; apply _].
    destruct (clear_row_wrap_spec cols g r0 x Hwf) as (g1 & -> & Hwf1 & _).
    { eapply Forall_impl; [exact Hr0|]. intros c Hc. cbn in Hc.
      destruct (decide (- CDU_ROWS ≤ r0 < CDU_ROWS ∧ - CDU_COLUMNS ≤ c < CDU_COLUMNS));
        tauto. }
    cbn [mbind option_bind]. apply IH; [exact Hwf1|].
    apply Exists_cons in Hbad as [Hbad|Hbad]; [|exact Hbad].
    exfalso. apply Exists_exists in Hbad as (c & Hin & Hc).
    rewrite Forall_forall in Hr0. apply (Hr0 c Hin). exact Hc.
Qed.

Lemma for_each_no_columns {A} (rows : list A) (g : list (list (list atom)))
    (body : A → Z → list (list (list atom)) → option (list (list (list atom)))) :
  for_each rows (λ r g, for_each [] (body r) g) g = Some g.
Proof. induction rows as [|r rows IH]; [reflexivity|]. cbn [for_each mbind option_bind]. exact IH. Qed.

(** X1. [clear_area_with_spaces] does not check bounds, it indexes as
    Python does.  On a display grid it raises [IndexError] exactly when
    the area is not empty and reaches outside rows [-14, 14) or columns
    [-24, 24).  Otherwise it returns a display grid in which a negative
    row or column of the area has addressed the grid from its end: the
    cell at row [r], column [c] is a space in the given colour and size
    when [r] or [r - 14] is a row of the area and [c] or [c - 24] is one
    of its columns, and is unchanged otherwise.  An empty area (last row
    before first row, or end column not after start column) leaves the
    grid as it is, whatever the other bounds. *)
Theorem clear_area_bounds (g : list (list (list atom))) (r0 r1 c0 c1 : Z)
    (colour : list N) (size : Z) :
  wf_grid g →
  (clear_area_with_spaces g r0 r1 c0 c1 colour size = None ↔
   r0 ≤ r1 ∧ c0 < c1 ∧
   ¬ (- CDU_ROWS ≤ r0 ∧ r1 < CDU_ROWS ∧ - CDU_COLUMNS ≤ c0 ∧ c1 ≤ CDU_COLUMNS)) ∧
  (∀ g', clear_area_with_spaces g r0 r1 c0 c1 colour size = Some g' →
     wf_grid g' ∧
     ∀ r c, 0 ≤ r < CDU_ROWS → 0 ≤ c < CDU_COLUMNS →
       cell_at g' r c =
       if decide ((r0 ≤ r ≤ r1 ∨ r0 ≤ r - CDU_ROWS ≤ r1) ∧
                  (c0 ≤ c < c1 ∨ c0 ≤ c - CDU_COLUMNS < c1))
       then Some [AStr (py " "); AStr colour; AInt size]
       else cell_at g r c) ∧
  (r1 < r0 ∨ c1 ≤ c0 → clear_area_with_spaces g r0 r1 c0 c1 colour size = Some g).
Proof.
  intros Hwf.
  assert (Hnoop : r1 < r0 ∨ c1 ≤ c0 →
                  clear_area_with_spaces g r0 r1 c0 c1 colour size = Some g).
  { intros [Hr|Hc]; unfold clear_area_with_spaces, py_range.
    - rewrite seqZ_nil by lia. reflexivity.
    - rewrite (seqZ_nil c0) by lia. apply for_each_no_columns. }
  destruct (decide (r0 ≤ r1 ∧ c0 < c1)) as [[Hr Hc]|Hempty].
  - destruct (decide (- CDU_ROWS ≤ r0 ∧ r1 < CDU_ROWS ∧ - CDU_COLUMNS ≤ c0 ∧ c1 ≤ CDU_COLUMNS))
      as [Hin|Hout].
    + destruct (clear_rows_wrap_spec (py_range r0 (r1 + 1)) g (py_range c0 c1)
                  (space_cell colour size) Hwf) as (g' & Hrun & Hwf' & Hcell).
      { apply Forall_forall. intros r Hr'. apply Forall_forall. intros c Hc'.
        apply elem_of_py_range in Hr', Hc'. lia. }
      unfold clear_area_with_spaces. unfold space_cell in Hrun. rewrite Hrun.
      split; [split; [discriminate|tauto]|]. split; [|lia].
      intros g'' [= <-]. split; [exact Hwf'|].
      intros r c Hr' Hc'. rewrite Hcell by assumption.
      destruct (decide ((r0 ≤ r ≤ r1 ∨ r0 ≤ r - CDU_ROWS ≤ r1) ∧
                        (c0 ≤ c < c1 ∨ c0 ≤ c - CDU_COLUMNS < c1))).
      * rewrite decide_True by (rewrite !elem_of_py_range; lia). reflexivity.
      * rewrite decide_False by (rewrite !elem_of_py_range; lia). reflexivity.
    + assert (Hnone : clear_area_with_spaces g r0 r1 c0 c1 colour size = None).
      { unfold clear_area_with_spaces. apply clear_rows_fails; [exact Hwf|].
        apply Exists_exists.
        destruct (decide (- CDU_ROWS ≤ r0 ∧ r1 < CDU_ROWS)) as [Hrows|Hrows].
        - exists r0. split; [apply elem_of_py_range; lia|].
          apply Exists_exists.
          destruct (decide (- CDU_COLUMNS ≤ c0)).
          + exists (c1 - 1). split; [apply elem_of_py_range; lia|]. lia.
          + exists c0. split; [apply elem_of_py_range; lia|]. lia.
        - destruct (decide (- CDU_ROWS ≤ r0)).
          + exists r1. split; [apply elem_of_py_range; lia|].
            apply Exists_exists. exists c0. split; [apply elem_of_py_range; lia|]. lia.
          + exists r0. split; [apply elem_of_py_range; lia|].
            apply Exists_exists. exists c0. split; [apply elem_of_py_range; lia|]. lia. }
      rewrite Hnone. split; [split; [tauto|reflexivity]|]. split; [discriminate|lia].
  - rewrite Hnoop by lia. split; [split; [discriminate|tauto]|]. split; [|reflexivity].
    intros g' [= <-]. split; [exact Hwf|].
    intros r c _ _. rewrite decide_False by lia. reflexivity.
Qed.

Lemma clear_area_bounds_witness :
  clear_area_with_spaces empty_grid 12 14 0 CDU_COLUMNS (py "w") 0 = None ∧
  clear_area_with_spaces empty_grid 3 2 0 100 (py "w") 0 = Some empty_grid ∧
  ∃ g', clear_area_with_spaces empty_grid (-1) 0 (-2) 1 (py "w") 0 = Some g' ∧
        cell_at g' 13 23 = Some [AStr (py " "); AStr (py "w"); AInt 0] ∧
        cell_at g' 0 0 = Some [AStr (py " "); AStr (py "w"); AInt 0] ∧
        cell_at g' 1 0 = Some [].
Proof.
  destruct (clear_area_bounds empty_grid 12 14 0 CDU_COLUMNS (py "w") 0 wf_empty_grid)
    as ([_ Hnone] & _).
  destruct (clear_area_bounds empty_grid 3 2 0 100 (py "w") 0 wf_empty_grid)
    as (_ & _ & Hnoop).
  destruct (clear_area_bounds empty_grid (-1) 0 (-2) 1 (py "w") 0 wf_empty_grid)
    as (_ & Hsome & _).
  split; [apply Hnone; unfold CDU_ROWS, CDU_COLUMNS; lia|].
  split; [apply Hnoop; lia|].
  destruct (clear_area_with_spaces empty_grid (-1) 0 (-2) 1 (py "w") 0) as [g'|] eqn:E;
    [|vm_compute in E; discriminate].
  exists g'. split; [reflexivity|].
  destruct (Hsome g' eq_refl) as [_ Hcell].
  rewrite !Hcell by (unfold CDU_ROWS, CDU_COLUMNS; lia).
  repeat split.
Defined.

(** ** Centred text *)

(** X2. [put_text_center] on a display grid never raises.  It shows the
    first 24 characters of the text, starting at column
    [(24 - n) // 2] for [n] characters shown: the whole of what is shown
    fits in the row, the margin on the right is the margin on the left
    or one more, each character shown lands in its cell, and every other
    cell is unchanged; on a row outside the grid nothing is written. *)
Theorem put_text_center_centred (g : list (list (list atom))) (text : list N)
    (row : Z) (colour : list N) (size : Z) :
  wf_grid g →
  let shown := take 24 text in
  let n := Z.of_nat (length shown) in
  let col := (CDU_COLUMNS - n) `div` 2 in
  ∃ g', put_text_center g text row colour size = Some g' ∧ wf_grid g' ∧
        0 ≤ col ∧ col + n ≤ CDU_COLUMNS ∧
        0 ≤ (CDU_COLUMNS - (col + n)) - col ≤ 1 ∧
        (¬ 0 ≤ row < CDU_ROWS → g' = g) ∧
        (0 ≤ row < CDU_ROWS →
         ∀ (i : nat) ch, shown !! i = Some ch →
           cell_at g' row (col + Z.of_nat i)
           = Some [AStr (glyph ch); AStr colour; AInt size]) ∧
        (∀ r c, ¬ (0 ≤ row < CDU_ROWS ∧ r = row ∧ col ≤ c < col + n) →
                cell_at g' r c = cell_at g r c).
Proof.
  intros Hwf shown n col. unfold put_text_center.
  rewrite py_slice_0 by (unfold CDU_COLUMNS; lia).
  change (take (Z.to_nat CDU_COLUMNS) text) with shown. fold n. fold col.
  assert (Hn : 0 ≤ n ≤ 24).
  { unfold n, shown. rewrite length_take. lia. }
  assert (Hcol : 0 ≤ col ∧ col + n ≤ CDU_COLUMNS ∧ 0 ≤ (CDU_COLUMNS - (col + n)) - col ≤ 1).
  { unfold col, CDU_COLUMNS.
    pose proof (Z.div_mod (24 - n) 2 ltac:(lia)) as Hdm.
    pose proof (Z.mod_pos_bound (24 - n) 2 ltac:(lia)) as Hmod. lia. }
  destruct (put_text_spec g shown row col colour size Hwf) as (g' & Hrun & Hwf' & Hcell).
  exists g'. split; [exact Hrun|]. split; [exact Hwf'|].
  split; [lia|]. split; [lia|]. split; [lia|]. split; [|split].
  - intros Hrow. unfold put_text in Hrun.
    rewrite bool_decide_eq_false_2 in Hrun by exact Hrow.
    cbn in Hrun. congruence.
  - intros Hrow i ch Hi. rewrite Hcell.
    assert (Hlt : (i < length shown)%nat) by (apply lookup_lt_Some in Hi; exact Hi).
    rewrite decide_True by (unfold CDU_COLUMNS in *; lia).
    replace (Z.to_nat (col + Z.of_nat i - col)) with i by lia.
    rewrite Hi. reflexivity.
  - intros r c Hn'. rewrite Hcell.
    destruct (decide (0 ≤ row < CDU_ROWS ∧ r = row ∧ 0 ≤ c < CDU_COLUMNS ∧ col ≤ c))
      as [(Hr & -> & Hc & Hle)|]; [|reflexivity].
    rewrite lookup_ge_None_2; [reflexivity|]. fold n in Hn'. lia.
Qed.

Lemma put_text_center_centred_witness :
  ∃ g', put_text_center empty_grid (py "AUTOPILOT") 8 (py "a") LARGE = Some g' ∧
        cell_at g' 8 7 = Some [AStr (py "A"); AStr (py "a"); AInt LARGE] ∧
        cell_at g' 8 15 = Some [AStr (py "T"); AStr (py "a"); AInt LARGE] ∧
        cell_at g' 8 6 = Some [] ∧ cell_at g' 8 16 = Some [].
Proof.
  destruct (put_text_center_centred empty_grid (py "AUTOPILOT") 8 (py "a") LARGE
              wf_empty_grid) as (g' & Hrun & _ & _ & _ & _ & _ & Hhit & Hmiss).
  exists g'. split; [exact Hrun|].
  assert (Hrow : 0 ≤ 8 < CDU_ROWS) by (unfold CDU_ROWS; lia).
  split; [exact (Hhit Hrow 0%nat _ eq_refl)|].
  split; [exact (Hhit Hrow 8%nat _ eq_refl)|].
  split; (rewrite Hmiss; [reflexivity|apply (bool_decide_unpack _); vm_compute; exact I]).
Defined.

(** ** The substituted characters *)

(** X3. The substitution [REPLACED.get(ch, ch)] of [put_text] turns
    every character into exactly one character, on which it has no
    further effect; and it changes six characters only: the underscore,
    the ampersand, the no-break space, the two braces and the vertical
    bar (the arrows and the degree sign are mapped to themselves). *)
Theorem glyph_single_and_stable (ch : N) :
  ∃ ch', glyph ch = [ch'] ∧ glyph ch' = [ch'] ∧
         (ch ∉ [95; 38; 0xa0; 123; 125; 124]%N → ch' = ch) ∧
         (ch ∈ [95; 38; 0xa0; 123; 125; 124]%N → ch' ≠ ch).
Proof.
  destruct (decide (ch ∈ [0x2190; 0x2192; 0x2191; 0x2193; 95; 0xb0; 38; 0xa0;
                          123; 125; 124]%N)) as [Hin|Hnotin].
  - repeat (apply elem_of_cons in Hin as [->|Hin];
            [eexists; split; [reflexivity|]; split; [reflexivity|];
             split; [intros H; try reflexivity; exfalso; apply H;
                     apply (bool_decide_unpack _); vm_compute; exact I
                    |intros H; try discriminate; exfalso; revert H;
                     apply (bool_decide_unpack _); vm_compute; exact I]|]).
    inversion Hin.
  - assert (Hnone : REPLACED !! ch = None).
    { apply not_elem_of_list_to_map_1. exact Hnotin. }
    exists ch. unfold glyph. rewrite Hnone. cbn [default].
    split; [reflexivity|]. split; [reflexivity|]. split; [reflexivity|].
    intros Hin. exfalso. apply Hnotin.
    revert Hin. rewrite !elem_of_cons. tauto.
Qed.

Lemma glyph_single_and_stable_witness :
  glyph 65%N = [65%N] ∧ glyph 95%N ≠ [95%N].
Proof.
  split.
  - destruct (glyph_single_and_stable 65) as (ch & Hg & _ & Hsame & _).
    rewrite Hg, Hsame; [reflexivity|].
    apply (bool_decide_unpack _). vm_compute. exact I.
  - destruct (glyph_single_and_stable 95) as (ch & Hg & _ & _ & Hother).
    rewrite Hg. intros [= Heq]. apply Hother; [|exact Heq].
    apply (bool_decide_unpack _). vm_compute. exact I.
Defined.

(** ** Writes that follow one another *)

(** X4. Of two [put_text] calls at the same position the later one
    wins when its text is at least as long: the result is that of the
    later call alone, whatever the colours and sizes.  And two calls on
    different rows give the same grid in either order. *)
Theorem put_text_last_write_wins (g : list (list (list atom))) (t1 t2 : list N)
    (row row2 col col2 : Z) (colour1 colour2 : list N) (size1 size2 : Z) :
  wf_grid g →
  ((length t1 ≤ length t2)%nat →
   (g1 ← put_text g t1 row col colour1 size1; put_text g1 t2 row col colour2 size2)
   = put_text g t2 row col colour2 size2) ∧
  (row ≠ row2 →
   (g1 ← put_text g t1 row col colour1 size1; put_text g1 t2 row2 col2 colour2 size2)
   = (g2 ← put_text g t2 row2 col2 colour2 size2; put_text g2 t1 row col colour1 size1)).
Proof.
  intros Hwf.
  destruct (put_text_spec g t1 row col colour1 size1 Hwf) as (g1 & H1 & Hwf1 & Hc1).
  rewrite H1. cbn [mbind option_bind]. split.
  - intros Hlen.
    destruct (put_text_spec g1 t2 row col colour2 size2 Hwf1) as (g12 & H12 & Hwf12 & Hc12).
    destruct (put_text_spec g t2 row col colour2 size2 Hwf) as (g2 & H2 & Hwf2 & Hc2).
    rewrite H12, H2. f_equal. apply wf_grid_ext; [assumption..|].
    intros r c _ _. rewrite Hc12, Hc2, Hc1.
    destruct (decide (0 ≤ row < CDU_ROWS ∧ r = row ∧ 0 ≤ c < CDU_COLUMNS ∧ col ≤ c));
      [|reflexivity].
    destruct (t2 !! Z.to_nat (c - col)) eqn:Ht2; [reflexivity|].
    apply lookup_ge_None_1 in Ht2.
    rewrite (lookup_ge_None_2 t1) by lia. reflexivity.
  - intros Hne.
    destruct (put_text_spec g1 t2 row2 col2 colour2 size2 Hwf1) as (g12 & H12 & Hwf12 & Hc12).
    destruct (put_text_spec g t2 row2 col2 colour2 size2 Hwf) as (g2 & H2 & Hwf2 & Hc2).
    destruct (put_text_spec g2 t1 row col colour1 size1 Hwf2) as (g21 & H21 & Hwf21 & Hc21).
    rewrite H12, H2. cbn [mbind option_bind]. rewrite H21.
    f_equal. apply wf_grid_ext; [assumption..|].
    intros r c _ _. rewrite Hc12, Hc21, Hc1, Hc2.
    destruct (decide (0 ≤ row2 < CDU_ROWS ∧ r = row2 ∧ 0 ≤ c < CDU_COLUMNS ∧ col2 ≤ c))
      as [(_ & -> & _)|]; [|reflexivity].
    rewrite decide_False by (intros (_ & ? & _); congruence). reflexivity.
Qed.

Lemma put_text_last_write_wins_witness :
  (g1 ← put_text empty_grid (py "ENG") 3 0 (py "a") LARGE;
   put_text g1 (py "FADEC") 3 0 (py "g") SMALL)
  = put_text empty_grid (py "FADEC") 3 0 (py "g") SMALL.
Proof.
  apply (put_text_last_write_wins empty_grid (py "ENG") (py "FADEC") 3 3 0 0
           (py "a") (py "g") LARGE SMALL wf_empty_grid).
  cbn. lia.
Defined.

(** ** Redrawing the columns *)

Lemma py_slice_length {A} (l : list A) a b :
  (0 ≤ a → 0 ≤ b) → (length (py_slice l a b) ≤ Z.to_nat (b - a))%nat.
Proof.
  intros Hab. unfold py_slice, py_clamp. rewrite length_take, length_drop.
  repeat case_bool_decide; lia.
Qed.

Lemma visible_length (labels : list (list N)) (cdsPage : Z) :
  (length (visible labels cdsPage) ≤ 6)%nat.
Proof.
  unfold visible, page_size.
  pose proof (py_slice_length labels (cdsPage * 6) (cdsPage * 6 + 6) ltac:(lia)). lia.
Qed.

Lemma field_char_truncated (labels : list (list N)) (width r off : Z) :
  0 ≤ width →
  field_char (py_slice (take (Z.to_nat width) <$> take 13 labels) 0 MAX_ROWS) width r off
  = field_char (py_slice labels 0 MAX_ROWS) width r off.
Proof.
  intros Hw. rewrite !py_slice_0 by (unfold MAX_ROWS, CONTENT_LAST_ROW, CDU_ROWS, CONTENT_FIRST_ROW; lia).
  change (Z.to_nat MAX_ROWS) with 13%nat.
  rewrite <- fmap_take, take_take, Nat.min_id.
  unfold field_char. case_bool_decide; [|reflexivity].
  rewrite list_lookup_fmap.
  destruct (take 13 labels !! Z.to_nat r) as [lbl|]; [|reflexivity].
  cbn [fmap option_fmap option_map mbind option_bind].
  rewrite !py_slice_0 by lia. rewrite take_take, Nat.min_id. reflexivity.
Qed.

(** X5. [draw_columns] redraws the content rows from nothing: on any
    two display grids it gives the same rows 0 to 12, so nothing of an
    earlier drawing shows through; the last row is left as it was;
    column 12, between the two fields, is always a white space; and only
    the first 13 labels of each list and the first 12 characters of a
    left label, 11 of a right label, are used. *)
Theorem draw_columns_redraws (g g' : list (list (list atom)))
    (left_labels right_labels : list (list N)) :
  wf_grid g → wf_grid g' →
  ∃ h h', draw_columns g left_labels right_labels = Some h ∧
          draw_columns g' left_labels right_labels = Some h' ∧
          wf_grid h ∧
          (∀ r c, 0 ≤ r ≤ 12 → cell_at h r c = cell_at h' r c) ∧
          (∀ c, cell_at h 13 c = cell_at g 13 c) ∧
          (∀ r, 0 ≤ r ≤ 12 →
                cell_at h r 12 = Some [AStr (py " "); AStr (py "w"); AInt 0]) ∧
          draw_columns g (take 12 <$> take 13 left_labels)
            (take 11 <$> take 13 right_labels) = Some h.
Proof.
  intros Hwf Hwf'.
  destruct (draw_columns_spec g left_labels right_labels Hwf) as (h & Hrun & Hwfh & Hcell).
  destruct (draw_columns_spec g' left_labels right_labels Hwf') as (h' & Hrun' & Hwfh' & Hcell').
  exists h, h'. split; [exact Hrun|]. split; [exact Hrun'|]. split; [exact Hwfh|].
  split; [|split; [|split]].
  - intros r c Hr. destruct (decide (0 ≤ c < CDU_COLUMNS)) as [Hc|Hc].
    + rewrite Hcell, Hcell' by exact Hc.
      rewrite !decide_True by (unfold CONTENT_LAST_ROW, CDU_ROWS; lia). reflexivity.
    + rewrite !cell_at_outside by tauto. reflexivity.
  - intros c. destruct (decide (0 ≤ c < CDU_COLUMNS)) as [Hc|Hc].
    + rewrite Hcell by exact Hc.
      rewrite decide_False by (unfold CONTENT_LAST_ROW, CDU_ROWS; lia). reflexivity.
    + rewrite !cell_at_outside by tauto. reflexivity.
  - intros r Hr. rewrite Hcell by (unfold CDU_COLUMNS; lia).
    rewrite decide_True by (unfold CONTENT_LAST_ROW, CDU_ROWS; lia).
    unfold field_char, RIGHT_COL_START, LEFT_COL_START.
    rewrite (bool_decide_eq_false_2 (0 ≤ r ∧ 0 ≤ 12 - 13)) by lia.
    rewrite bool_decide_eq_true_2 by lia.
    destruct (py_slice left_labels 0 MAX_ROWS !! Z.to_nat r) as [lbl|]; [|reflexivity].
    cbn [mbind option_bind].
    rewrite lookup_ge_None_2; [reflexivity|].
    unfold ljust. rewrite length_app, length_replicate.
    pose proof (py_slice_length lbl 0 12 ltac:(lia)). lia.
  - destruct (draw_columns_spec g (take 12 <$> take 13 left_labels)
                (take 11 <$> take 13 right_labels) Hwf) as (h2 & Hrun2 & Hwfh2 & Hcell2).
    rewrite Hrun2. f_equal. apply wf_grid_ext; [assumption..|].
    intros r c _ Hc. rewrite Hcell, Hcell2 by exact Hc.
    rewrite (field_char_truncated left_labels 12), (field_char_truncated right_labels 11)
      by lia.
    reflexivity.
Qed.

Lemma draw_columns_redraws_witness :
  ∃ h, draw_columns empty_grid [py "ENG OIL PRESSURE"] [] = Some h ∧
       draw_columns empty_grid [py "ENG OIL PRES"] [] = Some h ∧
       cell_at h 0 12 = Some [AStr (py " "); AStr (py "w"); AInt 0] ∧
       cell_at h 13 0 = Some [].
Proof.
  destruct (draw_columns_redraws empty_grid empty_grid [py "ENG OIL PRESSURE"] []
              wf_empty_grid wf_empty_grid)
    as (h & h' & Hrun & _ & _ & _ & Hlast & Hsep & Htrunc).
  exists h. split; [exact Hrun|]. split; [exact Htrunc|].
  split; [apply Hsep; lia|]. rewrite Hlast. reflexivity.
Defined.

(** ** The grid of the loop body, cell by cell *)

Lemma put_text_center_spec g text row colour size :
  wf_grid g →
  ∃ g', put_text_center g text row colour size = Some g' ∧ wf_grid g' ∧
        ∀ r c, cell_at g' r c =
               match (if decide (0 ≤ row < CDU_ROWS ∧ r = row ∧ 0 ≤ c < CDU_COLUMNS)
                      then centred_char text c else None) with
               | Some ch => Some (written ch colour size)
               | None => cell_at g r c
               end.
Proof.
  intros Hwf. unfold put_text_center.
  destruct (put_text_spec g (py_slice text 0 CDU_COLUMNS) row
              ((CDU_COLUMNS - Z.of_nat (length (py_slice text 0 CDU_COLUMNS))) `div` 2)
              colour size Hwf) as (g' & Hrun & Hwf' & Hcell).
  exists g'. split; [exact Hrun|]. split; [exact Hwf'|].
  intros r c. rewrite Hcell. unfold centred_char.
  destruct (decide (0 ≤ row < CDU_ROWS ∧ r = row ∧ 0 ≤ c < CDU_COLUMNS)) as [H|H].
  - case_bool_decide.
    + rewrite decide_True by tauto. reflexivity.
    + rewrite decide_False by tauto. reflexivity.
  - rewrite decide_False by tauto. reflexivity.
Qed.

Lemma put_text_if_spec (b : bool) g text row col colour size :
  wf_grid g →
  ∃ g', (if b then put_text g text row col colour size else Some g) = Some g' ∧
        wf_grid g' ∧
        ∀ r c, cell_at g' r c =
               match (if b && bool_decide (0 ≤ row < CDU_ROWS ∧ r = row ∧
                                           0 ≤ c < CDU_COLUMNS ∧ col ≤ c)
                      then text !! Z.to_nat (c - col) else None) with
               | Some ch => Some (written ch colour size)
               | None => cell_at g r c
               end.
Proof.
  intros Hwf. destruct b.
  - destruct (put_text_spec g text row col colour size Hwf) as (g' & Hrun & Hwf' & Hcell).
    exists g'. split; [exact Hrun|]. split; [exact Hwf'|].
    intros r c. rewrite Hcell. cbn [andb].
    destruct (decide (0 ≤ row < CDU_ROWS ∧ r = row ∧ 0 ≤ c < CDU_COLUMNS ∧ col ≤ c)).
    + rewrite bool_decide_eq_true_2 by assumption. reflexivity.
    + rewrite bool_decide_eq_false_2 by assumption. reflexivity.
  - exists g. split; [reflexivity|]. split; [exact Hwf|]. reflexivity.
Qed.

(** The loop over the rows of the miscellaneous block, for rows that
    follow one another. *)
Lemma draw_misc_cells (k : nat) : ∀ g vis i row0,
  wf_grid g → 0 ≤ i → 0 ≤ row0 → row0 + Z.of_nat k ≤ CDU_ROWS →
  ∃ g', draw_misc g vis i (seqZ row0 (Z.of_nat k)) = Some g' ∧ wf_grid g' ∧
        ∀ r c, cell_at g' r c =
               match (if decide (row0 ≤ r < row0 + Z.of_nat k ∧ 0 ≤ c < CDU_COLUMNS)
                      then vis !! Z.to_nat (i + (r - row0)) ≫= (λ lbl, centred_char lbl c)
                      else None) with
               | Some ch => Some (written ch (py "a") LARGE)
               | None => cell_at g r c
               end.
Proof.
  induction k as [|k IH]; intros g vis i row0 Hwf Hi Hrow0 Hlast.
  - exists g. split; [reflexivity|]. split; [exact Hwf|].
    intros r c. rewrite decide_False by lia. reflexivity.
  - rewrite seqZ_cons by lia. cbn [draw_misc].
    replace (Z.pred (Z.of_nat (S k))) with (Z.of_nat k) by lia.
    assert (Hstep : ∃ g1,
              (if bool_decide (i < Z.of_nat (length vis))
               then lbl ← py_getitem vis i; put_text_center g lbl row0 (py "a") LARGE
               else Some g) = Some g1 ∧ wf_grid g1 ∧
              ∀ r c, cell_at g1 r c =
                     match (if decide (r = row0 ∧ 0 ≤ c < CDU_COLUMNS)
                            then vis !! Z.to_nat i ≫= (λ lbl, centred_char lbl c)
                            else None) with
                     | Some ch => Some (written ch (py "a") LARGE)
                     | None => cell_at g r c
                     end).
    { destruct (bool_decide_reflect (i < Z.of_nat (length vis))) as [Hlt|Hge].
      - destruct (lookup_lt_is_Some_2 vis (Z.to_nat i)) as [lbl Hlbl]; [lia|].
        unfold py_getitem, py_index.
        rewrite bool_decide_eq_true_2 by lia. cbn [mbind option_bind].
        rewrite Hlbl. cbn [mbind option_bind].
        destruct (put_text_center_spec g lbl row0 (py "a") LARGE Hwf)
          as (g1 & Hput & Hwf1 & Hcell1).
        exists g1. split; [exact Hput|]. split; [exact Hwf1|].
        intros r c. rewrite Hcell1.
        destruct (decide (r = row0 ∧ 0 ≤ c < CDU_COLUMNS)).
        + rewrite decide_True by lia. reflexivity.
        + rewrite decide_False by tauto. reflexivity.
      - exists g. split; [reflexivity|]. split; [exact Hwf|].
        intros r c. rewrite (lookup_ge_None_2 vis) by lia.
        case_decide; reflexivity. }
    destruct Hstep as (g1 & Hstep & Hwf1 & Hcell1). rewrite Hstep.
    cbn [mbind option_bind].
    destruct (IH g1 vis (i + 1) (Z.succ row0) Hwf1) as (g' & Hrun & Hwf' & Hcell'); [lia..|].
    exists g'. split; [exact Hrun|]. split; [exact Hwf'|].
    intros r c. rewrite Hcell', Hcell1.
    destruct (decide (Z.succ row0 ≤ r < Z.succ row0 + Z.of_nat k ∧ 0 ≤ c < CDU_COLUMNS))
      as [Hin|Hout].
    + rewrite (decide_True (P := row0 ≤ r < row0 + Z.of_nat (S k) ∧ 0 ≤ c < CDU_COLUMNS))
        by lia.
      replace (Z.to_nat (i + 1 + (r - Z.succ row0))) with (Z.to_nat (i + (r - row0))) by lia.
      destruct (vis !! Z.to_nat (i + (r - row0)) ≫= _); [reflexivity|].
      rewrite decide_False by lia. reflexivity.
    + destruct (decide (r = row0 ∧ 0 ≤ c < CDU_COLUMNS)) as [[-> Hc]|Hn].
      * rewrite decide_True by lia.
        replace (Z.to_nat (i + (row0 - row0))) with (Z.to_nat i) by lia. reflexivity.
      * rewrite decide_False by lia. reflexivity.
Qed.

Lemma field_char_short (labels : list (list N)) (width r off : Z) :
  (length labels ≤ 6)%nat →
  field_char (py_slice labels 0 MAX_ROWS) width r off =
  if decide (r ≤ 5) then field_char labels width r off else None.
Proof.
  intros Hlen.
  rewrite py_slice_0 by (unfold MAX_ROWS, CONTENT_LAST_ROW, CDU_ROWS, CONTENT_FIRST_ROW; lia).
  rewrite take_ge by (change (Z.to_nat MAX_ROWS) with 13%nat; lia).
  case_decide; [reflexivity|].
  unfold field_char. case_bool_decide; [|reflexivity].
  rewrite lookup_ge_None_2 by lia. reflexivity.
Qed.

(** What the drawing statements of the loop body leave in each cell of
    the grid they build. *)
Lemma render_tick_cells (val : list N → Z) :
  ∃ g, render_tick val = Some g ∧ wf_grid g ∧
       ∀ r c, 0 ≤ r < CDU_ROWS → 0 ≤ c < CDU_COLUMNS →
         cell_at g r c =
         if decide (r ≤ 5) then
           match field_char (visible (compact_labels (right_pairs val))
                               (val (py "(L:cdsPage)"))) 11 r (c - 13) with
           | Some ch => Some (written ch (py "a") LARGE)
           | None =>
               match field_char (visible (compact_labels (left_pairs val))
                                   (val (py "(L:cdsPage)"))) 12 r c with
               | Some ch => Some (written ch (py "a") LARGE)
               | None => Some (space_cell (py "w") 0)
               end
           end
         else if decide (r = 6) then
           match centred_char (py "MISC") c with
           | Some ch => Some (written ch (py "k") LARGE)
           | None => Some (space_cell (py "w") 0)
           end
         else if decide (r ≤ 12) then
           match visible (compact_labels (misc_pairs val)) (val (py "(L:cdsPage)"))
                   !! Z.to_nat (r - 7) ≫= (λ lbl, centred_char lbl c) with
           | Some ch => Some (written ch (py "a") LARGE)
           | None => Some (space_cell (py "w") 0)
           end
         else
           match (if bool_decide (val (py "(L:pitotCoPilot)") = 1) && bool_decide (13 ≤ c)
                  then py "P/S-HTR-C" !! Z.to_nat (c - 13) else None) with
           | Some ch => Some (written ch (py "g") LARGE)
           | None =>
               match (if bool_decide (val (py "(L:pitotPilot)") = 1)
                      then py "P/S-HTR-P" !! Z.to_nat c else None) with
               | Some ch => Some (written ch (py "g") LARGE)
               | None => if decide (c = 12) then Some [] else Some (space_cell (py "w") 0)
               end
           end.
Proof.
  unfold render_tick.
  set (vl := visible (compact_labels (left_pairs val)) (val (py "(L:cdsPage)"))).
  set (vr := visible (compact_labels (right_pairs val)) (val (py "(L:cdsPage)"))).
  set (vm := visible (compact_labels (misc_pairs val)) (val (py "(L:cdsPage)"))).
  assert (Hvl : (length vl ≤ 6)%nat) by apply visible_length.
  assert (Hvr : (length vr ≤ 6)%nat) by apply visible_length.
  clearbody vl vr vm.
  destruct (draw_columns_spec empty_grid vl vr wf_empty_grid) as (g1 & H1 & Hwf1 & Hc1).
  rewrite H1. cbn [mbind option_bind].
  destruct (put_text_center_spec g1 (py "MISC") 6 (py "k") LARGE Hwf1)
    as (g2 & H2 & Hwf2 & Hc2).
  rewrite H2. cbn [mbind option_bind].
  destruct (clear_area_spec g2 7 12 0 CDU_COLUMNS (py "w") 0 Hwf2)
    as (g3 & H3 & Hwf3 & Hc3); [unfold CDU_ROWS; lia..|].
  rewrite H3. cbn [mbind option_bind].
  change misc_rows with (seqZ 7 (Z.of_nat 6)).
  destruct (draw_misc_cells 6 g3 vm 0 7 Hwf3) as (g4 & H4 & Hwf4 & Hc4);
    [unfold CDU_ROWS; lia..|].
  rewrite H4. cbn [mbind option_bind].
  destruct (clear_area_spec g4 13 13 0 12 (py "w") 0 Hwf4)
    as (g5 & H5 & Hwf5 & Hc5); [unfold CDU_ROWS, CDU_COLUMNS; lia..|].
  rewrite H5. cbn [mbind option_bind].
  destruct (clear_area_spec g5 13 13 13 24 (py "w") 0 Hwf5)
    as (g6 & H6 & Hwf6 & Hc6); [unfold CDU_ROWS, CDU_COLUMNS; lia..|].
  rewrite H6. cbn [mbind option_bind].
  destruct (put_text_if_spec (bool_decide (val (py "(L:pitotPilot)") = 1)) g6
              (py "P/S-HTR-P") 13 0 (py "g") LARGE Hwf6) as (g7 & H7 & Hwf7 & Hc7).
  rewrite H7. cbn [mbind option_bind].
  destruct (put_text_if_spec (bool_decide (val (py "(L:pitotCoPilot)") = 1)) g7
              (py "P/S-HTR-C") 13 13 (py "g") LARGE Hwf7) as (g8 & H8 & Hwf8 & Hc8).
  exists g8. split; [exact H8|]. split; [exact Hwf8|].
  intros r c Hr Hc.
  rewrite Hc8, Hc7, Hc6, Hc5, Hc4, Hc3, Hc2, Hc1 by exact Hc.
  rewrite (field_char_short vl), (field_char_short vr) by assumption.
  unfold LEFT_COL_START, RIGHT_COL_START, CONTENT_LAST_ROW.
  rewrite !Z.sub_0_r, !Z.add_0_l.
  unfold CDU_ROWS, CDU_COLUMNS in *.
  destruct (decide (r ≤ 5)) as [Hr5|Hr5].
  - rewrite (bool_decide_eq_false_2 (0 ≤ 13 < 14 ∧ r = 13 ∧ 0 ≤ c < 24 ∧ 13 ≤ c)) by lia.
    rewrite (bool_decide_eq_false_2 (0 ≤ 13 < 14 ∧ r = 13 ∧ 0 ≤ c < 24 ∧ 0 ≤ c)) by lia.
    rewrite !andb_false_r.
    rewrite (decide_False (P := 13 ≤ r ≤ 13 ∧ 13 ≤ c < 24)) by lia.
    rewrite (decide_False (P := 13 ≤ r ≤ 13 ∧ 0 ≤ c < 12)) by lia.
    rewrite (decide_False (P := 7 ≤ r < 7 + Z.of_nat 6 ∧ 0 ≤ c < 24)) by lia.
    rewrite (decide_False (P := 7 ≤ r ≤ 12 ∧ 0 ≤ c < 24)) by lia.
    rewrite (decide_False (P := 0 ≤ 6 < 14 ∧ r = 6 ∧ 0 ≤ c < 24)) by lia.
    rewrite (decide_True (P := 0 ≤ r ≤ 14 - 2)) by lia.
    reflexivity.
  - destruct (decide (r = 6)) as [->|Hr6].
    + rewrite (bool_decide_eq_false_2 (0 ≤ 13 < 14 ∧ 6 = 13 ∧ 0 ≤ c < 24 ∧ 13 ≤ c)) by lia.
      rewrite (bool_decide_eq_false_2 (0 ≤ 13 < 14 ∧ 6 = 13 ∧ 0 ≤ c < 24 ∧ 0 ≤ c)) by lia.
      rewrite !andb_false_r.
      rewrite (decide_False (P := 13 ≤ 6 ≤ 13 ∧ 13 ≤ c < 24)) by lia.
      rewrite (decide_False (P := 13 ≤ 6 ≤ 13 ∧ 0 ≤ c < 12)) by lia.
      rewrite (decide_False (P := 7 ≤ 6 < 7 + Z.of_nat 6 ∧ 0 ≤ c < 24)) by lia.
      rewrite (decide_False (P := 7 ≤ 6 ≤ 12 ∧ 0 ≤ c < 24)) by lia.
      rewrite (decide_True (P := 0 ≤ 6 < 14 ∧ 6 = 6 ∧ 0 ≤ c < 24)) by lia.
      rewrite (decide_True (P := 0 ≤ 6 ≤ 14 - 2)) by lia.
      reflexivity.
    + destruct (decide (r ≤ 12)) as [Hr12|Hr12].
      * rewrite (bool_decide_eq_false_2 (0 ≤ 13 < 14 ∧ r = 13 ∧ 0 ≤ c < 24 ∧ 13 ≤ c)) by lia.
        rewrite (bool_decide_eq_false_2 (0 ≤ 13 < 14 ∧ r = 13 ∧ 0 ≤ c < 24 ∧ 0 ≤ c)) by lia.
        rewrite !andb_false_r.
        rewrite (decide_False (P := 13 ≤ r ≤ 13 ∧ 13 ≤ c < 24)) by lia.
        rewrite (decide_False (P := 13 ≤ r ≤ 13 ∧ 0 ≤ c < 12)) by lia.
        rewrite (decide_True (P := 7 ≤ r < 7 + Z.of_nat 6 ∧ 0 ≤ c < 24)) by lia.
        rewrite (decide_True (P := 7 ≤ r ≤ 12 ∧ 0 ≤ c < 24)) by lia.
        reflexivity.
      * assert (r = 13) as -> by lia.
        rewrite (decide_False (P := 7 ≤ 13 < 7 + Z.of_nat 6 ∧ 0 ≤ c < 24)) by lia.
        rewrite (decide_False (P := 7 ≤ 13 ≤ 12 ∧ 0 ≤ c < 24)) by lia.
        rewrite (decide_False (P := 0 ≤ 6 < 14 ∧ 13 = 6 ∧ 0 ≤ c < 24)) by lia.
        rewrite (decide_False (P := 0 ≤ 13 ≤ 14 - 2)) by lia.
        rewrite cell_at_empty_grid by (unfold CDU_ROWS, CDU_COLUMNS; lia).
        destruct (bool_decide (val (py "(L:pitotCoPilot)") = 1));
          destruct (bool_decide (val (py "(L:pitotPilot)") = 1)); cbn [andb];
          repeat case_bool_decide; repeat case_decide; try lia; try reflexivity.
Qed.

Lemma glyph_single ch : ∃ ch', glyph ch = [ch'].
Proof.
  unfold glyph. destruct (REPLACED !! ch) as [s|] eqn:Hs; [|eexists; reflexivity].
  apply elem_of_list_to_map_2 in Hs. cbn [default].
  repeat (apply elem_of_cons in Hs as [[= _ ->]|Hs]; [eexists; reflexivity|]).
  inversion Hs.
Qed.

(** X6. The drawing statements of the loop body (lines 421 to 519)
    build a display grid whatever the readings they are given: nothing
    is raised.  Each cell of it but one holds one
    character, a colour among [a], [w], [k], [g] and the size 0; the
    cell of row 13, column 12 lies between the two areas that are
    cleared in the last row and is left as [empty_grid] made it, an
    empty list. *)
Theorem render_tick_fills_grid (val : list N → Z) :
  ∃ g, render_tick val = Some g ∧ wf_grid g ∧
       cell_at g 13 12 = Some [] ∧
       ∀ r c, 0 ≤ r < CDU_ROWS → 0 ≤ c < CDU_COLUMNS → ¬ (r = 13 ∧ c = 12) →
         ∃ ch colour,
           cell_at g r c = Some [AStr [ch]; AStr colour; AInt 0] ∧
           colour ∈ [py "a"; py "w"; py "k"; py "g"].
Proof.
  destruct (render_tick_cells val) as (g & Hrun & Hwf & Hcell).
  exists g. split; [exact Hrun|]. split; [exact Hwf|].
  assert (Hw : ∀ ch colour, colour ∈ [py "a"; py "w"; py "k"; py "g"] →
               ∃ ch' colour', Some (written ch colour LARGE)
                              = Some [AStr [ch']; AStr colour'; AInt 0] ∧
                              colour' ∈ [py "a"; py "w"; py "k"; py "g"]).
  { intros ch colour Hin. destruct (glyph_single ch) as [ch' Hg].
    exists ch', colour. unfold written. rewrite Hg. split; [reflexivity|exact Hin]. }
  assert (Hs : ∃ ch' colour', Some (space_cell (py "w") 0)
                              = Some [AStr [ch']; AStr colour'; AInt 0] ∧
                              colour' ∈ [py "a"; py "w"; py "k"; py "g"]).
  { exists 32%N, (py "w"). split; [reflexivity|].
    apply (bool_decide_unpack _). vm_compute. exact I. }
  assert (Ha : py "a" ∈ [py "a"; py "w"; py "k"; py "g"])
    by (apply (bool_decide_unpack _); vm_compute; exact I).
  assert (Hk : py "k" ∈ [py "a"; py "w"; py "k"; py "g"])
    by (apply (bool_decide_unpack _); vm_compute; exact I).
  assert (Hg : py "g" ∈ [py "a"; py "w"; py "k"; py "g"])
    by (apply (bool_decide_unpack _); vm_compute; exact I).
  split.
  - rewrite Hcell by (unfold CDU_ROWS, CDU_COLUMNS; lia).
    destruct (bool_decide (val (py "(L:pitotCoPilot)") = 1));
      destruct (bool_decide (val (py "(L:pitotPilot)") = 1)); reflexivity.
  - intros r c Hr Hc Hne. rewrite Hcell by assumption.
    destruct (decide (r ≤ 5)) as [Hr5|Hr5];
      [|destruct (decide (r = 6)) as [Hr6|Hr6];
        [|destruct (decide (r ≤ 12)) as [Hr12|Hr12]]].
    + destruct (field_char _ 11 r (c - 13)); [by apply Hw|].
      destruct (field_char _ 12 r c); [by apply Hw|exact Hs].
    + destruct (centred_char _ c); [by apply Hw|exact Hs].
    + destruct (_ ≫= _); [by apply Hw|exact Hs].
    + rewrite (decide_False (P := c = 12)) by (unfold CDU_ROWS in Hr; lia).
      destruct (if _ && _ then _ else _); [by apply Hw|].
      destruct (if bool_decide _ then _ else _); [by apply Hw|exact Hs].
Qed.

Lemma render_tick_fills_grid_witness :
  ∃ g ch colour, render_tick (λ _, 0) = Some g ∧
                 cell_at g 0 0 = Some [AStr [ch]; AStr colour; AInt 0].
Proof.
  destruct (render_tick_fills_grid (λ _, 0)) as (g & Hrun & _ & _ & Hcell).
  destruct (Hcell 0 0) as (ch & colour & Hc & _);
    [unfold CDU_ROWS; lia|unfold CDU_COLUMNS; lia|lia|].
  exists g, ch, colour. split; assumption.
Defined.

(** X7. In the grid the drawing statements of the loop body build,
    whatever the readings, row 6 carries the title [MISC] in
    colour [k] over columns 10 to 13 between white spaces, and rows 7
    to 12 carry the visible miscellaneous labels, one per row from
    row 7 on, each centred as [put_text_center] centres it, in colour
    [a] between white spaces; a row without a label is blank.  At most
    six labels are visible. *)
Theorem render_tick_misc_block (val : list N → Z) :
  ∃ g, render_tick val = Some g ∧
       (length (visible (compact_labels (misc_pairs val)) (val (py "(L:cdsPage)"))) ≤ 6)%nat ∧
       (∀ c, 0 ≤ c < CDU_COLUMNS →
          cell_at g 6 c =
          if decide (10 ≤ c ≤ 13)
          then (λ ch, [AStr [ch]; AStr (py "k"); AInt LARGE]) <$> py "MISC" !! Z.to_nat (c - 10)
          else Some [AStr (py " "); AStr (py "w"); AInt 0]) ∧
       (∀ (i : nat) c, (i < 6)%nat → 0 ≤ c < CDU_COLUMNS →
          cell_at g (7 + Z.of_nat i) c =
          match visible (compact_labels (misc_pairs val)) (val (py "(L:cdsPage)")) !! i
                ≫= (λ lbl, centred_char lbl c) with
          | Some ch => Some [AStr (glyph ch); AStr (py "a"); AInt LARGE]
          | None => Some [AStr (py " "); AStr (py "w"); AInt 0]
          end).
Proof.
  destruct (render_tick_cells val) as (g & Hrun & Hwf & Hcell).
  exists g. split; [exact Hrun|]. split; [apply visible_length|]. split.
  - intros c Hc. rewrite Hcell by (unfold CDU_ROWS; lia).
    rewrite decide_False by lia. rewrite decide_True by lia.
    unfold CDU_COLUMNS in Hc.
    assert (Hcases : c < 10 ∨ c = 10 ∨ c = 11 ∨ c = 12 ∨ c = 13 ∨ 13 < c) by lia.
    destruct Hcases as [Hlo|[->|[->|[->|[->|Hhi]]]]]; try reflexivity.
    + rewrite decide_False by lia. unfold centred_char.
      change ((CDU_COLUMNS - Z.of_nat (length (py_slice (py "MISC") 0 CDU_COLUMNS))) `div` 2)
        with 10.
      rewrite bool_decide_eq_false_2 by lia. reflexivity.
    + rewrite decide_False by lia. unfold centred_char.
      change ((CDU_COLUMNS - Z.of_nat (length (py_slice (py "MISC") 0 CDU_COLUMNS))) `div` 2)
        with 10.
      rewrite bool_decide_eq_true_2 by lia.
      rewrite lookup_ge_None_2; [reflexivity|].
      change (length (py_slice (py "MISC") 0 CDU_COLUMNS)) with 4%nat. lia.
  - intros i c Hi Hc. rewrite Hcell by (unfold CDU_ROWS; lia).
    rewrite !decide_False by lia. rewrite decide_True by lia.
    replace (Z.to_nat (7 + Z.of_nat i - 7)) with i by lia. reflexivity.
Qed.

Lemma render_tick_misc_block_witness :
  ∃ g, render_tick (λ _, 1) = Some g ∧
       cell_at g 6 10 = Some [AStr (py "M"); AStr (py "k"); AInt LARGE] ∧
       cell_at g 7 7 = Some [AStr (py "E"); AStr (py "a"); AInt LARGE].
Proof.
  destruct (render_tick_misc_block (λ _, 1)) as (g & Hrun & _ & Htitle & Hrows).
  exists g. split; [exact Hrun|]. split.
  - rewrite Htitle by (unfold CDU_COLUMNS; lia). reflexivity.
  - change 7 with (7 + Z.of_nat 0) at 1.
    rewrite Hrows by (unfold CDU_COLUMNS; lia). vm_compute. reflexivity.
Defined.

(** X8. The last row of the grid the drawing statements of the loop
    body build, whatever the readings: columns 0 to 8 show
    [P/S-HTR-P] in green when the pilot's flag reads 1, columns 13 to 21
    show [P/S-HTR-C] in green when the copilot's reads 1; with any other
    reading (0, or the alternate state 2) the area is white spaces, as
    are columns 9 to 11 and 22, 23 in every case; column 12 is the empty
    cell. *)
Theorem render_tick_indicators (val : list N → Z) :
  ∃ g, render_tick val = Some g ∧
       (∀ c, 0 ≤ c < 12 →
          cell_at g 13 c =
          if decide (val (py "(L:pitotPilot)") = 1 ∧ c < 9)
          then (λ ch, [AStr [ch]; AStr (py "g"); AInt LARGE]) <$> py "P/S-HTR-P" !! Z.to_nat c
          else Some [AStr (py " "); AStr (py "w"); AInt 0]) ∧
       (∀ c, 13 ≤ c < 24 →
          cell_at g 13 c =
          if decide (val (py "(L:pitotCoPilot)") = 1 ∧ c < 22)
          then (λ ch, [AStr [ch]; AStr (py "g"); AInt LARGE])
                 <$> py "P/S-HTR-C" !! Z.to_nat (c - 13)
          else Some [AStr (py " "); AStr (py "w"); AInt 0]) ∧
       cell_at g 13 12 = Some [].
Proof.
  destruct (render_tick_cells val) as (g & Hrun & Hwf & Hcell).
  assert (H13 : ∀ c, 0 ≤ c < 24 →
            cell_at g 13 c =
            match (if bool_decide (val (py "(L:pitotCoPilot)") = 1) && bool_decide (13 ≤ c)
                   then py "P/S-HTR-C" !! Z.to_nat (c - 13) else None) with
            | Some ch => Some (written ch (py "g") LARGE)
            | None =>
                match (if bool_decide (val (py "(L:pitotPilot)") = 1)
                       then py "P/S-HTR-P" !! Z.to_nat c else None) with
                | Some ch => Some (written ch (py "g") LARGE)
                | None => if decide (c = 12) then Some [] else Some (space_cell (py "w") 0)
                end
            end).
  { intros c Hc. rewrite Hcell by (unfold CDU_ROWS, CDU_COLUMNS; lia). reflexivity. }
  clear Hcell.
  exists g. split; [exact Hrun|]. split; [|split].
  - intros c Hc. rewrite H13 by lia.
    rewrite (bool_decide_eq_false_2 (13 ≤ c)), andb_false_r by lia.
    destruct (bool_decide_reflect (val (py "(L:pitotPilot)") = 1)) as [Hp|Hp].
    + assert (Hcases : c = 0 ∨ c = 1 ∨ c = 2 ∨ c = 3 ∨ c = 4 ∨ c = 5 ∨ c = 6 ∨ c = 7 ∨
                       c = 8 ∨ c = 9 ∨ c = 10 ∨ c = 11) by lia.
      destruct Hcases as [->|[->|[->|[->|[->|[->|[->|[->|[->|[->|[->| ->]]]]]]]]]]];
        first [rewrite (decide_True (P := val (py "(L:pitotPilot)") = 1 ∧ _)) by lia
              |rewrite (decide_False (P := val (py "(L:pitotPilot)") = 1 ∧ _)) by lia];
        reflexivity.
    + rewrite (decide_False (P := val (py "(L:pitotPilot)") = 1 ∧ _)) by tauto.
      rewrite decide_False by lia. reflexivity.
  - intros c Hc. rewrite H13 by lia.
    rewrite (bool_decide_eq_true_2 (13 ≤ c)), andb_true_r by lia.
    assert (Hpilot : (if bool_decide (val (py "(L:pitotPilot)") = 1)
                      then py "P/S-HTR-P" !! Z.to_nat c else None) = None).
    { destruct (bool_decide (val (py "(L:pitotPilot)") = 1)); [|reflexivity].
      apply lookup_ge_None_2. change (length (py "P/S-HTR-P")) with 9%nat. lia. }
    rewrite Hpilot.
    destruct (bool_decide_reflect (val (py "(L:pitotCoPilot)") = 1)) as [Hp|Hp].
    + assert (Hcases : c = 13 ∨ c = 14 ∨ c = 15 ∨ c = 16 ∨ c = 17 ∨ c = 18 ∨ c = 19 ∨
                       c = 20 ∨ c = 21 ∨ c = 22 ∨ c = 23) by lia.
      destruct Hcases as [->|[->|[->|[->|[->|[->|[->|[->|[->|[->| ->]]]]]]]]]];
        first [rewrite (decide_True (P := val (py "(L:pitotCoPilot)") = 1 ∧ _)) by lia
              |rewrite (decide_False (P := val (py "(L:pitotCoPilot)") = 1 ∧ _)) by lia];
        reflexivity.
    + rewrite (decide_False (P := val (py "(L:pitotCoPilot)") = 1 ∧ _)) by tauto.
      rewrite decide_False by lia. reflexivity.
  - rewrite H13 by lia.
    destruct (bool_decide (val (py "(L:pitotCoPilot)") = 1));
      destruct (bool_decide (val (py "(L:pitotPilot)") = 1)); reflexivity.
Qed.

Lemma render_tick_indicators_witness :
  ∃ g, render_tick (λ _, 1) = Some g ∧
       cell_at g 13 0 = Some [AStr (py "P"); AStr (py "g"); AInt LARGE] ∧
       cell_at g 13 22 = Some [AStr (py " "); AStr (py "w"); AInt 0].
Proof.
  destruct (render_tick_indicators (λ _, 1)) as (g & Hrun & Hleft & Hright & _).
  exists g. split; [exact Hrun|]. split.
  - rewrite Hleft by lia. reflexivity.
  - rewrite Hright by lia. reflexivity.
Defined.

(** ** The grid with one active flag *)

Lemma compact_labels_none_active (pairs : list (Z * list N)) :
  Forall (λ p : Z * list N, p.1 ≠ 1) pairs → compact_labels pairs = [].
Proof.
  induction 1 as [|[v label] rest Hv _ IH]; [reflexivity|].
  rewrite compact_labels_cons, bool_decide_eq_false_2 by exact Hv. exact IH.
Qed.

(** C8. [draw_columns] first clears the content region (rows 0 to 12,
    all 24 columns) to white space cells and then writes the labels top
    down, each left-justified in a field of 12 characters at column 0,
    or of 11 characters at column 13 for the right column.  With page 0
    and [engine1Fail] the only active flag of the left column, the one
    visible left label is [ENG FAIL], and the grid the drawing
    statements of the loop body (lines 421 to 519) build has its
    glyphs in row 0, columns 0 to 7, spaces in the rest of the field
    (columns 8 to 11), all in colour [a] and size large, and a cleared
    cell (colour [w]) in column 12; rows 1 to 5 of the left column are
    cleared cells.  The rows below are not all blank: they are drawn
    over by the miscellaneous block, so that row 6 carries the title
    [MISC] in colour [k] in columns 10 to 13, of which 10 and 11 lie in
    the field of the left column, and rows 7 to 12 carry the visible
    miscellaneous labels, centred; these rows are blank when no
    miscellaneous flag is active. *)
Theorem render_tick_only_engine1Fail :
  (∀ (g : list (list (list atom))) (left_labels right_labels : list (list N)),
     wf_grid g →
     ∃ g', draw_columns g left_labels right_labels = Some g' ∧
           ∀ r c, 0 ≤ r ≤ 12 → 0 ≤ c < 24 →
             cell_at g' r c =
             match field_char (py_slice right_labels 0 MAX_ROWS) 11 r (c - 13) with
             | Some ch => Some [AStr (glyph ch); AStr (py "a"); AInt LARGE]
             | None =>
                 match field_char (py_slice left_labels 0 MAX_ROWS) 12 r c with
                 | Some ch => Some [AStr (glyph ch); AStr (py "a"); AInt LARGE]
                 | None => Some [AStr (py " "); AStr (py "w"); AInt 0]
                 end
             end) ∧
  (∀ val : list N → Z,
     val (py "(L:cdsPage)") = 0 → only_engine1Fail_active val →
     visible (compact_labels (left_pairs val)) 0 = [py "ENG FAIL"] ∧
     ∃ g1 g,
       draw_columns empty_grid [py "ENG FAIL"]
         (visible (compact_labels (right_pairs val)) 0) = Some g1 ∧
       render_tick val = Some g ∧
       (∀ r c, 1 ≤ r ≤ 12 → 0 ≤ c ≤ 12 →
          cell_at g1 r c = Some [AStr (py " "); AStr (py "w"); AInt 0]) ∧
       (∀ r c, 0 ≤ r ≤ 5 → cell_at g r c = cell_at g1 r c) ∧
       (∀ (i : nat) ch, py "ENG FAIL" !! i = Some ch →
          cell_at g 0 (Z.of_nat i) = Some [AStr [ch]; AStr (py "a"); AInt LARGE]) ∧
       (∀ c, 8 ≤ c < 12 →
          cell_at g 0 c = Some [AStr (py " "); AStr (py "a"); AInt LARGE]) ∧
       cell_at g 0 12 = Some [AStr (py " "); AStr (py "w"); AInt 0] ∧
       (∀ r c, 1 ≤ r ≤ 5 → 0 ≤ c ≤ 12 →
          cell_at g r c = Some [AStr (py " "); AStr (py "w"); AInt 0]) ∧
       (∀ c, 0 ≤ c < 24 →
          cell_at g 6 c =
          if decide (10 ≤ c ≤ 13)
          then (λ ch, [AStr [ch]; AStr (py "k"); AInt LARGE]) <$> py "MISC" !! Z.to_nat (c - 10)
          else Some [AStr (py " "); AStr (py "w"); AInt 0]) ∧
       (∀ (i : nat) c, (i < 6)%nat → 0 ≤ c < 24 →
          cell_at g (7 + Z.of_nat i) c =
          match visible (compact_labels (misc_pairs val)) 0 !! i
                ≫= (λ lbl, centred_char lbl c) with
          | Some ch => Some [AStr (glyph ch); AStr (py "a"); AInt LARGE]
          | None => Some [AStr (py " "); AStr (py "w"); AInt 0]
          end) ∧
       (Forall (λ p : Z * list N, p.1 ≠ 1) (misc_pairs val) →
        ∀ r c, 7 ≤ r ≤ 12 → 0 ≤ c < 24 →
          cell_at g r c = Some [AStr (py " "); AStr (py "w"); AInt 0])).
Proof.
  destruct draw_columns_engine1Fail as [Hdraw Htick].
  split; [exact Hdraw|]. intros val Hpage Hleft.
  destruct (Htick val Hpage Hleft)
    as (Hvis & g1 & g & Hg1 & Hg & Hlabel & Hpad & Hgap & Hblank & Hrows).
  split; [exact Hvis|]. exists g1, g.
  split; [exact Hg1|]. split; [exact Hg|]. split; [exact Hblank|]. split; [exact Hrows|].
  destruct (render_tick_cells val) as (g' & Hg' & _ & Hcell).
  rewrite Hg in Hg'. injection Hg' as <-. rewrite Hpage in Hcell.
  assert (Hmisc : ∀ (i : nat) c, (i < 6)%nat → 0 ≤ c < 24 →
            cell_at g (7 + Z.of_nat i) c =
            match visible (compact_labels (misc_pairs val)) 0 !! i
                  ≫= (λ lbl, centred_char lbl c) with
            | Some ch => Some [AStr (glyph ch); AStr (py "a"); AInt LARGE]
            | None => Some [AStr (py " "); AStr (py "w"); AInt 0]
            end).
  { intros i c Hi Hc. rewrite Hcell by (unfold CDU_ROWS, CDU_COLUMNS; lia).
    rewrite !decide_False by lia. rewrite decide_True by lia.
    replace (Z.to_nat (7 + Z.of_nat i - 7)) with i by lia. reflexivity. }
  split; [|split; [|split; [|split; [|split; [|split]]]]].
  - intros i ch Hi. rewrite Hrows by lia. apply Hlabel, Hi.
  - intros c Hc. rewrite Hrows by lia. apply Hpad, Hc.
  - rewrite Hrows by lia. exact Hgap.
  - intros r c Hr Hc. rewrite Hrows by lia. apply Hblank; lia.
  - intros c Hc. rewrite Hcell by (unfold CDU_ROWS, CDU_COLUMNS; lia).
    rewrite decide_False by lia. rewrite decide_True by lia.
    assert (Hcases : c < 10 ∨ c = 10 ∨ c = 11 ∨ c = 12 ∨ c = 13 ∨ 13 < c) by lia.
    destruct Hcases as [Hlo|[->|[->|[->|[->|Hhi]]]]]; try reflexivity.
    + rewrite decide_False by lia. unfold centred_char.
      change ((CDU_COLUMNS - Z.of_nat (length (py_slice (py "MISC") 0 CDU_COLUMNS))) `div` 2)
        with 10.
      rewrite bool_decide_eq_false_2 by lia. reflexivity.
    + rewrite decide_False by lia. unfold centred_char.
      change ((CDU_COLUMNS - Z.of_nat (length (py_slice (py "MISC") 0 CDU_COLUMNS))) `div` 2)
        with 10.
      rewrite bool_decide_eq_true_2 by lia.
      rewrite lookup_ge_None_2; [reflexivity|].
      change (length (py_slice (py "MISC") 0 CDU_COLUMNS)) with 4%nat. lia.
  - exact Hmisc.
  - intros Hnone r c Hr Hc.
    replace r with (7 + Z.of_nat (Z.to_nat (r - 7))) by lia.
    rewrite Hmisc by lia.
    rewrite (compact_labels_none_active _ Hnone). reflexivity.
Qed.

Lemma render_tick_only_engine1Fail_witness :
  ∃ g, render_tick val_engine1Fail = Some g ∧
       cell_at g 0 0 = Some [AStr (py "E"); AStr (py "a"); AInt LARGE] ∧
       cell_at g 0 8 = Some [AStr (py " "); AStr (py "a"); AInt LARGE] ∧
       cell_at g 5 0 = Some [AStr (py " "); AStr (py "w"); AInt 0] ∧
       cell_at g 6 11 = Some [AStr (py "I"); AStr (py "k"); AInt LARGE] ∧
       cell_at g 12 0 = Some [AStr (py " "); AStr (py "w"); AInt 0].
Proof.
  assert (Hactive : only_engine1Fail_active val_engine1Fail).
  { split; [reflexivity|]. unfold left_pairs. cbn [tail].
    repeat (apply Forall_cons; split; [vm_compute; discriminate|]).
    apply Forall_nil. exact I. }
  assert (Hmisc : Forall (λ p : Z * list N, p.1 ≠ 1) (misc_pairs val_engine1Fail)).
  { unfold misc_pairs.
    repeat (apply Forall_cons; split; [vm_compute; discriminate|]).
    apply Forall_nil. exact I. }
  destruct render_tick_only_engine1Fail as [_ Htick].
  destruct (Htick val_engine1Fail eq_refl Hactive)
    as (_ & g1 & g & _ & Hg & _ & _ & Hlabel & Hpad & _ & Hblank & Htitle & _ & Hrest).
  exists g. split; [exact Hg|].
  split; [exact (Hlabel 0%nat _ eq_refl)|].
  split; [apply Hpad; lia|].
  split; [apply Hblank; lia|].
  split; [rewrite Htitle by lia; reflexivity|].
  apply (Hrest Hmisc); lia.
Defined.

Lemma render_tick_only_engine1Fail_counterexample :
  val_engine1Fail (py "(L:cdsPage)") = 0 ∧
  only_engine1Fail_active val_engine1Fail ∧
  ∃ g, render_tick val_engine1Fail = Some g ∧
       cell_at g 6 10 = Some [AStr (py "M"); AStr (py "k"); AInt LARGE] ∧
       ¬ (∀ r c, 1 ≤ r ≤ 12 → 0 ≤ c < 12 →
            ∃ colour size, cell_at g r c = Some [AStr (py " "); AStr colour; AInt size]).
Proof.
  split; [reflexivity|]. split.
  { split; [reflexivity|]. unfold left_pairs. cbn [tail].
    repeat (apply Forall_cons; split; [vm_compute; discriminate|]).
    apply Forall_nil. exact I. }
  destruct (render_tick val_engine1Fail) as [g|] eqn:Hg; [|vm_compute in Hg; discriminate].
  exists g. split; [reflexivity|].
  assert (Hcell : cell_at g 6 10 = Some [AStr (py "M"); AStr (py "k"); AInt LARGE]).
  { vm_compute in Hg. injection Hg as <-. reflexivity. }
  split; [exact Hcell|].
  intros Hall. destruct (Hall 6 10) as (colour & size & Hblank); [lia|lia|].
  rewrite Hcell in Hblank. discriminate.
Qed.

(** ** The pages together *)

(** X9. The three pages the page flag can select are the consecutive
    windows of six labels: one after the other they are the first 18
    labels of the list, so a label from the 19th on is on no page; a
    page from 0 on is empty exactly when the list has no more than
    [6 * page] labels.  The left column has 20 flags: when all of them
    read 1, [BUS TIE] and [STARTER] are shown on no page. *)
Theorem pages_cover_first_18 :
  (∀ labels : list (list N),
     visible labels 0 ++ visible labels 1 ++ visible labels 2 = take 18 labels) ∧
  (∀ (labels : list (list N)) (cdsPage : Z),
     0 ≤ cdsPage →
     ((visible labels cdsPage = []) ↔ (Z.of_nat (length labels) ≤ 6 * cdsPage))) ∧
  (∀ (val : list N → Z) (cdsPage : Z),
     (∀ x, val x = 1) → 0 ≤ cdsPage ≤ 2 →
     length (compact_labels (left_pairs val)) = 20%nat ∧
     (py "BUS TIE" ∉ visible (compact_labels (left_pairs val)) cdsPage) ∧
     (py "STARTER" ∉ visible (compact_labels (left_pairs val)) cdsPage)).
Proof.
  split; [|split].
  - intros labels. rewrite !visible_take_drop by lia.
    change (Z.to_nat (0 * 6)) with 0%nat. change (Z.to_nat (1 * 6)) with 6%nat.
    change (Z.to_nat (2 * 6)) with 12%nat. rewrite drop_0.
    change 12%nat with (6 + 6)%nat. rewrite <- drop_drop.
    rewrite (take_take_drop (drop 6 labels) 6 6).
    rewrite (take_take_drop labels 6 (6 + 6)). reflexivity.
  - intros labels p Hp. rewrite visible_take_drop by lia.
    rewrite <- length_zero_iff_nil. rewrite length_take, length_drop. lia.
  - intros val p Hval Hp.
    assert (Hall : compact_labels (left_pairs val) = snd <$> left_pairs val).
    { unfold left_pairs. rewrite !Hval. reflexivity. }
    rewrite Hall. unfold left_pairs. cbn [fmap list_fmap snd].
    assert (Hcases : p = 0 ∨ p = 1 ∨ p = 2) by lia.
    split; [reflexivity|].
    destruct Hcases as [->|[->| ->]];
      (split; apply (bool_decide_unpack _); vm_compute; exact I).
Qed.

Lemma pages_cover_first_18_witness :
  visible fourteen_labels 1 ≠ [] ∧
  (py "STARTER" ∉ visible (compact_labels (left_pairs (λ _, 1))) 2).
Proof.
  destruct pages_cover_first_18 as (_ & Hempty & Hlast).
  split.
  - intros H. apply (Hempty fourteen_labels 1) in H; [|lia]. cbn in H. lia.
  - apply (Hlast (λ _, 1) 2); [reflexivity|lia].
Defined.

(** ** Commands to the MobiFlight module *)

(** X10. [send_command] sends a command of ASCII characters, at most
    256 of them, as one [SetClientData] call on the command area with
    exactly 256 bytes: the characters of the command, then zero bytes up
    to the fixed size (none when the command has 256 characters); the
    variables and identifiers are left as they are.  A command with a
    character beyond ASCII raises [UnicodeEncodeError], an ASCII
    command of more than 256 characters raises [ValueError]; in both
    cases nothing is sent and the layer is unchanged. *)
Theorem send_command_padded (command : list N) (st : vr_state) :
  (Forall (λ c, (c < 128)%N) command → (length command ≤ 256)%nat →
   ∃ data st',
     send_command command st = (Ok tt, st') ∧
     dll_calls st' = dll_calls st ++ [SetClientData 1 0 256 data] ∧
     sim_vars st' = sim_vars st ∧ sim_var_name_to_id st' = sim_var_name_to_id st ∧
     sleeps st' = sleeps st ∧
     length data = 256%nat ∧
     (∀ i : nat, data !! i =
                 if decide (i < length command)%nat then command !! i
                 else if decide (i < 256)%nat then Some 0%N else None)) ∧
  (¬ Forall (λ c, (c < 128)%N) command →
   send_command command st = (Raise UnicodeEncodeError, st)) ∧
  (Forall (λ c, (c < 128)%N) command → (256 < length command)%nat →
   send_command command st = (Raise ValueError, st)).
Proof.
  assert (Hascii : Forall (λ c, (c < 128)%N) command ↔
                   forallb (λ c, bool_decide (c < 128)%N) command = true).
  { rewrite forallb_forall, Forall_forall. split; intros H c Hc.
    - apply bool_decide_eq_true_2, H. apply list_elem_of_In, Hc.
    - apply list_elem_of_In in Hc. specialize (H c Hc).
      apply bool_decide_eq_true in H. exact H. }
  unfold send_command, DATA_STRING_SIZE. split; [|split].
  - intros Ha Hlen. apply Hascii in Ha. rewrite Ha. cbn [negb].
    rewrite bool_decide_eq_false_2 by lia.
    eexists _, _. split; [reflexivity|]. cbn [dll_calls sim_vars sim_var_name_to_id sleeps].
    split; [reflexivity|]. split; [reflexivity|]. split; [reflexivity|].
    split; [reflexivity|]. split.
    + rewrite length_app, length_replicate. lia.
    + intros i. destruct (decide (i < length command)%nat) as [Hi|Hi].
      * apply lookup_app_l. exact Hi.
      * rewrite lookup_app_r by lia.
        destruct (decide (i < 256)%nat) as [Hi'|Hi'].
        -- apply lookup_replicate_2. lia.
        -- apply lookup_replicate_None. lia.
  - intros Ha.
    rewrite (not_true_is_false (forallb (λ c, bool_decide (c < 128)%N) command));
      [reflexivity|].
    intros Hf. apply Ha, Hascii, Hf.
  - intros Ha Hlen. apply Hascii in Ha. rewrite Ha. cbn [negb].
    rewrite bool_decide_eq_true_2 by lia. reflexivity.
Qed.

Lemma send_command_padded_witness :
  ∃ data st',
    send_command (py "MF.SimVars.Clear") fresh_layer = (Ok tt, st') ∧
    length data = 256%nat ∧ take 16 data = py "MF.SimVars.Clear" ∧
    data !! 16%nat = Some 0%N ∧
    dll_calls st' = dll_calls fresh_layer ++ [SetClientData 1 0 256 data].
Proof.
  destruct (send_command_padded (py "MF.SimVars.Clear") fresh_layer) as (H & _ & _).
  destruct H as (data & st' & Hrun & Hcalls & _ & _ & _ & Hlen & Hdata).
  - apply (bool_decide_unpack _). vm_compute. exact I.
  - cbn. lia.
  - exists data, st'. split; [exact Hrun|]. split; [exact Hlen|].
    split; [|split; [|exact Hcalls]].
    + apply list_eq. intros i. pose proof (Hdata i) as Hi.
      destruct (decide (i < 16)%nat) as [Hlt|Hge].
      * rewrite lookup_take_lt by exact Hlt. rewrite Hi.
        change (length (py "MF.SimVars.Clear")) with 16%nat.
        rewrite decide_True by exact Hlt. reflexivity.
      * rewrite lookup_take_ge by lia. symmetry. apply lookup_ge_None_2.
        change (length (py "MF.SimVars.Clear")) with 16%nat. lia.
    + rewrite Hdata. reflexivity.
Defined.

(** ** Notifications *)

Lemma notified_twice unpack_round5 sv w w' :
  notified unpack_round5 (notified unpack_round5 sv w) w' = notified unpack_round5 sv w'.
Proof. reflexivity. Qed.

Lemma last_for_cons id cd cds :
  last_for id (cd :: cds) =
  match last_for id cds with
  | Some cd' => Some cd'
  | None => if decide (dwDefineID cd = id) then Some cd else None
  end.
Proof.
  unfold last_for. rewrite filter_cons.
  destruct (decide (dwDefineID cd = id)); [|destruct (last _); reflexivity].
  rewrite last_cons. reflexivity.
Qed.

(** X11. A batch of notifications, handled in order, leaves in each
    stored variable the decoded word of the last notification that
    carries its identifier, and marks it initialized: a later
    notification overrides an earlier one.  A variable for which the
    batch has no notification is unchanged, a notification for an
    identifier that is not stored is dropped, and no identifier, no
    name and no library call is added. *)
Theorem notifications_last_wins (unpack_round5 : Z → spec_float)
    (cds : list client_data) (st : vr_state) :
  let st' := foldl (λ s cd, client_data_callback_handler unpack_round5 cd s) st cds in
  (∀ id, sim_vars st' !! id =
         match sim_vars st !! id, last_for id cds with
         | Some sv, Some cd => Some (notified unpack_round5 sv (dwData0 cd))
         | other, _ => other
         end) ∧
  sim_var_name_to_id st' = sim_var_name_to_id st ∧
  dll_calls st' = dll_calls st ∧
  sleeps st' = sleeps st.
Proof.
  cbn zeta. split.
  - revert st. induction cds as [|cd cds IH]; intros st id.
    + cbn [foldl]. destruct (sim_vars st !! id); reflexivity.
    + cbn [foldl]. rewrite IH, last_for_cons.
      unfold client_data_callback_handler.
      destruct (decide (dwDefineID cd = id)) as [<-|Hne].
      * destruct (sim_vars st !! dwDefineID cd) as [sv|] eqn:Hsv.
        -- cbn [set_sim_vars sim_vars]. rewrite lookup_insert_eq.
           destruct (last_for (dwDefineID cd) cds); reflexivity.
        -- rewrite Hsv. destruct (last_for (dwDefineID cd) cds); reflexivity.
      * destruct (sim_vars st !! dwDefineID cd) as [sv|] eqn:Hsv.
        -- cbn [set_sim_vars sim_vars]. rewrite lookup_insert_ne by exact Hne.
           destruct (sim_vars st !! id); destruct (last_for id cds); reflexivity.
        -- destruct (sim_vars st !! id); destruct (last_for id cds); reflexivity.
  - destruct (handlers_steady unpack_round5 cds st) as [(H1 & H2 & _) H3].
    split; [exact H1|]. split; [exact H2|exact H3].
Qed.

(** ** Reads *)

Section ReadProperties.

Variable unpack_round5 : Z → spec_float.
Variable delivered : nat → list client_data.

Lemma wait_loop_has_value fuel id c st f :
  current_value id st = Some f →
  wait_loop unpack_round5 delivered fuel id c st = (Ok c, st).
Proof.
  intros Hv. destruct fuel as [|fuel]; [reflexivity|]. cbn [wait_loop].
  destruct (bool_decide (c < 50)); [|reflexivity].
  unfold mbind, M_bind, gets. rewrite Hv. reflexivity.
Qed.

Lemma get_with_value x st id sv f :
  sim_var_name_to_id st !! x = Some id → sim_vars st !! id = Some sv →
  float_value sv = Some f →
  get unpack_round5 delivered x st = (Ok (Some f), st).
Proof.
  intros Hid Hsv Hf.
  assert (Hv : current_value id st = Some f).
  { unfold current_value. rewrite Hsv. exact Hf. }
  destruct (get_known unpack_round5 delivered x st) as [-> _]; [eauto|].
  unfold await_value, lookup_or_KeyError.
  unfold mbind at 1, M_bind at 1, gets at 1. rewrite Hid.
  unfold mbind at 1, M_bind at 1, mret at 1, M_ret at 1.
  unfold mbind at 1, M_bind at 1, gets at 1. rewrite Hsv.
  unfold mbind at 1, M_bind at 1, mret at 1, M_ret at 1.
  unfold mbind at 1, M_bind at 1.
  rewrite (wait_loop_has_value 50 id 0 st f Hv).
  unfold mbind at 1, M_bind at 1, gets at 1. rewrite Hsv.
  unfold mbind at 1, M_bind at 1, mret at 1, M_ret at 1.
  rewrite Hf. rewrite (bool_decide_eq_false_2 (Some f = None)) by discriminate.
  cbn [andb]. unfold mbind, M_bind, mret, M_ret, gets. rewrite Hv. reflexivity.
Qed.

End ReadProperties.

(** X12. A read of a known name whose variable has a value returns that
    value at once: without a sleep, without a library call, and leaving
    the layer exactly as it was.  So a flag that has been notified once
    costs the poll loop no waiting. *)
Theorem get_returns_stored_value (unpack_round5 : Z → spec_float)
    (delivered : nat → list client_data) (x : list N) (st : vr_state)
    (id : Z) (sv : SimVariable) (f : spec_float) :
  sim_var_name_to_id st !! x = Some id → sim_vars st !! id = Some sv →
  float_value sv = Some f →
  get unpack_round5 delivered x st = (Ok (Some f), st) ∧
  ∀ float_of_str,
    read_flag unpack_round5 delivered float_of_str x st = (Ok (thresholds f), st).
Proof.
  intros Hid Hsv Hf.
  pose proof (get_with_value unpack_round5 delivered x st id sv f Hid Hsv Hf) as Hget.
  split; [exact Hget|]. intros float_of_str.
  unfold read_flag. unfold mbind, M_bind. rewrite Hget. reflexivity.
Qed.

Lemma get_returns_stored_value_witness :
  let st := (get unpack_f32_round5 two_deliveries (py "(L:cdsPage)") fresh_layer).2 in
  get unpack_f32_round5 two_deliveries (py "(L:cdsPage)") st
  = (Ok (Some (S754_finite false 4503599627370496 (-52))), st).
Proof.
  intros st.
  apply (get_returns_stored_value unpack_f32_round5 two_deliveries (py "(L:cdsPage)") st 1
           {| sv_id := 1; sv_name := py "(L:cdsPage)";
              float_value := Some (S754_finite false 4503599627370496 (-52));
              initialized := true |}).
  - vm_compute. reflexivity.
  - vm_compute. reflexivity.
  - reflexivity.
Defined.

(** ** Stored values *)

Section StoredValues.

Variable unpack_round5 : Z → spec_float.
Variable delivered : nat → list client_data.

Lemma notified_only_same_vars st st' :
  sim_vars st' = sim_vars st →
  notified_only unpack_round5 st → notified_only unpack_round5 st'.
Proof. intros Heq Hinv id sv. rewrite Heq. apply Hinv. Qed.

Lemma handler_notified_only cd st :
  notified_only unpack_round5 st →
  notified_only unpack_round5 (client_data_callback_handler unpack_round5 cd st).
Proof.
  intros Hinv. unfold client_data_callback_handler.
  destruct (sim_vars st !! dwDefineID cd) as [sv0|] eqn:Hsv0; [|exact Hinv].
  intros id sv. cbn [set_sim_vars sim_vars].
  destruct (decide (id = dwDefineID cd)) as [->|Hne].
  - rewrite lookup_insert_eq. intros [= <-]. cbn. split; [reflexivity|]. eauto.
  - rewrite lookup_insert_ne by done. apply Hinv.
Qed.

Lemma handlers_notified_only cds : ∀ st,
  notified_only unpack_round5 st →
  notified_only unpack_round5
    (foldl (λ s cd, client_data_callback_handler unpack_round5 cd s) st cds).
Proof.
  induction cds as [|cd cds IH]; intros st Hinv; [exact Hinv|].
  cbn [foldl]. apply IH, handler_notified_only, Hinv.
Qed.

Lemma sleep_notified_only st :
  notified_only unpack_round5 st →
  notified_only unpack_round5 (sleep unpack_round5 delivered st).2.
Proof.
  intros Hinv. unfold sleep, modify. cbn [snd].
  eapply notified_only_same_vars; [|apply (handlers_notified_only (delivered (sleeps st))), Hinv].
  reflexivity.
Qed.

Lemma wait_loop_notified_only fuel : ∀ id c st,
  notified_only unpack_round5 st →
  notified_only unpack_round5 (wait_loop unpack_round5 delivered fuel id c st).2.
Proof.
  induction fuel as [|fuel IH]; intros id c st Hinv; cbn [wait_loop]; [exact Hinv|].
  destruct (bool_decide (c < 50)); [|exact Hinv].
  unfold mbind, M_bind, gets at 1.
  destruct (current_value id st); [exact Hinv|].
  pose proof (sleep_notified_only st Hinv) as Hs.
  destruct (sleep unpack_round5 delivered st) as [[[]|e] st1] eqn:Hsleep.
  - apply IH. exact Hs.
  - exact Hs.
Qed.

(** Where every stored value was notified, the second part of [get]
    stores nothing and returns a notified value, if any. *)
Lemma await_value_notified_only x st :
  notified_only unpack_round5 st →
  ∃ r st', await_value unpack_round5 delivered x st = (r, st') ∧
           notified_only unpack_round5 st' ∧
           ∀ f, r = Ok (Some f) → ∃ w, f = unpack_round5 w.
Proof.
  intros Hinv. unfold await_value, lookup_or_KeyError.
  unfold mbind at 1, M_bind at 1, gets at 1.
  destruct (sim_var_name_to_id st !! x) as [id|];
    [|eexists _, st; split; [reflexivity|]; split; [exact Hinv|intros ? ?; discriminate]].
  unfold mbind at 1, M_bind at 1, mret at 1, M_ret at 1.
  unfold mbind at 1, M_bind at 1, gets at 1.
  destruct (sim_vars st !! id) as [sv0|];
    [|eexists _, st; split; [reflexivity|]; split; [exact Hinv|intros ? ?; discriminate]].
  unfold mbind at 1, M_bind at 1, mret at 1, M_ret at 1.
  unfold mbind at 1, M_bind at 1.
  pose proof (wait_loop_notified_only 50 id 0 st Hinv) as Hinv1.
  destruct (wait_loop_steady unpack_round5 delivered 50 id 0 st) as (c & st1 & Hrun & _).
  rewrite Hrun in Hinv1 |- *. cbn [snd] in Hinv1.
  unfold mbind at 1, M_bind at 1, gets at 1.
  destruct (sim_vars st1 !! id) as [sv|] eqn:Hsv;
    [|eexists _, st1; split; [reflexivity|]; split; [exact Hinv1|intros ? ?; discriminate]].
  unfold mbind at 1, M_bind at 1, mret at 1, M_ret at 1.
  pose proof (Hinv1 id sv Hsv) as Hsv'.
  destruct (float_value sv) as [f|] eqn:Hf.
  - rewrite (bool_decide_eq_false_2 (Some f = None)) by discriminate. cbn [andb].
    exists (Ok (Some f)), st1. split.
    + unfold mbind, M_bind, mret, M_ret, gets, current_value. rewrite Hsv. cbn.
      rewrite Hf. reflexivity.
    + split; [exact Hinv1|]. intros f' [= <-]. apply Hsv'.
  - rewrite Hsv'. rewrite andb_false_r.
    exists (Ok None), st1. split.
    + unfold mbind, M_bind, mret, M_ret, gets, current_value. rewrite Hsv. cbn.
      rewrite Hf. reflexivity.
    + split; [exact Hinv1|]. intros ? ?; discriminate.
Qed.

Lemma add_new_variable_notified_only x st :
  notified_only unpack_round5 st →
  notified_only unpack_round5 (add_new_variable x st).2.
Proof.
  intros Hinv. destruct (add_new_variable_spec x st) as (r & calls & -> & _).
  cbn [snd]. intros id sv. cbn [sim_vars].
  destruct (decide (id = Z.of_nat (size (sim_vars st)) + 1)) as [->|Hne].
  - rewrite lookup_insert_eq. intros [= <-]. reflexivity.
  - rewrite lookup_insert_ne by done. apply Hinv.
Qed.

Lemma get_notified_only x st :
  notified_only unpack_round5 st →
  ∃ r st', get unpack_round5 delivered x st = (r, st') ∧
           notified_only unpack_round5 st' ∧
           ∀ f, r = Ok (Some f) → ∃ w, f = unpack_round5 w.
Proof.
  intros Hinv. unfold get. unfold mbind at 1, M_bind at 1, gets at 1.
  destruct (bool_decide (is_Some (sim_var_name_to_id st !! x))); cbn [negb].
  - unfold mbind at 1, M_bind at 1, mret at 1, M_ret at 1.
    apply await_value_notified_only, Hinv.
  - unfold mbind at 1, M_bind at 1.
    pose proof (add_new_variable_notified_only x st Hinv) as Hinv1.
    destruct (add_new_variable x st) as [[[]|e] st1]; cbn [snd] in Hinv1.
    + apply await_value_notified_only, Hinv1.
    + eexists _, st1. split; [reflexivity|]. split; [exact Hinv1|intros ? ?; discriminate].
Qed.

End StoredValues.

(** X13. With each notification handled as a whole, the layer never
    stores a value of its own: from the layer as [__init__] leaves it,
    every read, command, reset and notification keeps each stored
    variable either without a value and not initialized, or initialized
    with the decoded word of a notification.  So the default of [get]
    (the assignment of 0.0 to a variable that is initialized and has no
    value) is never taken, and a value that [get] returns is always one
    that was notified. *)
Theorem stored_values_are_notified (unpack_round5 : Z → spec_float)
    (delivered : nat → list client_data) :
  notified_only unpack_round5 fresh_layer ∧
  ∀ st, notified_only unpack_round5 st →
    (∀ cd, notified_only unpack_round5 (client_data_callback_handler unpack_round5 cd st)) ∧
    (∀ x, notified_only unpack_round5 (get unpack_round5 delivered x st).2) ∧
    (∀ x f, (get unpack_round5 delivered x st).1 = Ok (Some f) → ∃ w, f = unpack_round5 w) ∧
    (∀ x, notified_only unpack_round5 (set x st).2) ∧
    notified_only unpack_round5 (clear_sim_variables st).2.
Proof.
  split.
  - intros id sv. change (sim_vars fresh_layer) with (∅ : gmap Z SimVariable).
    rewrite lookup_empty. discriminate.
  - intros st Hinv. split; [|split; [|split; [|split]]].
    + intros cd. apply handler_notified_only, Hinv.
    + intros x.
      destruct (get_notified_only unpack_round5 delivered x st Hinv) as (r & st' & -> & H & _).
      exact H.
    + intros x f.
      destruct (get_notified_only unpack_round5 delivered x st Hinv) as (r & st' & -> & _ & H).
      apply H.
    + intros x. eapply notified_only_same_vars; [|exact Hinv].
      unfold set, send_command.
      destruct (negb _); [reflexivity|]. destruct (bool_decide _); reflexivity.
    + intros id sv. change (sim_vars (clear_sim_variables st).2) with (∅ : gmap Z SimVariable).
      rewrite lookup_empty. discriminate.
Qed.

Lemma stored_values_are_notified_witness :
  ∃ w, S754_finite false 4503599627370496 (-52) = unpack_f32_round5 w.
Proof.
  destruct (stored_values_are_notified unpack_f32_round5 two_deliveries) as [Hfresh Hkeep].
  destruct (Hkeep fresh_layer Hfresh) as (_ & _ & Hget & _).
  apply (Hget (py "(L:cdsPage)")). vm_compute. reflexivity.
Defined.

(** ** Reads that raise, and subscriptions *)

Lemma forallb_ascii (s : list N) :
  forallb (λ c, bool_decide (c < 128)%N) s = true ↔ Forall (λ c, (c < 128)%N) s.
Proof.
  rewrite forallb_forall, Forall_forall. split; intros H c Hc.
  - apply list_elem_of_In in Hc. specialize (H c Hc).
    apply bool_decide_eq_true in H. exact H.
  - apply bool_decide_eq_true_2, H. apply list_elem_of_In, Hc.
Qed.

(** What the first part of [get] returns or raises. *)
Lemma add_new_variable_result x st :
  (add_new_variable x st).1 =
  if negb (forallb (λ c, bool_decide (c < 128)%N) (py "MF.SimVars.Add." ++ x))
  then Raise UnicodeEncodeError
  else if bool_decide (DATA_STRING_SIZE - Z.of_nat (length (py "MF.SimVars.Add." ++ x)) < 0)
       then Raise ValueError else Ok tt.
Proof.
  unfold add_new_variable, send_command.
  destruct (negb _); [reflexivity|]. destruct (bool_decide _); reflexivity.
Qed.

Section RaisingReads.

Variable unpack_round5 : Z → spec_float.
Variable delivered : nat → list client_data.

Lemma await_value_returns x st id :
  sim_var_name_to_id st !! x = Some id → is_Some (sim_vars st !! id) →
  ∃ v st', await_value unpack_round5 delivered x st = (Ok v, st').
Proof.
  intros Hid [sv0 Hsv0]. unfold await_value, lookup_or_KeyError.
  unfold mbind at 1, M_bind at 1, gets at 1. rewrite Hid.
  unfold mbind at 1, M_bind at 1, mret at 1, M_ret at 1.
  unfold mbind at 1, M_bind at 1, gets at 1. rewrite Hsv0.
  unfold mbind at 1, M_bind at 1, mret at 1, M_ret at 1.
  unfold mbind at 1, M_bind at 1.
  destruct (wait_loop_steady unpack_round5 delivered 50 id 0 st)
    as (c & st1 & -> & (_ & _ & Hdom & _) & _).
  unfold mbind at 1, M_bind at 1, gets at 1.
  destruct (sim_vars st1 !! id) as [sv|] eqn:Hsv.
  - unfold mbind at 1, M_bind at 1, mret at 1, M_ret at 1.
    destruct (bool_decide (float_value sv = None) && initialized sv);
      eexists _, _; reflexivity.
  - exfalso. apply not_elem_of_dom in Hsv. apply Hsv. rewrite Hdom.
    apply elem_of_dom. eauto.
Qed.

Lemma numbered_by_stored st order x id :
  numbered_by st order → sim_var_name_to_id st !! x = Some id →
  is_Some (sim_vars st !! id).
Proof.
  intros (_ & Hids & Hdom) Hid. apply Hids in Hid as [Hpos Hlook].
  apply lookup_lt_Some in Hlook.
  apply elem_of_dom. rewrite Hdom. apply elem_of_list_to_set, elem_of_seqZ. lia.
Qed.

Lemma get_known_returns st order x :
  numbered_by st order → x ∈ order →
  ∃ v, (get unpack_round5 delivered x st).1 = Ok v.
Proof.
  intros Hnum Hin.
  destruct (proj2 (numbered_by_known st order x Hnum) Hin) as [id Hid].
  destruct (get_known unpack_round5 delivered x st) as [-> _]; [eauto|].
  destruct (await_value_returns x st id Hid) as (v & st' & ->);
    [eapply numbered_by_stored; eauto|].
  exists v. reflexivity.
Qed.

(** A first read: what it returns or raises is what sending the
    command does, and the calls it makes. *)
Lemma get_unknown_result st order x :
  numbered_by st order → x ∉ order →
  let id := Z.of_nat (length order) + 1 in
  ∃ calls,
    dll_calls (get unpack_round5 delivered x st).2 = dll_calls st ++ subscription id ++ calls ∧
    List.filter is_subscription calls = [] ∧
    match (add_new_variable x st).1 with
    | Ok _ => ∃ v, (get unpack_round5 delivered x st).1 = Ok v
    | Raise e => (get unpack_round5 delivered x st).1 = Raise e ∧ calls = [] ∧
                 sleeps (get unpack_round5 delivered x st).2 = sleeps st
    end.
Proof.
  intros Hnum Hnotin id.
  assert (Hnew : sim_var_name_to_id st !! x = None).
  { apply eq_None_not_Some. intros Hsome. apply Hnotin.
    apply (numbered_by_known st order x Hnum). exact Hsome. }
  assert (Heq : get unpack_round5 delivered x st =
                match add_new_variable x st with
                | (Ok _, s1) => await_value unpack_round5 delivered x s1
                | (Raise e, s1) => (Raise e, s1)
                end).
  { unfold get. unfold mbind at 1, M_bind at 1, gets at 1.
    rewrite bool_decide_eq_false_2 by (rewrite Hnew; apply is_Some_None).
    reflexivity. }
  rewrite Heq.
  destruct (add_new_variable_spec x st) as (r & calls & Hadd & Hok & Hraise).
  rewrite (numbered_by_size st order Hnum) in Hadd. fold id in Hadd.
  rewrite Hadd. cbn [fst].
  exists calls. destruct r as [[]|e].
  - match goal with
    | |- context [await_value _ _ x ?s] =>
        destruct (await_value_steady unpack_round5 delivered x s)
          as (r' & st' & Hrun & (_ & Hcalls & _) & _);
        destruct (await_value_returns x s id) as (v & st'' & Hrun')
    end.
    + cbn [sim_var_name_to_id]. apply lookup_insert_eq.
    + cbn [sim_vars]. rewrite lookup_insert_eq. eauto.
    + rewrite Hrun. cbn [snd fst]. rewrite Hcalls. cbn [dll_calls].
      split; [reflexivity|]. split; [rewrite (Hok eq_refl); reflexivity|].
      rewrite Hrun in Hrun'. injection Hrun' as -> _. eauto.
  - cbn [snd fst dll_calls sleeps].
    assert (calls = []) as -> by (apply Hraise; discriminate).
    repeat split.
Qed.

End RaisingReads.

(** X14. On a layer whose names are numbered (as every read keeps
    them), [get] raises only at the first read of a name whose command
    cannot be sent: a read of a known name returns, and so does the
    first read of a name of ASCII characters, at most 241 of them (the
    command has 15 characters of its own); the first read of a name with
    a character beyond ASCII raises [UnicodeEncodeError], that of a
    longer ASCII name [ValueError].  When it raises, the name has
    nevertheless got its identifier and its two subscription calls, no
    command was sent and no sleep was made; and the next read of the
    name returns, without sending the command or any other call. *)
Theorem get_raises_only_on_first_unsendable (unpack_round5 : Z → spec_float)
    (delivered : nat → list client_data) (st : vr_state) (order : list (list N))
    (x : list N) :
  numbered_by st order →
  (x ∈ order ∨ (Forall (λ c, (c < 128)%N) x ∧ (length x ≤ 241)%nat) →
   ∃ v, (get unpack_round5 delivered x st).1 = Ok v) ∧
  (x ∉ order → ¬ Forall (λ c, (c < 128)%N) x →
   (get unpack_round5 delivered x st).1 = Raise UnicodeEncodeError) ∧
  (x ∉ order → Forall (λ c, (c < 128)%N) x → (241 < length x)%nat →
   (get unpack_round5 delivered x st).1 = Raise ValueError) ∧
  (∀ e, (get unpack_round5 delivered x st).1 = Raise e →
     let st1 := (get unpack_round5 delivered x st).2 in
     numbered_by st1 (order ++ [x]) ∧
     sleeps st1 = sleeps st ∧
     dll_calls st1 = dll_calls st ++ subscription (Z.of_nat (length order) + 1) ∧
     (∃ v, (get unpack_round5 delivered x st1).1 = Ok v) ∧
     dll_calls (get unpack_round5 delivered x st1).2 = dll_calls st1).
Proof.
  intros Hnum.
  assert (Hprefix : ∀ s, forallb (λ c, bool_decide (c < 128)%N) (py "MF.SimVars.Add." ++ s)
                         = forallb (λ c, bool_decide (c < 128)%N) s).
  { intros s. rewrite forallb_app. reflexivity. }
  assert (Hlen : ∀ s : list N, Z.of_nat (length (py "MF.SimVars.Add." ++ s))
                               = 15 + Z.of_nat (length s)).
  { intros s. rewrite length_app. change (length (py "MF.SimVars.Add.")) with 15%nat. lia. }
  assert (Hfirst : x ∉ order →
            match (add_new_variable x st).1 with
            | Ok _ => ∃ v, (get unpack_round5 delivered x st).1 = Ok v
            | Raise e => (get unpack_round5 delivered x st).1 = Raise e
            end).
  { intros Hnotin.
    destruct (get_unknown_result unpack_round5 delivered st order x Hnum Hnotin)
      as (calls & _ & _ & H).
    destruct ((add_new_variable x st).1); [exact H|apply H]. }
  split; [|split; [|split]].
  - intros [Hin|[Hascii Hshort]].
    + eapply get_known_returns; eauto.
    + destruct (decide (x ∈ order)) as [Hin|Hnotin];
        [eapply get_known_returns; eauto|].
      specialize (Hfirst Hnotin). rewrite add_new_variable_result in Hfirst.
      rewrite Hprefix, (proj2 (forallb_ascii x) Hascii) in Hfirst. cbn [negb] in Hfirst.
      rewrite bool_decide_eq_false_2 in Hfirst
        by (rewrite Hlen; unfold DATA_STRING_SIZE; lia).
      exact Hfirst.
  - intros Hnotin Hascii. specialize (Hfirst Hnotin).
    rewrite add_new_variable_result in Hfirst. rewrite Hprefix in Hfirst.
    rewrite (not_true_is_false (forallb (λ c, bool_decide (c < 128)%N) x)) in Hfirst
      by (intros H; apply Hascii, forallb_ascii, H).
    exact Hfirst.
  - intros Hnotin Hascii Hlong. specialize (Hfirst Hnotin).
    rewrite add_new_variable_result in Hfirst.
    rewrite Hprefix, (proj2 (forallb_ascii x) Hascii) in Hfirst. cbn [negb] in Hfirst.
    rewrite bool_decide_eq_true_2 in Hfirst
      by (rewrite Hlen; unfold DATA_STRING_SIZE; lia).
    exact Hfirst.
  - intros e He st1.
    assert (Hnotin : x ∉ order).
    { intros Hin. destruct (get_known_returns unpack_round5 delivered st order x Hnum Hin)
        as [v Hv]. rewrite Hv in He. discriminate. }
    pose proof (get_numbered unpack_round5 delivered st order x Hnum) as Hnum1.
    rewrite decide_False in Hnum1 by exact Hnotin. fold st1 in Hnum1.
    destruct (get_unknown_result unpack_round5 delivered st order x Hnum Hnotin)
      as (calls & Hcalls & _ & H).
    destruct ((add_new_variable x st).1) as [[]|e'].
    { destruct H as [v Hv]. rewrite Hv in He. discriminate. }
    destruct H as (_ & -> & Hsleeps). fold st1 in Hcalls, Hsleeps.
    rewrite app_nil_r in Hcalls.
    assert (Hin1 : x ∈ order ++ [x]) by (apply elem_of_app; right; by left).
    split; [exact Hnum1|]. split; [exact Hsleeps|]. split; [exact Hcalls|].
    split; [eapply get_known_returns; eauto|].
    destruct (get_known unpack_round5 delivered x st1) as [_ (_ & H & _)]; [|exact H].
    apply (numbered_by_known st1 (order ++ [x]) x Hnum1), Hin1.
Qed.

Lemma get_raises_only_on_first_unsendable_witness :
  let x := [40; 76; 58; 0xe9; 41]%N in
  let first := get unpack_f32_round5 silent x fresh_layer in
  first.1 = Raise UnicodeEncodeError ∧
  (∃ v, (get unpack_f32_round5 silent x first.2).1 = Ok v).
Proof.
  intros x first.
  destruct (get_raises_only_on_first_unsendable unpack_f32_round5 silent fresh_layer [] x
              fresh_layer_numbered) as (_ & Hraise & _ & Hnext).
  assert (H1 : first.1 = Raise UnicodeEncodeError).
  { apply Hraise.
    - intros H. inversion H.
    - intros H. apply forallb_ascii in H. vm_compute in H. discriminate. }
  split; [exact H1|]. apply (Hnext _ H1).
Defined.

Lemma seqZ_snoc (m : Z) (n : nat) :
  seqZ m (Z.of_nat (S n)) = seqZ m (Z.of_nat n) ++ [m + Z.of_nat n].
Proof.
  replace (Z.of_nat (S n)) with (Z.of_nat n + 1) by lia.
  rewrite seqZ_app by lia. reflexivity.
Qed.

(** X15. The layer subscribes once per name: after any run of reads on
    a fresh layer, the definitions and requests it has made are those of
    [__init__] (the response area) followed, for each distinct name in
    the order of first reading, by one definition of a float of 4 bytes
    at offset [4 * (id - 1)] of the variables area and one request for
    it, both under the identifier [id] of the name; a read of a known
    name adds none, whatever is notified and whether or not a command
    could be sent. *)
Theorem subscriptions_once_per_name (unpack_round5 : Z → spec_float)
    (delivered : nat → list client_data) (names : list (list N)) :
  List.filter is_subscription
    (dll_calls (read_all unpack_round5 delivered names fresh_layer))
  = [AddToClientDataDefinition 0 0 256; RequestClientData 2 0 0] ++
    (seqZ 1 (Z.of_nat (length (first_seen [] names))) ≫= subscription).
Proof.
  cut (∀ st seen,
         numbered_by st seen →
         List.filter is_subscription (dll_calls st)
         = [AddToClientDataDefinition 0 0 256; RequestClientData 2 0 0] ++
           (seqZ 1 (Z.of_nat (length seen)) ≫= subscription) →
         List.filter is_subscription
           (dll_calls (read_all unpack_round5 delivered names st))
         = [AddToClientDataDefinition 0 0 256; RequestClientData 2 0 0] ++
           (seqZ 1 (Z.of_nat (length (first_seen seen names))) ≫= subscription)).
  { intros H. apply H; [apply fresh_layer_numbered|reflexivity]. }
  induction names as [|x names IH]; intros st seen Hnum Hcalls; [exact Hcalls|].
  unfold read_all. cbn [foldl first_seen].
  pose proof (get_numbered unpack_round5 delivered st seen x Hnum) as Hstep.
  destruct (decide (x ∈ seen)) as [Hin|Hnotin].
  - apply IH; [exact Hstep|].
    destruct (get_known unpack_round5 delivered x st) as [_ (_ & -> & _)]; [|exact Hcalls].
    apply (numbered_by_known st seen x Hnum), Hin.
  - apply IH; [exact Hstep|].
    destruct (get_unknown_result unpack_round5 delivered st seen x Hnum Hnotin)
      as (calls & -> & Hnone & _).
    rewrite !List.filter_app, Hcalls, Hnone, app_nil_r.
    rewrite length_app. cbn [length].
    replace (length seen + 1)%nat with (S (length seen)) by lia.
    rewrite seqZ_snoc, bind_app. rewrite <- app_assoc. f_equal. f_equal.
    cbn [mbind list_bind]. rewrite app_nil_r.
    replace (1 + Z.of_nat (length seen)) with (Z.of_nat (length seen) + 1) by lia.
    reflexivity.
Qed.

(** ** The sender on a held connection *)

Section HeldConnection.

Variable faults : nat → option exn.
Variable clock : nat → Q.

(** One attempt on a held connection whose [send] succeeds: the time
    is read, and the connection is probed when the interval has
    passed. *)
Lemma send_once_held payload s c :
  ws s = Some c → faults (length (net_calls s)) = None →
  let s1 := log_call Time (log_call (Send c payload) s) in
  let now := clock (S (length (net_calls s))) in
  send_once faults clock payload s =
  if Qle_bool (_ping_interval s) (now - _last_ping s) then
    match faults (S (S (length (net_calls s)))) with
    | None => (Ok tt, set_last_ping now (log_call (Ping c) s1))
    | Some _ => (Ok tt, set_ws None (log_call (Close c) (log_call (Ping c) s1)))
    end
  else (Ok tt, s1).
Proof.
  intros Hws Hsend s1 now.
  assert (Hlen1 : length (net_calls (log_call (Send c payload) s)) = S (length (net_calls s))).
  { cbn [log_call net_calls]. rewrite length_app. cbn [length]. lia. }
  assert (Hlen2 : length (net_calls s1) = S (S (length (net_calls s)))).
  { unfold s1. cbn [log_call net_calls]. rewrite !length_app. cbn [length]. lia. }
  unfold send_once, _ensure.
  unfold mbind at 1, M_bind at 1.
  unfold mbind at 1, M_bind at 1, gets at 1. rewrite Hws.
  unfold mret at 1, M_ret at 1.
  unfold mbind at 1, M_bind at 1, with_ws at 1.
  unfold mbind at 1, M_bind at 1, gets at 1. rewrite Hws.
  unfold net at 1. rewrite Hsend.
  unfold _maybe_ping.
  unfold mbind at 1, M_bind at 1, time at 1. rewrite Hlen1. fold s1. fold now.
  unfold mbind at 1, M_bind at 1, gets at 1.
  unfold mbind at 1, M_bind at 1, gets at 1.
  change (_last_ping s1) with (_last_ping s).
  change (_ping_interval s1) with (_ping_interval s).
  destruct (Qle_bool (_ping_interval s) (now - _last_ping s)); [|reflexivity].
  unfold try_except.
  unfold mbind at 1, M_bind at 1, with_ws at 1.
  unfold mbind at 1, M_bind at 1, gets at 1.
  change (ws s1) with (ws s). rewrite Hws.
  unfold net at 1. rewrite Hlen2.
  destruct (faults (S (S (length (net_calls s))))) as [e|]; [|reflexivity].
  unfold close_and_discard, try_except.
  unfold mbind at 1, M_bind at 1.
  unfold mbind at 1, M_bind at 1, gets at 1.
  change (ws (log_call (Ping c) s1)) with (ws s). rewrite Hws.
  unfold mbind at 1, M_bind at 1, net at 1.
  destruct (faults (length (net_calls (log_call (Ping c) s1)))); reflexivity.
Qed.

End HeldConnection.

(** X16. A call of [send_grid] on a held connection whose [send]
    succeeds sends the grid once and reads the clock.  When less than
    the ping interval has passed since the last successful ping, that is
    all.  Otherwise the connection is pinged: when the ping succeeds its
    time becomes the time of the last ping and the connection is kept;
    when the ping raises, whatever it raises, the connection is closed
    and discarded, the time of the last ping stays, and [send_grid]
    still returns normally without sending the grid again. *)
Theorem send_grid_on_held_connection (faults : nat → option exn) (clock : nat → Q)
    (grid : list (list (list atom))) (s : McduSocket) (c : nat) :
  ws s = Some c → faults (length (net_calls s)) = None →
  let payload := grid_to_payload grid in
  let now := clock (S (length (net_calls s))) in
  let s' := (send_grid faults clock grid s).2 in
  (send_grid faults clock grid s).1 = Ok tt ∧
  sent (net_calls s') = sent (net_calls s) ++ [Send c payload] ∧
  (Qle_bool (_ping_interval s) (now - _last_ping s) = false →
   net_calls s' = net_calls s ++ [Send c payload; Time] ∧
   ws s' = Some c ∧ _last_ping s' = _last_ping s) ∧
  (Qle_bool (_ping_interval s) (now - _last_ping s) = true →
   faults (S (S (length (net_calls s)))) = None →
   net_calls s' = net_calls s ++ [Send c payload; Time; Ping c] ∧
   ws s' = Some c ∧ _last_ping s' = now) ∧
  (Qle_bool (_ping_interval s) (now - _last_ping s) = true →
   is_Some (faults (S (S (length (net_calls s))))) →
   net_calls s' = net_calls s ++ [Send c payload; Time; Ping c; Close c] ∧
   ws s' = None ∧ _last_ping s' = _last_ping s).
Proof.
  intros Hws Hsend payload now s'.
  assert (Hrun : send_grid faults clock grid s = send_once faults clock payload s).
  { rewrite send_grid_unfold. fold payload.
    rewrite (send_once_held faults clock payload s c Hws Hsend).
    destruct (Qle_bool _ _); [|reflexivity].
    destruct (faults (S (S (length (net_calls s))))); reflexivity. }
  unfold s'. rewrite Hrun, (send_once_held faults clock payload s c Hws Hsend). fold now.
  destruct (Qle_bool (_ping_interval s) (now - _last_ping s)).
  - destruct (faults (S (S (length (net_calls s))))) as [e|].
    + cbn [fst snd set_ws set_last_ping log_call net_calls ws _last_ping].
      split; [reflexivity|]. rewrite <- !app_assoc. cbn [app].
      split; [unfold sent; rewrite List.filter_app; reflexivity|].
      split; [discriminate|]. split; [discriminate|]. intros _ _. repeat split.
    + cbn [fst snd set_ws set_last_ping log_call net_calls ws _last_ping].
      split; [reflexivity|]. rewrite <- !app_assoc. cbn [app].
      split; [unfold sent; rewrite List.filter_app; reflexivity|].
      split; [discriminate|]. split; [intros _ _; repeat split; exact Hws|].
      intros _ [? ?]. discriminate.
  - cbn [fst snd set_ws set_last_ping log_call net_calls ws _last_ping].
    split; [reflexivity|]. rewrite <- !app_assoc. cbn [app].
    split; [unfold sent; rewrite List.filter_app; reflexivity|].
    split; [intros _; repeat split; exact Hws|]. split; discriminate.
Qed.

Lemma send_grid_on_held_connection_witness :
  let s := (send_grid no_faults clock_100 empty_grid (new_McduSocket MCDU_URL)).2 in
  net_calls (send_grid no_faults clock_100 empty_grid s).2
  = net_calls s ++ [Send 0 (grid_to_payload empty_grid); Time].
Proof.
  intros s.
  destruct (send_grid_on_held_connection no_faults clock_100 empty_grid s 0)
    as (_ & _ & H & _); [vm_compute; reflexivity|reflexivity|].
  apply H. vm_compute. reflexivity.
Defined.

(** ** A connection that stays *)

Section NoFaults.

Variable clock : nat → Q.

(** With no call failing, an attempt without a connection opens one and
    goes on as an attempt on that connection. *)
Lemma send_once_connects payload s :
  ws s = None →
  send_once no_faults clock payload s =
  send_once no_faults clock payload
    (log_call (SetTimeout (length (net_calls s)) 1)
       (set_ws (Some (length (net_calls s)))
          (log_call (CreateConnection (url s) (connect_timeout s)) s))).
Proof.
  intros Hws. unfold send_once at 1 2.
  unfold mbind at 1, M_bind at 1.
  assert (H1 : _ensure no_faults s =
               (Ok tt, log_call (SetTimeout (length (net_calls s)) 1)
                         (set_ws (Some (length (net_calls s)))
                            (log_call (CreateConnection (url s) (connect_timeout s)) s)))).
  { unfold _ensure. unfold mbind at 1, M_bind at 1, gets at 1. rewrite Hws. reflexivity. }
  rewrite H1. unfold mbind at 3, M_bind at 3.
  reflexivity.
Qed.

Lemma send_grid_held_no_faults grid s c :
  ws s = Some c →
  ∃ l, send_grid no_faults clock grid s
       = (Ok tt, (send_grid no_faults clock grid s).2) ∧
       ws (send_grid no_faults clock grid s).2 = Some c ∧
       net_calls (send_grid no_faults clock grid s).2
       = net_calls s ++ Send c (grid_to_payload grid) :: l ∧
       (l = [Time] ∨ l = [Time; Ping c]).
Proof.
  intros Hws. rewrite send_grid_unfold.
  rewrite (send_once_held no_faults clock (grid_to_payload grid) s c Hws eq_refl).
  destruct (Qle_bool _ _); cbn [no_faults fst snd set_last_ping log_call net_calls ws];
    rewrite <- !app_assoc; cbn [app].
  - exists [Time; Ping c]. repeat split; [exact Hws|]. right. reflexivity.
  - exists [Time]. repeat split; [exact Hws|]. left. reflexivity.
Qed.

Lemma send_all_cons faults g grids s :
  send_all faults clock (g :: grids) s
  = send_all faults clock grids (send_grid faults clock g s).2.
Proof. reflexivity. Qed.

Lemma send_all_held grids : ∀ s c,
  ws s = Some c →
  ws (send_all no_faults clock grids s) = Some c ∧
  connects (net_calls (send_all no_faults clock grids s)) = connects (net_calls s) ∧
  sent (net_calls (send_all no_faults clock grids s))
  = sent (net_calls s) ++ ((λ g, Send c (grid_to_payload g)) <$> grids) ∧
  (Forall (λ call, ∀ k, call ≠ Close k) (net_calls s) →
   Forall (λ call, ∀ k, call ≠ Close k) (net_calls (send_all no_faults clock grids s))).
Proof.
  induction grids as [|g grids IH]; intros s c Hws.
  - cbn [send_all foldl fmap list_fmap]. rewrite app_nil_r. repeat split; [exact Hws|tauto].
  - destruct (send_grid_held_no_faults g s c Hws) as (l & _ & Hws1 & Hcalls & Hl).
    rewrite send_all_cons.
    destruct (IH _ c Hws1) as (H1 & H2 & H3 & H4).
    split; [exact H1|]. split; [|split].
    + rewrite H2, Hcalls, connects_app.
      destruct Hl as [-> | ->]; cbn; lia.
    + rewrite H3, Hcalls. unfold sent. rewrite List.filter_app.
      rewrite <- app_assoc. f_equal.
      destruct Hl as [-> | ->]; reflexivity.
    + intros Hno. apply H4. rewrite Hcalls. apply Forall_app. split; [exact Hno|].
      destruct Hl as [-> | ->]; repeat (apply Forall_cons; split; [discriminate|]);
        apply Forall_nil; exact I.
Qed.

End NoFaults.

(** X17. The socket is persistent: when no call on the library fails,
    any number of grids sent one after the other from a new
    [McduSocket] go over one connection, the one the first call opens.
    The trace has one [create_connection], no [close], and one [send]
    per grid on that connection, in the order of the grids, each with
    the payload of its grid; and the connection is still held at the
    end. *)
Theorem send_all_reuses_connection (clock : nat → Q) (url0 : list N)
    (grids : list (list (list (list atom)))) :
  grids ≠ [] →
  let s := send_all no_faults clock grids (new_McduSocket url0) in
  ws s = Some 0%nat ∧
  connects (net_calls s) = 1%nat ∧
  sent (net_calls s) = (λ g, Send 0 (grid_to_payload g)) <$> grids ∧
  Forall (λ call, ∀ k, call ≠ Close k) (net_calls s) ∧
  ∃ l, net_calls s = CreateConnection url0 2 :: SetTimeout 0 1 :: l.
Proof.
  destruct grids as [|g grids]; [congruence|]. intros _.
  set (s0 := log_call (SetTimeout 0 1)
               (set_ws (Some 0%nat) (log_call (CreateConnection url0 2) (new_McduSocket url0)))).
  assert (Hfirst : send_grid no_faults clock g (new_McduSocket url0)
                   = send_grid no_faults clock g s0).
  { rewrite !send_grid_unfold.
    rewrite (send_once_connects clock (grid_to_payload g) (new_McduSocket url0) eq_refl).
    reflexivity. }
  cbn zeta. rewrite send_all_cons, Hfirst, <- send_all_cons.
  destruct (send_all_held clock (g :: grids) s0 0%nat eq_refl) as (H1 & H2 & H3 & H4).
  split; [exact H1|]. split; [exact H2|]. split; [exact H3|]. split.
  - apply H4. repeat (apply Forall_cons; split; [discriminate|]). apply Forall_nil. exact I.
  - clear H1 H2 H3 H4. generalize (g :: grids). intros gs.
    cut (∀ s, (∃ l, net_calls s = CreateConnection url0 2 :: SetTimeout 0 1 :: l) →
              ∃ l, net_calls (send_all no_faults clock gs s)
                   = CreateConnection url0 2 :: SetTimeout 0 1 :: l).
    { intros H. apply H. exists []. reflexivity. }
    induction gs as [|g' gs IH]; intros s [l Hl]; [exists l; exact Hl|].
    rewrite send_all_cons. apply IH.
    destruct (send_grid_trace no_faults clock g' s) as (l' & (Hext & _) & _).
    rewrite Hext, Hl. eexists. reflexivity.
Qed.

Lemma send_all_reuses_connection_witness :
  connects (net_calls (send_all no_faults clock_100 [empty_grid; empty_grid; empty_grid]
                         (new_McduSocket MCDU_URL))) = 1%nat.
Proof.
  apply (send_all_reuses_connection clock_100 MCDU_URL [empty_grid; empty_grid; empty_grid]).
  discriminate.
Defined.

(** ** Exceptions the sender does not handle *)

(** X18. [send_grid] handles [WebSocketException] and [OSError] only.
    When [create_connection] or [send] raises another exception, it
    escapes from the first attempt: there is no second attempt and no
    [close]; a held connection stays held, so the next call uses it
    again. *)
Theorem send_grid_lets_other_exceptions_escape (faults : nat → option exn)
    (clock : nat → Q) (grid : list (list (list atom))) (s : McduSocket) (e : exn) :
  faults (length (net_calls s)) = Some e → is_transport_error e = false →
  (∀ c, ws s = Some c →
        send_grid faults clock grid s
        = (Raise e, log_call (Send c (grid_to_payload grid)) s)) ∧
  (ws s = None →
   send_grid faults clock grid s
   = (Raise e, log_call (CreateConnection (url s) (connect_timeout s)) s)).
Proof.
  intros Hfault Hother. split.
  - intros c Hws. rewrite send_grid_unfold.
    assert (H1 : send_once faults clock (grid_to_payload grid) s
                 = (Raise e, log_call (Send c (grid_to_payload grid)) s)).
    { unfold send_once, _ensure.
      unfold mbind at 1, M_bind at 1.
      unfold mbind at 1, M_bind at 1, gets at 1. rewrite Hws.
      unfold mret at 1, M_ret at 1.
      unfold mbind at 1, M_bind at 1, with_ws at 1.
      unfold mbind at 1, M_bind at 1, gets at 1. rewrite Hws.
      unfold net at 1. rewrite Hfault. reflexivity. }
    rewrite H1, Hother. reflexivity.
  - intros Hws. rewrite send_grid_unfold.
    assert (H1 : send_once faults clock (grid_to_payload grid) s
                 = (Raise e, log_call (CreateConnection (url s) (connect_timeout s)) s)).
    { unfold send_once, _ensure.
      unfold mbind at 1, M_bind at 1.
      unfold mbind at 1, M_bind at 1, gets at 1. rewrite Hws.
      unfold _connect.
      unfold mbind at 1, M_bind at 1, gets at 1.
      unfold mbind at 1, M_bind at 1, gets at 1.
      unfold mbind at 1, M_bind at 1, net at 1. rewrite Hfault. reflexivity. }
    rewrite H1, Hother. reflexivity.
Qed.

Lemma send_grid_lets_other_exceptions_escape_witness :
  send_grid (raising ValueError 0) clock_100 empty_grid (new_McduSocket MCDU_URL)
  = (Raise ValueError, log_call (CreateConnection MCDU_URL 2) (new_McduSocket MCDU_URL)).
Proof.
  destruct (send_grid_lets_other_exceptions_escape (raising ValueError 0) clock_100
              empty_grid (new_McduSocket MCDU_URL) ValueError) as [_ H];
    [reflexivity|reflexivity|].
  apply H. reflexivity.
Defined.

(** ** The handler list *)

Lemma list_remove_spec {H} `{EqDecision H} (x : H) (l : list H) :
  x ∈ l → NoDup l →
  ∃ l', list_remove x l = Some l' ∧ NoDup l' ∧ l' `sublist_of` l ∧
        ∀ y, y ∈ l' ↔ y ≠ x ∧ y ∈ l.
Proof.
  induction l as [|y rest IH]; intros Hin Hnd; [inversion Hin|].
  apply NoDup_cons in Hnd as [Hy Hnd]. cbn [list_remove].
  destruct (bool_decide_reflect (y = x)) as [->|Hne].
  - exists rest. split; [reflexivity|]. split; [exact Hnd|]. split; [by apply sublist_cons|].
    intros z. rewrite elem_of_cons. split.
    + intros Hz. split; [|by right]. intros ->. contradiction.
    + intros [Hz [->|Hz']]; [contradiction|exact Hz'].
  - apply elem_of_cons in Hin as [->|Hin]; [contradiction|].
    destruct (IH Hin Hnd) as (l' & -> & Hnd' & Hsub & Hmem).
    exists (y :: l'). split; [reflexivity|]. split; [|split].
    + apply NoDup_cons. split; [|exact Hnd']. rewrite Hmem. tauto.
    + by apply sublist_skip.
    + intros z. rewrite !elem_of_cons, Hmem. split.
      * intros [->|[Hz Hz']]; [split; [exact Hne|by left]|split; [exact Hz|by right]].
      * intros [Hz [->|Hz']]; [by left|right; tauto].
Qed.

(** X19. The handler list of the wrapper never holds a handler twice,
    so a notification reaches each registered handler once.  On a list
    without duplicates, as [__init__] creates it and both operations
    keep it: registering adds the handler at the end when it is not
    there and changes nothing when it is, so registering twice is
    registering once; unregistering never raises, removes the handler
    altogether, keeps the others in their order, and changes nothing
    when the handler is not there; and unregistering a handler just
    registered gives the list back. *)
Theorem handlers_registered_once {H} `{EqDecision H} (handler : H) (l : list H) :
  NoDup l →
  NoDup (register_client_data_handler handler l) ∧
  (∀ h, h ∈ register_client_data_handler handler l ↔ h = handler ∨ h ∈ l) ∧
  (handler ∈ l → register_client_data_handler handler l = l) ∧
  register_client_data_handler handler (register_client_data_handler handler l)
  = register_client_data_handler handler l ∧
  (∃ l', unregister_client_data_handler handler l = Some l' ∧ NoDup l' ∧
         l' `sublist_of` l ∧
         (∀ h, h ∈ l' ↔ h ≠ handler ∧ h ∈ l) ∧
         (handler ∉ l → l' = l)) ∧
  (handler ∉ l →
   unregister_client_data_handler handler (register_client_data_handler handler l)
   = Some l).
Proof.
  intros Hnd.
  assert (Hreg : ∀ h, h ∈ register_client_data_handler handler l ↔ h = handler ∨ h ∈ l).
  { intros h. unfold register_client_data_handler. case_bool_decide as Hin.
    - rewrite elem_of_app, list_elem_of_singleton. tauto.
    - split; [tauto|]. intros [->|Hh]; [|assumption].
      destruct (decide (handler ∈ l)); [assumption|contradiction]. }
  assert (Hkeep : handler ∈ l → register_client_data_handler handler l = l).
  { intros Hin. unfold register_client_data_handler.
    rewrite bool_decide_eq_false_2; [reflexivity|]. intros Hn. contradiction. }
  split; [|split; [exact Hreg|split; [exact Hkeep|split; [|split]]]].
  - unfold register_client_data_handler. case_bool_decide as Hin; [|exact Hnd].
    apply NoDup_app. split; [exact Hnd|]. split; [|apply NoDup_singleton].
    intros h Hh Hh'. apply list_elem_of_singleton in Hh'. subst h. contradiction.
  - unfold register_client_data_handler at 1.
    rewrite bool_decide_eq_false_2; [reflexivity|].
    intros Hn. apply Hn, Hreg. by left.
  - unfold unregister_client_data_handler. case_bool_decide as Hin.
    + destruct (list_remove_spec handler l Hin Hnd) as (l' & Hrun & Hnd' & Hsub & Hmem).
      exists l'. split; [exact Hrun|]. split; [exact Hnd'|]. split; [exact Hsub|].
      split; [exact Hmem|]. intros Hn. contradiction.
    + exists l. split; [reflexivity|]. split; [exact Hnd|]. split; [reflexivity|].
      split; [|reflexivity]. intros h. split; [|tauto].
      intros Hh. split; [|exact Hh]. intros ->. contradiction.
  - intros Hnotin. unfold register_client_data_handler.
    rewrite bool_decide_eq_true_2 by exact Hnotin.
    unfold unregister_client_data_handler.
    rewrite bool_decide_eq_true_2 by (apply elem_of_app; right; by left).
    clear Hreg Hkeep Hnd. induction l as [|y rest IH]; cbn [app list_remove].
    + rewrite bool_decide_eq_true_2 by reflexivity. reflexivity.
    + apply not_elem_of_cons in Hnotin as [Hne Hnotin].
      rewrite bool_decide_eq_false_2 by congruence.
      rewrite (IH Hnotin). reflexivity.
Qed.

Lemma handlers_registered_once_witness :
  register_client_data_handler 7%nat (register_client_data_handler 7%nat []) = [7%nat] ∧
  unregister_client_data_handler 7%nat (register_client_data_handler 7%nat [3%nat])
  = Some [3%nat].
Proof.
  destruct (handlers_registered_once 7%nat ([] : list nat)) as (_ & _ & _ & H1 & _);
    [apply NoDup_nil; exact I|].
  destruct (handlers_registered_once 7%nat [3%nat]) as (_ & _ & _ & _ & _ & H2);
    [apply NoDup_singleton|].
  split; [exact H1|]. apply H2.
  intros Hin. apply list_elem_of_singleton in Hin. discriminate.
Defined.

(** ** The characters of the payload *)

Lemma printable_hex_digit n : (n < 16)%N → printable (hex_digit n).
Proof.
  intros Hn. unfold hex_digit, printable. case_bool_decide; lia.
Qed.

Lemma printable_escape_u c : Forall printable (escape_u c).
Proof.
  unfold escape_u.
  repeat (apply Forall_cons; split;
          [first [apply printable_hex_digit; apply N.mod_lt; discriminate
                 |unfold printable; lia]|]).
  apply Forall_nil. exact I.
Qed.

Lemma printable_escape_char c : Forall printable (escape_char c).
Proof.
  assert (H2 : ∀ a b : N, printable a → printable b → Forall printable [a; b]).
  { intros a b Ha Hb. repeat (apply Forall_cons; split; [assumption|]).
    apply Forall_nil. exact I. }
  unfold escape_char.
  do 7 (case_bool_decide; [apply H2; unfold printable; lia|]).
  case_bool_decide as Hc.
  { apply Forall_cons. split; [exact Hc|apply Forall_nil; exact I]. }
  case_bool_decide; [apply printable_escape_u|].
  apply Forall_app. split; apply printable_escape_u.
Qed.

Lemma printable_dumps_str s : Forall printable (dumps_str s).
Proof.
  unfold dumps_str. apply Forall_app. split.
  { apply Forall_cons. split; [unfold printable; lia|apply Forall_nil; exact I]. }
  apply Forall_app. split.
  - induction s as [|c s IH]; [apply Forall_nil; exact I|].
    cbn [mbind list_bind]. apply Forall_app. split; [apply printable_escape_char|exact IH].
  - apply Forall_cons. split; [unfold printable; lia|apply Forall_nil; exact I].
Qed.

Lemma printable_uint d : Forall printable (py (NilEmpty.string_of_uint d)).
Proof.
  induction d as [|d IH|d IH|d IH|d IH|d IH|d IH|d IH|d IH|d IH|d IH];
    [apply Forall_nil; exact I|..];
    (apply Forall_cons; split; [unfold printable; cbn; lia|exact IH]).
Qed.

Lemma printable_dumps_int n : Forall printable (dumps_int n).
Proof.
  unfold dumps_int, NilZero.string_of_int.
  assert (Hu : ∀ d, Forall printable (py (NilZero.string_of_uint d))).
  { intros d. unfold NilZero.string_of_uint.
    destruct d; try apply printable_uint.
    apply Forall_cons. split; [unfold printable; cbn; lia|apply Forall_nil; exact I]. }
  destruct (Z.to_int n) as [d|d]; [apply Hu|].
  apply Forall_cons. split; [unfold printable; cbn; lia|apply Hu].
Qed.

Lemma printable_py_literal (s : string) :
  Forall (λ a, (32 ≤ N_of_ascii a ≤ 126)%N) (list_ascii_of_string s) →
  Forall printable (py s).
Proof. intros H. unfold py. apply Forall_fmap. exact H. Qed.

Lemma printable_cell (c : list atom) : Forall printable (json_dumps (cell_json c)).
Proof.
  unfold cell_json. cbn [json_dumps].
  apply Forall_app. split; [repeat constructor; unfold printable; cbn; lia|].
  apply Forall_app. split; [|repeat constructor; unfold printable; cbn; lia].
  assert (Hatom : ∀ a, Forall printable (json_dumps (atom_json a))).
  { intros [s|n]; [apply printable_dumps_str|apply printable_dumps_int]. }
  induction c as [|a c IH]; [apply Forall_nil; exact I|].
  cbn [fmap list_fmap]. destruct c as [|a' c].
  - apply Hatom.
  - cbn [fmap list_fmap] in *. apply Forall_app. split; [apply Hatom|].
    apply Forall_app. split; [repeat constructor; unfold printable; cbn; lia|exact IH].
Qed.

(** X24. The payload is printable ASCII, whatever the grid holds: every
    character [grid_to_payload] returns is between the space and the
    tilde.  A glyph beyond ASCII, such as the arrows and the box that
    [put_text] substitutes, travels as an escape of the form [\uXXXX],
    and so do control characters. *)
Theorem grid_to_payload_printable (grid : list (list (list atom))) :
  Forall printable (grid_to_payload grid).
Proof.
  unfold grid_to_payload, payload_document. cbn [json_dumps].
  apply Forall_app. split; [repeat constructor; unfold printable; cbn; lia|].
  apply Forall_app. split; [|repeat constructor; unfold printable; cbn; lia].
  apply Forall_app. split; [apply printable_dumps_str|].
  apply Forall_app. split; [repeat constructor; unfold printable; cbn; lia|].
  apply Forall_app. split; [apply printable_dumps_str|].
  apply Forall_app. split; [repeat constructor; unfold printable; cbn; lia|].
  apply Forall_app. split; [apply printable_dumps_str|].
  apply Forall_app. split; [repeat constructor; unfold printable; cbn; lia|].
  apply Forall_app. split; [repeat constructor; unfold printable; cbn; lia|].
  apply Forall_app. split; [|repeat constructor; unfold printable; cbn; lia].
  generalize (chain grid). intros cells.
  induction cells as [|c cells IH]; [apply Forall_nil; exact I|].
  cbn [fmap list_fmap]. destruct cells as [|c' cells].
  - apply printable_cell.
  - cbn [fmap list_fmap] in *. apply Forall_app. split; [apply printable_cell|].
    apply Forall_app. split; [repeat constructor; unfold printable; cbn; lia|exact IH].
Qed.

(** ** The attempts of the sender, case by case *)

Section Attempts.

Variable faults : nat → option exn.
Variable clock : nat → Q.

Lemma close_and_discard_held guarded s c :
  ws s = Some c →
  close_and_discard faults guarded s = (Ok tt, set_ws None (log_call (Close c) s)).
Proof.
  intros Hws. unfold close_and_discard, try_except.
  unfold mbind at 1, M_bind at 1.
  unfold mbind at 1, M_bind at 1, gets at 1. rewrite Hws.
  unfold mbind at 1, M_bind at 1, net at 1.
  destruct (faults (length (net_calls s))); reflexivity.
Qed.

Lemma close_and_discard_none guarded s :
  ws s = None → close_and_discard faults guarded s = (Ok tt, set_ws None s).
Proof.
  intros Hws. unfold close_and_discard, try_except.
  unfold mbind at 1, M_bind at 1.
  unfold mbind at 1, M_bind at 1, gets at 1. rewrite Hws.
  destruct guarded; reflexivity.
Qed.

(** An attempt on a held connection whose [send] raises. *)
Lemma send_once_send_raises payload s c e :
  ws s = Some c → faults (length (net_calls s)) = Some e →
  send_once faults clock payload s = (Raise e, log_call (Send c payload) s).
Proof.
  intros Hws Hfault. unfold send_once, _ensure.
  unfold mbind at 1, M_bind at 1.
  unfold mbind at 1, M_bind at 1, gets at 1. rewrite Hws.
  unfold mret at 1, M_ret at 1.
  unfold mbind at 1, M_bind at 1, with_ws at 1.
  unfold mbind at 1, M_bind at 1, gets at 1. rewrite Hws.
  unfold net at 1. rewrite Hfault. reflexivity.
Qed.

(** An attempt without a connection: [create_connection] raises, or
    [settimeout] does, or both return and the attempt goes on with the
    new connection. *)
Lemma send_once_create_raises payload s e :
  ws s = None → faults (length (net_calls s)) = Some e →
  send_once faults clock payload s
  = (Raise e, log_call (CreateConnection (url s) (connect_timeout s)) s).
Proof.
  intros Hws Hfault. unfold send_once, _ensure.
  unfold mbind at 1, M_bind at 1.
  unfold mbind at 1, M_bind at 1, gets at 1. rewrite Hws.
  unfold _connect.
  unfold mbind at 1, M_bind at 1, gets at 1.
  unfold mbind at 1, M_bind at 1, gets at 1.
  unfold mbind at 1, M_bind at 1, net at 1. rewrite Hfault. reflexivity.
Qed.

Lemma send_once_settimeout_raises payload s e :
  ws s = None → faults (length (net_calls s)) = None →
  faults (S (length (net_calls s))) = Some e →
  send_once faults clock payload s
  = (Raise e, log_call (SetTimeout (length (net_calls s)) 1)
                (set_ws (Some (length (net_calls s)))
                   (log_call (CreateConnection (url s) (connect_timeout s)) s))).
Proof.
  intros Hws Hcreate Hfault. unfold send_once, _ensure.
  unfold mbind at 1, M_bind at 1.
  unfold mbind at 1, M_bind at 1, gets at 1. rewrite Hws.
  unfold _connect.
  unfold mbind at 1, M_bind at 1, gets at 1.
  unfold mbind at 1, M_bind at 1, gets at 1.
  unfold mbind at 1, M_bind at 1, net at 1. rewrite Hcreate.
  unfold mbind at 1, M_bind at 1, modify at 1.
  unfold mbind at 1, M_bind at 1, with_ws at 1.
  unfold mbind at 1, M_bind at 1, gets at 1. cbn [set_ws ws].
  unfold net at 1. cbn [set_ws log_call net_calls].
  rewrite length_app. cbn [length]. rewrite Nat.add_1_r, Hfault. reflexivity.
Qed.

Lemma send_once_connected payload s :
  ws s = None → faults (length (net_calls s)) = None →
  faults (S (length (net_calls s))) = None →
  send_once faults clock payload s =
  send_once faults clock payload
    (log_call (SetTimeout (length (net_calls s)) 1)
       (set_ws (Some (length (net_calls s)))
          (log_call (CreateConnection (url s) (connect_timeout s)) s))).
Proof.
  intros Hws Hcreate Hset. unfold send_once at 1 2.
  unfold mbind at 1, M_bind at 1.
  assert (H1 : _ensure faults s =
               (Ok tt, log_call (SetTimeout (length (net_calls s)) 1)
                         (set_ws (Some (length (net_calls s)))
                            (log_call (CreateConnection (url s) (connect_timeout s)) s)))).
  { unfold _ensure. unfold mbind at 1, M_bind at 1, gets at 1. rewrite Hws.
    unfold _connect.
    unfold mbind at 1, M_bind at 1, gets at 1.
    unfold mbind at 1, M_bind at 1, gets at 1.
    unfold mbind at 1, M_bind at 1, net at 1. rewrite Hcreate.
    unfold mbind at 1, M_bind at 1, modify at 1.
    unfold mbind at 1, M_bind at 1, with_ws at 1.
    unfold mbind at 1, M_bind at 1, gets at 1. cbn [set_ws ws].
    unfold net at 1. cbn [set_ws log_call net_calls].
    rewrite length_app. cbn [length]. rewrite Nat.add_1_r, Hset. reflexivity. }
  rewrite H1. unfold mbind at 3, M_bind at 3. reflexivity.
Qed.

(** *** No connection is dropped without [close] *)

Lemma opened_log c s k :
  opened faults (net_calls (log_call c s)) k ↔
  opened faults (net_calls s) k ∨
  (k = length (net_calls s) ∧ faults k = None ∧ ∃ u t, c = CreateConnection u t).
Proof.
  unfold opened. cbn [log_call net_calls]. split.
  - intros (Hf & u & t & Hlook).
    apply lookup_app_Some in Hlook as [Hlook|[Hge Hlook]]; [left; eauto|].
    apply list_lookup_singleton_Some in Hlook as [Hk ->].
    right. split; [lia|]. split; [exact Hf|eauto].
  - intros [(Hf & u & t & Hlook)|(-> & Hf & u & t & ->)].
    + split; [exact Hf|]. exists u, t. apply lookup_app_l_Some, Hlook.
    + split; [exact Hf|]. exists u, t.
      rewrite lookup_app_r by lia. rewrite Nat.sub_diag. reflexivity.
Qed.

Lemma no_leak_log c s :
  (∀ u t, c ≠ CreateConnection u t) → no_leak faults s → no_leak faults (log_call c s).
Proof.
  intros Hc [Hclosed Hheld]. split.
  - intros k Hk. apply opened_log in Hk as [Hk|(_ & _ & u & t & ->)];
      [|exfalso; eapply Hc; reflexivity].
    destruct (Hclosed k Hk) as [Hws|Hin]; [left; exact Hws|right].
    cbn [log_call net_calls]. apply elem_of_app. left. exact Hin.
  - intros k Hws. apply opened_log. left. apply Hheld, Hws.
Qed.

Lemma no_leak_set_last_ping t s :
  no_leak faults s → no_leak faults (set_last_ping t s).
Proof. intros H. exact H. Qed.

Lemma no_leak_discard c s :
  ws s = Some c → no_leak faults s →
  no_leak faults (set_ws None (log_call (Close c) s)).
Proof.
  intros Hws [Hclosed Hheld]. split; [|intros k; discriminate].
  intros k Hk. cbn [set_ws net_calls] in Hk. change (net_calls (log_call (Close c) s))
    with (net_calls (log_call (Close c) s)) in Hk.
  apply opened_log in Hk as [Hk|(_ & _ & u & t & Hc)]; [|discriminate].
  right. cbn [set_ws log_call net_calls]. apply elem_of_app.
  destruct (Hclosed k Hk) as [Hws'|Hin]; [right|left; exact Hin].
  rewrite Hws in Hws'. injection Hws' as ->. by left.
Qed.

Lemma no_leak_close_and_discard guarded s :
  no_leak faults s → no_leak faults (close_and_discard faults guarded s).2.
Proof.
  intros Hno. destruct (ws s) as [c|] eqn:Hws.
  - rewrite (close_and_discard_held guarded s c Hws). cbn [snd].
    apply no_leak_discard; assumption.
  - rewrite (close_and_discard_none guarded s Hws). cbn [snd].
    destruct Hno as [Hclosed Hheld]. split; [|intros k; discriminate].
    intros k Hk. cbn [set_ws net_calls] in *.
    destruct (Hclosed k Hk) as [Hws'|Hin]; [congruence|right; exact Hin].
Qed.

Lemma no_leak_connected s :
  ws s = None → faults (length (net_calls s)) = None → no_leak faults s →
  no_leak faults (set_ws (Some (length (net_calls s)))
                    (log_call (CreateConnection (url s) (connect_timeout s)) s)).
Proof.
  intros Hws Hf [Hclosed Hheld]. split.
  - intros k Hk. cbn [set_ws net_calls ws] in *.
    change (net_calls s ++ [CreateConnection (url s) (connect_timeout s)])
      with (net_calls (log_call (CreateConnection (url s) (connect_timeout s)) s)) in Hk.
    apply opened_log in Hk as [Hk|(-> & _)]; [|left; reflexivity].
    destruct (Hclosed k Hk) as [Hws'|Hin]; [congruence|].
    right. apply elem_of_app. left. exact Hin.
  - intros k Hk. cbn [set_ws ws] in Hk. injection Hk as <-.
    cbn [set_ws net_calls].
    change (net_calls s ++ [CreateConnection (url s) (connect_timeout s)])
      with (net_calls (log_call (CreateConnection (url s) (connect_timeout s)) s)).
    apply opened_log. right. split; [reflexivity|]. split; [exact Hf|eauto].
Qed.

Lemma no_leak_send_once_held payload s c :
  ws s = Some c → no_leak faults s →
  no_leak faults (send_once faults clock payload s).2.
Proof.
  intros Hws Hno.
  assert (Hsend : no_leak faults (log_call (Send c payload) s))
    by (apply no_leak_log; [discriminate|exact Hno]).
  destruct (faults (length (net_calls s))) as [e|] eqn:Hf.
  - rewrite (send_once_send_raises payload s c e Hws Hf). exact Hsend.
  - rewrite (send_once_held faults clock payload s c Hws Hf).
    assert (Htime : no_leak faults (log_call Time (log_call (Send c payload) s)))
      by (apply no_leak_log; [discriminate|exact Hsend]).
    assert (Hping : no_leak faults (log_call (Ping c)
                                      (log_call Time (log_call (Send c payload) s))))
      by (apply no_leak_log; [discriminate|exact Htime]).
    destruct (Qle_bool _ _); [|exact Htime].
    destruct (faults (S (S (length (net_calls s))))); cbn [snd].
    + apply no_leak_discard; [exact Hws|exact Hping].
    + apply no_leak_set_last_ping, Hping.
Qed.

Lemma no_leak_send_once payload s :
  no_leak faults s → no_leak faults (send_once faults clock payload s).2.
Proof.
  intros Hno. destruct (ws s) as [c|] eqn:Hws;
    [eapply no_leak_send_once_held; eauto|].
  destruct (faults (length (net_calls s))) as [e|] eqn:Hf.
  - rewrite (send_once_create_raises payload s e Hws Hf). cbn [snd].
    destruct Hno as [Hclosed Hheld]. split.
    + intros k Hk. apply opened_log in Hk as [Hk|(-> & Hf' & _)]; [|congruence].
      destruct (Hclosed k Hk) as [Hws'|Hin]; [left; exact Hws'|right].
      cbn [log_call net_calls]. apply elem_of_app. left. exact Hin.
    + intros k Hk. cbn [log_call ws] in Hk. congruence.
  - pose proof (no_leak_connected s Hws Hf Hno) as Hconn.
    assert (Hset : no_leak faults
              (log_call (SetTimeout (length (net_calls s)) 1)
                 (set_ws (Some (length (net_calls s)))
                    (log_call (CreateConnection (url s) (connect_timeout s)) s))))
      by (apply no_leak_log; [discriminate|exact Hconn]).
    destruct (faults (S (length (net_calls s)))) as [e|] eqn:Hf'.
    + rewrite (send_once_settimeout_raises payload s e Hws Hf Hf'). exact Hset.
    + rewrite (send_once_connected payload s Hws Hf Hf').
      eapply no_leak_send_once_held; [reflexivity|exact Hset].
Qed.

Lemma no_leak_send_grid grid s :
  no_leak faults s → no_leak faults (send_grid faults clock grid s).2.
Proof.
  intros Hno. rewrite send_grid_unfold.
  pose proof (no_leak_send_once (grid_to_payload grid) s Hno) as H1.
  destruct (send_once faults clock (grid_to_payload grid) s) as [[[]|e] s1];
    cbn [snd] in H1; [exact H1|].
  destruct (is_transport_error e); [|exact H1].
  pose proof (no_leak_close_and_discard true s1 H1) as H2.
  pose proof (no_leak_send_once (grid_to_payload grid) _ H2) as H3.
  destruct (send_once faults clock (grid_to_payload grid) _) as [[[]|e'] s3];
    cbn [snd] in H3; [exact H3|].
  destruct (is_transport_error e'); [|exact H3].
  apply no_leak_close_and_discard, H3.
Qed.

End Attempts.

(** X25. The sender drops no connection without closing it.  In every
    state a new [McduSocket] reaches through calls of [send_grid],
    whatever the library raises and when, each connection that
    [create_connection] returned is either the one held or has had
    [close] called on it, and the connection held is one that
    [create_connection] returned; so at most one connection is open
    at a time. *)
Theorem send_grid_leaks_no_connection (faults : nat → option exn) (clock : nat → Q)
    (url0 : list N) (grids : list (list (list (list atom)))) :
  let s := send_all faults clock grids (new_McduSocket url0) in
  (∀ k, opened faults (net_calls s) k → ws s = Some k ∨ Close k ∈ net_calls s) ∧
  (∀ k, ws s = Some k → opened faults (net_calls s) k) ∧
  (∀ k k', opened faults (net_calls s) k → opened faults (net_calls s) k' →
           k ≠ k' → Close k ∈ net_calls s ∨ Close k' ∈ net_calls s).
Proof.
  cbn zeta.
  assert (Hno : no_leak faults (send_all faults clock grids (new_McduSocket url0))).
  { assert (H0 : no_leak faults (new_McduSocket url0)).
    { split.
      - intros k (_ & u & t & Hk). cbn in Hk. rewrite lookup_nil in Hk. discriminate.
      - intros k Hk. discriminate. }
    revert H0. generalize (new_McduSocket url0).
    induction grids as [|g gs IH]; intros s H0; [exact H0|].
    unfold send_all. cbn [foldl]. apply IH, no_leak_send_grid, H0. }
  destruct Hno as [Hclosed Hheld].
  split; [exact Hclosed|]. split; [exact Hheld|].
  intros k k' Hk Hk' Hne.
  destruct (Hclosed k Hk) as [Hws|Hin]; [|left; exact Hin].
  destruct (Hclosed k' Hk') as [Hws'|Hin']; [|right; exact Hin'].
  congruence.
Qed.

Lemma send_grid_leaks_no_connection_witness :
  let s := send_all (failing_at [1; 4]%nat) clock_100 [empty_grid; empty_grid]
             (new_McduSocket MCDU_URL) in
  Close 0 ∈ net_calls s ∧ ws s = Some 6%nat.
Proof.
  intros s.
  destruct (send_grid_leaks_no_connection (failing_at [1; 4]%nat) clock_100 MCDU_URL
              [empty_grid; empty_grid]) as (Hclosed & _ & _).
  fold s in Hclosed.
  assert (Hws : ws s = Some 6%nat) by (vm_compute; reflexivity).
  split; [|exact Hws].
  destruct (Hclosed 0%nat) as [H|H]; [|rewrite Hws in H; discriminate|exact H].
  split; [reflexivity|]. exists MCDU_URL, 2%Q. vm_compute. reflexivity.
Defined.

Lemma returned_sends_app faults k l1 l2 :
  returned_sends faults k (l1 ++ l2)
  = (returned_sends faults k l1 + returned_sends faults (k + length l1) l2)%nat.
Proof.
  revert k. induction l1 as [|c l1 IH]; intros k; cbn [app returned_sends length].
  - rewrite Nat.add_0_r. reflexivity.
  - rewrite IH. replace (S k + length l1)%nat with (k + S (length l1))%nat by lia. lia.
Qed.

Section Deliveries.

Variable faults : nat → option exn.
Variable clock : nat → Q.

Lemma close_and_discard_returned_sends guarded s k :
  ∃ l, net_calls (close_and_discard faults guarded s).2 = net_calls s ++ l ∧
       returned_sends faults k l = 0%nat ∧
       ws (close_and_discard faults guarded s).2 = None.
Proof.
  destruct (ws s) as [c|] eqn:Hws.
  - rewrite (close_and_discard_held faults guarded s c Hws).
    exists [Close c]. repeat split.
  - rewrite (close_and_discard_none faults guarded s Hws).
    exists []. cbn [snd set_ws net_calls]. rewrite app_nil_r. repeat split.
Qed.

Lemma send_once_held_returned_sends payload s c :
  ws s = Some c →
  ∃ l, net_calls (send_once faults clock payload s).2 = net_calls s ++ l ∧
       returned_sends faults (length (net_calls s)) l
       = match (send_once faults clock payload s).1 with Ok _ => 1 | Raise _ => 0 end%nat.
Proof.
  intros Hws. destruct (faults (length (net_calls s))) as [e|] eqn:Hf.
  - rewrite (send_once_send_raises faults clock payload s c e Hws Hf).
    exists [Send c payload]. split; [reflexivity|].
    cbn [returned_sends is_Send andb fst]. rewrite Hf. reflexivity.
  - rewrite (send_once_held faults clock payload s c Hws Hf).
    destruct (Qle_bool _ _);
      [destruct (faults (S (S (length (net_calls s)))))|].
    + exists [Send c payload; Time; Ping c; Close c].
      split; [cbn [snd set_ws log_call net_calls]; rewrite <- !app_assoc; reflexivity|].
      cbn [returned_sends is_Send andb fst]. rewrite Hf. reflexivity.
    + exists [Send c payload; Time; Ping c].
      split; [cbn [snd set_last_ping log_call net_calls]; rewrite <- !app_assoc;
              reflexivity|].
      cbn [returned_sends is_Send andb fst]. rewrite Hf. reflexivity.
    + exists [Send c payload; Time].
      split; [cbn [snd log_call net_calls]; rewrite <- !app_assoc; reflexivity|].
      cbn [returned_sends is_Send andb fst]. rewrite Hf. reflexivity.
Qed.

Lemma send_once_returned_sends payload s :
  ∃ l, net_calls (send_once faults clock payload s).2 = net_calls s ++ l ∧
       returned_sends faults (length (net_calls s)) l
       = match (send_once faults clock payload s).1 with Ok _ => 1 | Raise _ => 0 end%nat.
Proof.
  destruct (ws s) as [c|] eqn:Hws;
    [eapply send_once_held_returned_sends; eauto|].
  destruct (faults (length (net_calls s))) as [e|] eqn:Hf.
  - rewrite (send_once_create_raises faults clock payload s e Hws Hf).
    exists [CreateConnection (url s) (connect_timeout s)]. split; reflexivity.
  - destruct (faults (S (length (net_calls s)))) as [e|] eqn:Hf'.
    + rewrite (send_once_settimeout_raises faults clock payload s e Hws Hf Hf').
      exists [CreateConnection (url s) (connect_timeout s);
              SetTimeout (length (net_calls s)) 1].
      split; [cbn [snd set_ws log_call net_calls]; rewrite <- !app_assoc; reflexivity|].
      reflexivity.
    + rewrite (send_once_connected faults clock payload s Hws Hf Hf').
      set (s0 := log_call _ (set_ws _ (log_call _ s))).
      destruct (send_once_held_returned_sends payload s0 (length (net_calls s)) eq_refl)
        as (l & Hl & Hn).
      exists ([CreateConnection (url s) (connect_timeout s);
               SetTimeout (length (net_calls s)) 1] ++ l).
      split.
      * rewrite Hl. unfold s0. cbn [set_ws log_call net_calls].
        rewrite <- !app_assoc. reflexivity.
      * rewrite returned_sends_app. cbn [returned_sends is_Send andb length Nat.add].
        rewrite <- Hn. unfold s0. cbn [set_ws log_call net_calls].
        rewrite !length_app. cbn [length].
        replace (length (net_calls s) + 1 + 1)%nat with (length (net_calls s) + 2)%nat
          by lia.
        reflexivity.
Qed.

End Deliveries.

(** X26. [send_grid] delivers a grid at most once: whatever the
    library raises and when, at most one of the [send] calls of one
    call of [send_grid] returns, since a second attempt is made only
    after a call of the first attempt raised and nothing is sent after
    a [send] that returned.  When [send_grid] returns and still holds
    a connection, exactly one [send] returned. *)
Theorem send_grid_delivers_at_most_once (faults : nat → option exn) (clock : nat → Q)
    (grid : list (list (list atom))) (s : McduSocket) :
  ∃ l, net_calls (send_grid faults clock grid s).2 = net_calls s ++ l ∧
       (returned_sends faults (length (net_calls s)) l ≤ 1)%nat ∧
       ((send_grid faults clock grid s).1 = Ok tt →
        ws (send_grid faults clock grid s).2 ≠ None →
        returned_sends faults (length (net_calls s)) l = 1%nat).
Proof.
  rewrite send_grid_unfold.
  destruct (send_once_returned_sends faults clock (grid_to_payload grid) s) as (l1 & Hl1 & Hn1).
  destruct (send_once faults clock (grid_to_payload grid) s) as [[[]|e] s1];
    cbn [fst snd] in Hl1, Hn1.
  { exists l1. cbn [fst snd]. split; [exact Hl1|]. split; [lia|]. intros _ _. exact Hn1. }
  destruct (is_transport_error e).
  2:{ exists l1. cbn [fst snd]. split; [exact Hl1|]. split; [lia|]. discriminate. }
  destruct (close_and_discard_returned_sends faults true s1 (length (net_calls s) + length l1))
    as (l2 & Hl2 & Hn2 & _).
  set (s2 := (close_and_discard faults true s1).2) in *.
  destruct (send_once_returned_sends faults clock (grid_to_payload grid) s2) as (l3 & Hl3 & Hn3).
  assert (Hlen2 : length (net_calls s2) = (length (net_calls s) + length (l1 ++ l2))%nat)
    by (rewrite Hl2, Hl1, !length_app; lia).
  rewrite Hlen2 in Hn3.
  destruct (send_once faults clock (grid_to_payload grid) s2) as [[[]|e'] s3];
    cbn [fst snd] in Hl3, Hn3.
  { exists ((l1 ++ l2) ++ l3). cbn [fst snd].
    split; [rewrite Hl3, Hl2, Hl1, <- !app_assoc; reflexivity|].
    rewrite (returned_sends_app _ _ (l1 ++ l2)), returned_sends_app, Hn1, Hn2, Hn3.
    split; [lia|]. intros _ _. reflexivity. }
  destruct (is_transport_error e').
  - destruct (close_and_discard_returned_sends faults true s3
                (length (net_calls s) + length ((l1 ++ l2) ++ l3)))
      as (l4 & Hl4 & Hn4 & Hws4).
    exists (((l1 ++ l2) ++ l3) ++ l4). cbn [fst snd].
    split; [rewrite Hl4, Hl3, Hl2, Hl1, <- !app_assoc; reflexivity|].
    rewrite (returned_sends_app _ _ ((l1 ++ l2) ++ l3)),
      (returned_sends_app _ _ (l1 ++ l2)), returned_sends_app, Hn1, Hn2, Hn3, Hn4.
    split; [lia|]. intros _ Hws. contradiction.
  - exists ((l1 ++ l2) ++ l3). cbn [fst snd].
    split; [rewrite Hl3, Hl2, Hl1, <- !app_assoc; reflexivity|].
    rewrite (returned_sends_app _ _ (l1 ++ l2)), returned_sends_app, Hn1, Hn2, Hn3.
    split; [lia|]. discriminate.
Qed.

Lemma send_grid_delivers_at_most_once_witness :
  ∃ l, net_calls (send_grid (failing_at [2]%nat) clock_100 empty_grid
                    (new_McduSocket MCDU_URL)).2 = l ∧
       sends l = 2%nat ∧ returned_sends (failing_at [2]%nat) 0 l = 1%nat.
Proof.
  destruct (send_grid_delivers_at_most_once (failing_at [2]%nat) clock_100 empty_grid
              (new_McduSocket MCDU_URL)) as (l & Hl & _ & Hone).
  change (net_calls (new_McduSocket MCDU_URL) ++ l) with l in Hl.
  exists l. split; [exact Hl|].
  assert (Hsends : sends l = 2%nat)
    by (rewrite <- Hl; vm_compute; reflexivity).
  split; [exact Hsends|].
  apply Hone; [vm_compute; reflexivity|vm_compute; discriminate].
Defined.

(** ** The retry of the sender, call by call *)

Lemma first_fault_raises faults k n j e :
  first_fault faults k n = Some (j, e) → faults (k + j)%nat = Some e.
Proof.
  revert k j. induction n as [|n IH]; intros k j H; [discriminate|].
  cbn [first_fault] in H. destruct (faults k) as [e'|] eqn:Hk.
  - injection H as <- <-. rewrite Nat.add_0_r. exact Hk.
  - destruct (first_fault faults (S k) n) as [[j' e']|] eqn:Hrest; [|discriminate].
    injection H as <- <-. replace (k + S j')%nat with (S k + j')%nat by lia.
    apply IH, Hrest.
Qed.

Section OneAttempt.

Variable faults : nat → option exn.
Variable clock : nat → Q.

(** One attempt, call by call: it makes the calls of its plan up to the
    first that raises, and raises what that call raised; when none
    raises it returns after the plan and the keep-alive, which sends
    nothing and opens nothing. *)
Lemma send_once_attempt payload s :
  match first_fault faults (length (net_calls s)) (length (attempt_plan payload s)) with
  | Some (j, e) =>
      ∃ s1, send_once faults clock payload s = (Raise e, s1) ∧
            net_calls s1 = net_calls s ++ take (S j) (attempt_plan payload s) ∧
            ws s1 = held_at s j
  | None =>
      ∃ s1 lp, send_once faults clock payload s = (Ok tt, s1) ∧
               net_calls s1 = net_calls s ++ attempt_plan payload s ++ lp ∧
               sends lp = 0%nat ∧ connects lp = 0%nat
  end.
Proof.
  assert (Hheld : ∀ s0 c, ws s0 = Some c →
            match faults (length (net_calls s0)) with
            | Some e =>
                send_once faults clock payload s0 = (Raise e, log_call (Send c payload) s0)
            | None =>
                ∃ s1 lp, send_once faults clock payload s0 = (Ok tt, s1) ∧
                         net_calls s1 = net_calls s0 ++ [Send c payload] ++ lp ∧
                         sends lp = 0%nat ∧ connects lp = 0%nat
            end).
  { intros s0 c Hws. destruct (faults (length (net_calls s0))) as [e|] eqn:Hf.
    - apply send_once_send_raises; assumption.
    - rewrite (send_once_held faults clock payload s0 c Hws Hf).
      destruct (Qle_bool _ _); [destruct (faults (S (S (length (net_calls s0)))))|].
      + eexists _, [Time; Ping c; Close c]. split; [reflexivity|].
        split; [cbn [set_ws log_call net_calls]; rewrite <- !app_assoc; reflexivity|].
        split; reflexivity.
      + eexists _, [Time; Ping c]. split; [reflexivity|].
        split; [cbn [set_last_ping log_call net_calls]; rewrite <- !app_assoc; reflexivity|].
        split; reflexivity.
      + eexists _, [Time]. split; [reflexivity|].
        split; [cbn [log_call net_calls]; rewrite <- !app_assoc; reflexivity|].
        split; reflexivity. }
  unfold attempt_plan, held_at. destruct (ws s) as [c|] eqn:Hws.
  - specialize (Hheld s c Hws). cbn [length first_fault].
    destruct (faults (length (net_calls s))) as [e|].
    + eexists. split; [exact Hheld|]. split; [reflexivity|]. exact Hws.
    + exact Hheld.
  - cbn [length first_fault].
    destruct (faults (length (net_calls s))) as [e|] eqn:Hf.
    { eexists. split; [apply send_once_create_raises; assumption|].
      split; [reflexivity|]. exact Hws. }
    destruct (faults (S (length (net_calls s)))) as [e|] eqn:Hf'.
    { eexists. split; [apply send_once_settimeout_raises; assumption|].
      split; [|reflexivity].
      cbn [set_ws log_call net_calls take]. rewrite <- !app_assoc. reflexivity. }
    rewrite (send_once_connected faults clock payload s Hws Hf Hf').
    set (s0 := log_call _ (set_ws _ (log_call _ s))).
    assert (Hlen : length (net_calls s0) = S (S (length (net_calls s)))).
    { unfold s0. cbn [set_ws log_call net_calls]. rewrite !length_app. cbn [length]. lia. }
    assert (Hcalls : net_calls s0 = net_calls s ++
              [CreateConnection (url s) (connect_timeout s);
               SetTimeout (length (net_calls s)) 1]).
    { unfold s0. cbn [set_ws log_call net_calls]. rewrite <- !app_assoc. reflexivity. }
    specialize (Hheld s0 (length (net_calls s)) eq_refl). rewrite Hlen in Hheld.
    destruct (faults (S (S (length (net_calls s))))) as [e|].
    + cbn [fmap option_fmap option_map prod_map id fst snd].
      eexists. split; [exact Hheld|]. split; [|reflexivity].
      cbn [log_call net_calls take]. rewrite Hcalls, <- !app_assoc. reflexivity.
    + destruct Hheld as (s1 & lp & Hrun & Htrace & Hsends & Hconnects).
      exists s1, lp. split; [exact Hrun|]. split; [|split; assumption].
      rewrite Htrace, Hcalls, <- !app_assoc. reflexivity.
Qed.

Lemma send_once_settings payload s :
  url (send_once faults clock payload s).2 = url s ∧
  connect_timeout (send_once faults clock payload s).2 = connect_timeout s.
Proof.
  destruct (send_once_spec faults clock payload s) as (r & s' & l & -> & Hext & _).
  destruct Hext as (_ & Hurl & Htimeout & _). split; assumption.
Qed.

End OneAttempt.

(** C4. For every grid and every pattern of transport failures
    ([WebSocketException] or [OSError] raised by any of the calls on the
    socket library), [send_grid] returns normally.  Its first attempt
    makes the calls of its plan: on a held connection the [send] of the
    payload, without one [create_connection], [settimeout] and the
    [send] on the new connection.  When none of them raises, the grid
    has been sent once and there is no second attempt.  When one
    raises, the connection held at that point, if any, is closed and
    discarded, and there is exactly one more attempt, which
    re-establishes and re-sends: [create_connection], [settimeout] and
    the [send] of the same payload on the new connection.  When a call
    of the second attempt raises too, the connection is closed and
    discarded again and [send_grid] returns holding no connection, so
    that the next call begins by opening one.  One call sends the grid
    at most twice and opens at most two connections. *)
Theorem send_grid_resilient (faults : nat → option exn) (clock : nat → Q)
    (grid : list (list (list atom))) (s : McduSocket) :
  (∀ k e, faults k = Some e → is_transport_error e = true) →
  let payload := grid_to_payload grid in
  let s' := (send_grid faults clock grid s).2 in
  (send_grid faults clock grid s).1 = Ok tt ∧
  match first_fault faults (length (net_calls s)) (length (attempt_plan payload s)) with
  | None =>
      ∃ lp, net_calls s' = net_calls s ++ attempt_plan payload s ++ lp ∧
            sends lp = 0%nat ∧ connects lp = 0%nat
  | Some (j, e) =>
      let l1 := take (S j) (attempt_plan payload s) ++ closing (held_at s j) in
      let k2 := (length (net_calls s) + length l1)%nat in
      let plan2 := [CreateConnection (url s) (connect_timeout s);
                    SetTimeout k2 1; Send k2 payload] in
      match first_fault faults k2 3 with
      | None =>
          ∃ lp, net_calls s' = net_calls s ++ l1 ++ plan2 ++ lp ∧
                sends lp = 0%nat ∧ connects lp = 0%nat
      | Some (j', e') =>
          net_calls s' =
            net_calls s ++ l1 ++ take (S j') plan2 ++
            closing (match j' with O => None | S _ => Some k2 end) ∧
          ws s' = None
      end
  end ∧
  (∀ s1, send_once faults clock payload s = (Ok tt, s1) →
         send_grid faults clock grid s = (Ok tt, s1)) ∧
  (∀ e s1,
     send_once faults clock payload s = (Raise e, s1) →
     ∃ s2, close_and_discard faults true s1 = (Ok tt, s2) ∧
           net_calls s2 = net_calls s1 ++ closing (ws s1) ∧ ws s2 = None ∧
           (∃ l', net_calls (send_once faults clock payload s2).2
                  = net_calls s2 ++ CreateConnection (url s) (connect_timeout s) :: l') ∧
           (∀ s3, send_once faults clock payload s2 = (Ok tt, s3) →
                  send_grid faults clock grid s = (Ok tt, s3)) ∧
           (∀ e' s3,
              send_once faults clock payload s2 = (Raise e', s3) →
              ∃ s4, send_grid faults clock grid s = (Ok tt, s4) ∧
                    close_and_discard faults true s3 = (Ok tt, s4) ∧
                    net_calls s4 = net_calls s3 ++ closing (ws s3) ∧
                    ws s4 = None ∧ url s4 = url s ∧
                    connect_timeout s4 = connect_timeout s)) ∧
  (∃ l, net_calls s' = net_calls s ++ l ∧
        (sends l ≤ 2)%nat ∧ (connects l ≤ 2)%nat ∧
        (ws s = None → ∃ l', l = CreateConnection (url s) (connect_timeout s) :: l')).
Proof.
  intros Htransport payload s'.
  destruct (send_grid_attempts faults clock grid s Htransport)
    as (Hreturns & Hfirst & Hsecond & Hbounds).
  split; [exact Hreturns|]. split; [|split; [exact Hfirst|split; [exact Hsecond|exact Hbounds]]].
  pose proof (send_once_attempt faults clock payload s) as H1.
  destruct (first_fault faults (length (net_calls s)) (length (attempt_plan payload s)))
    as [[j e]|] eqn:Hfault.
  2:{ destruct H1 as (s1 & lp & Hrun & Htrace & Hsends & Hconnects).
      exists lp. unfold s'. rewrite (Hfirst s1 Hrun). cbn [snd].
      split; [exact Htrace|]. split; assumption. }
  destruct H1 as (s1 & Hrun & Htrace & Hws1).
  destruct (Hsecond e s1 Hrun) as (s2 & Hclose & Htrace2 & Hws2 & _ & Hok & Hraise).
  assert (Hurl : url s2 = url s ∧ connect_timeout s2 = connect_timeout s).
  { destruct (close_and_discard_spec faults true s1) as (s2' & Hclose' & Hext & _).
    rewrite Hclose in Hclose'. injection Hclose' as <-.
    destruct Hext as (_ & Hu & Ht & _).
    destruct (send_once_settings faults clock payload s) as [Hu1 Ht1].
    rewrite Hrun in Hu1, Ht1. cbn [snd] in Hu1, Ht1.
    split; [rewrite Hu; exact Hu1|rewrite Ht; exact Ht1]. }
  cbn zeta.
  set (l1 := take (S j) (attempt_plan payload s) ++ closing (held_at s j)).
  assert (Hcalls2 : net_calls s2 = net_calls s ++ l1).
  { rewrite Htrace2, Htrace, Hws1. unfold l1. rewrite <- !app_assoc. reflexivity. }
  assert (Hlen2 : length (net_calls s2) = (length (net_calls s) + length l1)%nat)
    by (rewrite Hcalls2, length_app; reflexivity).
  pose proof (send_once_attempt faults clock payload s2) as H2.
  unfold attempt_plan at 1 2 3 in H2. unfold held_at in H2.
  rewrite Hws2 in H2. cbn [length] in H2.
  destruct Hurl as [Hu Ht]. rewrite Hu, Ht, Hlen2 in H2.
  destruct (first_fault faults (length (net_calls s) + length l1) 3) as [[j' e']|].
  - destruct H2 as (s3 & Hrun3 & Htrace3 & Hws3).
    destruct (Hraise e' s3 Hrun3) as (s4 & Hgrid & _ & Htrace4 & Hws4 & _).
    unfold s'. rewrite Hgrid. cbn [snd]. split; [|exact Hws4].
    rewrite Htrace4, Htrace3, Hws3, Hcalls2, <- !app_assoc. reflexivity.
  - destruct H2 as (s3 & lp & Hrun3 & Htrace3 & Hsends & Hconnects).
    exists lp. unfold s'. rewrite (Hok s3 Hrun3). cbn [snd].
    split; [|split; assumption].
    rewrite Htrace3, Hcalls2, <- !app_assoc. reflexivity.
Qed.

Lemma send_grid_resilient_witness :
  let payload := grid_to_payload empty_grid in
  let run := send_grid (failing_at [2]%nat) clock_100 empty_grid (new_McduSocket MCDU_URL) in
  run.1 = Ok tt ∧
  ∃ lp, net_calls run.2 =
          [CreateConnection MCDU_URL 2; SetTimeout 0 1; Send 0 payload; Close 0;
           CreateConnection MCDU_URL 2; SetTimeout 4 1; Send 4 payload] ++ lp ∧
        sends lp = 0%nat ∧ connects lp = 0%nat.
Proof.
  intros payload run.
  destruct (send_grid_resilient (failing_at [2]%nat) clock_100 empty_grid
              (new_McduSocket MCDU_URL)) as (Hreturns & Htrace & _).
  { intros k e H. unfold failing_at in H.
    destruct (bool_decide (k ∈ [2]%nat)); [|discriminate].
    injection H as <-. reflexivity. }
  split; [exact Hreturns|].
  change (first_fault (failing_at [2]%nat) (length (net_calls (new_McduSocket MCDU_URL)))
            (length (attempt_plan (grid_to_payload empty_grid) (new_McduSocket MCDU_URL))))
    with (Some (2%nat, OSError)) in Htrace.
  cbn zeta in Htrace.
  change (first_fault (failing_at [2]%nat) 4 3) with (@None (nat * exn)) in Htrace.
  destruct Htrace as (lp & Htrace & Hsends & Hconnects).
  exists lp. split; [exact Htrace|]. split; assumption.
Defined.
